(** * RTCM 3 stream decoder (rtcm.c, rtcm3.c): bit fields, CRC-24Q framing,
      station-id test, observation headers, station descriptors, ephemeris
      write policy, MSM header and signal slots, SSR code biases.

    The C sources are embedded function by function.  [unsigned int] and
    [int] are 32 bits wide and appear as [Z] with the wrap-around written
    out ([u32], [s32]); [unsigned char] arrays are lists of [Z] in 0..255;
    [double] is IEEE binary64 ([PrimFloat]); C strings are [string].
    Calls of trace() and the text written to [rtcm->msgtype] when
    [rtcm->outtype] is set do not influence any result and are left out. *)

From Stdlib Require Import ZArith Lia List Bool String Ascii.
From Stdlib Require Import Floats.PrimFloat Floats.FloatOps Floats.SpecFloat.
From Stdlib Require Import Numbers.Cyclic.Int63.Uint63.
From stdpp Require Import base list.

Set Warnings "-inexact-float".
Open Scope Z_scope.

(** ** Machine integers and C arrays *)

Definition u8 (x : Z) : Z := x mod 2 ^ 8.
Definition u32 (x : Z) : Z := x mod 2 ^ 32.

(** Conversion of a 32-bit pattern to [int] (two's complement). *)
Definition s32 (x : Z) : Z :=
  let w := u32 x in if w <? 2 ^ 31 then w else w - 2 ^ 32.

(** [a[i]] and [a[i]=v] on an array held as a list.  An index outside the
    array, negative or past the end, is undefined in C; here a read yields 0
    and a write is dropped. *)
Definition arr_get (a : list Z) (i : Z) : Z :=
  if i <? 0 then 0 else default 0 (a !! Z.to_nat i).
Definition arr_set (a : list Z) (i v : Z) : list Z :=
  if i <? 0 then a else <[Z.to_nat i := v]> a.

(** [for (i=i0; n times; i++) s = body i s]. *)
Fixpoint for_range {S : Type} (n : nat) (i : Z) (body : Z -> S -> S) (s : S) : S :=
  match n with
  | O => s
  | S n' => for_range n' (i + 1) body (body i s)
  end.

(** ** Bit-field codec (getbitu, getbits in rtcm3.c; setbitu in rtcm.c) *)

Definition byte_at (buff : list Z) (k : Z) : Z := arr_get buff k.

(** [(buff[i/8]>>(7-i%8))&1u] *)
Definition bit_at (buff : list Z) (i : Z) : Z :=
  Z.land (Z.shiftr (byte_at buff (Z.quot i 8)) (7 - Z.rem i 8)) 1.

Fixpoint getbitu_loop (n : nat) (buff : list Z) (i bits : Z) : Z :=
  match n with
  | O => bits
  | S n' => getbitu_loop n' buff (i + 1) (u32 (Z.shiftl bits 1 + bit_at buff i))
  end.

(** [for (i=pos;i<pos+len;i++) bits=(bits<<1)+...]: the body runs [len]
    times when [len] is positive and not at all otherwise. *)
Definition getbitu (buff : list Z) (pos len : Z) : Z :=
  getbitu_loop (Z.to_nat len) buff pos 0.

Definition getbits (buff : list Z) (pos len : Z) : Z :=
  let bits := getbitu buff pos len in
  if (len <=? 0) || (32 <=? len) ||
     (Z.land bits (u32 (Z.shiftl 1 (len - 1))) =? 0)
  then s32 bits
  else s32 (Z.lor bits (u32 (Z.shiftl (2 ^ 32 - 1) len))).

(** One pass of the body of setbitu:
    [if (data&mask) buff[i/8]|=1u<<(7-i%8); else buff[i/8]&=~(1u<<(7-i%8));] *)
Definition setbit (buff : list Z) (i : Z) (on : bool) : list Z :=
  let k := Z.quot i 8 in
  let m := u32 (Z.shiftl 1 (7 - Z.rem i 8)) in
  let b := byte_at buff k in
  arr_set buff k (u8 (if on then Z.lor b m else Z.land b (u32 (Z.lnot m)))).

Fixpoint setbitu_loop (n : nat) (buff : list Z) (i mask data : Z) : list Z :=
  match n with
  | O => buff
  | S n' =>
      setbitu_loop n' (setbit buff i (negb (Z.land data mask =? 0)))
        (i + 1) (Z.shiftr mask 1) data
  end.

Definition setbitu (buff : list Z) (pos len data : Z) : list Z :=
  if (len <=? 0) || (32 <? len) then buff
  else setbitu_loop (Z.to_nat len) buff pos (u32 (Z.shiftl 1 (len - 1))) data.

(** The signed 38-bit field of the station messages.  The C expression
    [(double)getbits(buff,pos,32)*64.0+getbitu(buff,pos+32,6)] is an integer
    below 2^38 in magnitude, which binary64 holds exactly. *)
Definition getbits_38 (buff : list Z) (pos : Z) : Z :=
  getbits buff pos 32 * 64 + getbitu buff (pos + 32) 6.

(** ** CRC-24Q (rtk_crc24q in rtcm.c) *)

Definition RTCM3PREAMB : Z := 0xD3.

Definition tbl_CRC24Q : list Z := [
    0x000000; 0x864CFB; 0x8AD50D; 0x0C99F6; 0x93E6E1; 0x15AA1A; 0x1933EC; 0x9F7F17;
    0xA18139; 0x27CDC2; 0x2B5434; 0xAD18CF; 0x3267D8; 0xB42B23; 0xB8B2D5; 0x3EFE2E;
    0xC54E89; 0x430272; 0x4F9B84; 0xC9D77F; 0x56A868; 0xD0E493; 0xDC7D65; 0x5A319E;
    0x64CFB0; 0xE2834B; 0xEE1ABD; 0x685646; 0xF72951; 0x7165AA; 0x7DFC5C; 0xFBB0A7;
    0x0CD1E9; 0x8A9D12; 0x8604E4; 0x00481F; 0x9F3708; 0x197BF3; 0x15E205; 0x93AEFE;
    0xAD50D0; 0x2B1C2B; 0x2785DD; 0xA1C926; 0x3EB631; 0xB8FACA; 0xB4633C; 0x322FC7;
    0xC99F60; 0x4FD39B; 0x434A6D; 0xC50696; 0x5A7981; 0xDC357A; 0xD0AC8C; 0x56E077;
    0x681E59; 0xEE52A2; 0xE2CB54; 0x6487AF; 0xFBF8B8; 0x7DB443; 0x712DB5; 0xF7614E;
    0x19A3D2; 0x9FEF29; 0x9376DF; 0x153A24; 0x8A4533; 0x0C09C8; 0x00903E; 0x86DCC5;
    0xB822EB; 0x3E6E10; 0x32F7E6; 0xB4BB1D; 0x2BC40A; 0xAD88F1; 0xA11107; 0x275DFC;
    0xDCED5B; 0x5AA1A0; 0x563856; 0xD074AD; 0x4F0BBA; 0xC94741; 0xC5DEB7; 0x43924C;
    0x7D6C62; 0xFB2099; 0xF7B96F; 0x71F594; 0xEE8A83; 0x68C678; 0x645F8E; 0xE21375;
    0x15723B; 0x933EC0; 0x9FA736; 0x19EBCD; 0x8694DA; 0x00D821; 0x0C41D7; 0x8A0D2C;
    0xB4F302; 0x32BFF9; 0x3E260F; 0xB86AF4; 0x2715E3; 0xA15918; 0xADC0EE; 0x2B8C15;
    0xD03CB2; 0x567049; 0x5AE9BF; 0xDCA544; 0x43DA53; 0xC596A8; 0xC90F5E; 0x4F43A5;
    0x71BD8B; 0xF7F170; 0xFB6886; 0x7D247D; 0xE25B6A; 0x641791; 0x688E67; 0xEEC29C;
    0x3347A4; 0xB50B5F; 0xB992A9; 0x3FDE52; 0xA0A145; 0x26EDBE; 0x2A7448; 0xAC38B3;
    0x92C69D; 0x148A66; 0x181390; 0x9E5F6B; 0x01207C; 0x876C87; 0x8BF571; 0x0DB98A;
    0xF6092D; 0x7045D6; 0x7CDC20; 0xFA90DB; 0x65EFCC; 0xE3A337; 0xEF3AC1; 0x69763A;
    0x578814; 0xD1C4EF; 0xDD5D19; 0x5B11E2; 0xC46EF5; 0x42220E; 0x4EBBF8; 0xC8F703;
    0x3F964D; 0xB9DAB6; 0xB54340; 0x330FBB; 0xAC70AC; 0x2A3C57; 0x26A5A1; 0xA0E95A;
    0x9E1774; 0x185B8F; 0x14C279; 0x928E82; 0x0DF195; 0x8BBD6E; 0x872498; 0x016863;
    0xFAD8C4; 0x7C943F; 0x700DC9; 0xF64132; 0x693E25; 0xEF72DE; 0xE3EB28; 0x65A7D3;
    0x5B59FD; 0xDD1506; 0xD18CF0; 0x57C00B; 0xC8BF1C; 0x4EF3E7; 0x426A11; 0xC426EA;
    0x2AE476; 0xACA88D; 0xA0317B; 0x267D80; 0xB90297; 0x3F4E6C; 0x33D79A; 0xB59B61;
    0x8B654F; 0x0D29B4; 0x01B042; 0x87FCB9; 0x1883AE; 0x9ECF55; 0x9256A3; 0x141A58;
    0xEFAAFF; 0x69E604; 0x657FF2; 0xE33309; 0x7C4C1E; 0xFA00E5; 0xF69913; 0x70D5E8;
    0x4E2BC6; 0xC8673D; 0xC4FECB; 0x42B230; 0xDDCD27; 0x5B81DC; 0x57182A; 0xD154D1;
    0x26359F; 0xA07964; 0xACE092; 0x2AAC69; 0xB5D37E; 0x339F85; 0x3F0673; 0xB94A88;
    0x87B4A6; 0x01F85D; 0x0D61AB; 0x8B2D50; 0x145247; 0x921EBC; 0x9E874A; 0x18CBB1;
    0xE37B16; 0x6537ED; 0x69AE1B; 0xEFE2E0; 0x709DF7; 0xF6D10C; 0xFA48FA; 0x7C0401;
    0x42FA2F; 0xC4B6D4; 0xC82F22; 0x4E63D9; 0xD11CCE; 0x575035; 0x5BC9C3; 0xDD8538
].

(** [crc=((crc<<8)&0xFFFFFF)^tbl_CRC24Q[(crc>>16)^buff[i]]] *)
Definition crc24q_step (buff : list Z) (i crc : Z) : Z :=
  Z.lxor (Z.land (u32 (Z.shiftl crc 8)) 0xFFFFFF)
         (arr_get tbl_CRC24Q (Z.lxor (Z.shiftr crc 16) (byte_at buff i))).

Definition rtk_crc24q (buff : list Z) (len : Z) : Z :=
  for_range (Z.to_nat len) 0 (crc24q_step buff) 0.

(** ** C library calls on strings *)

Definition ascii_eqb (a b : ascii) : bool := Ascii.eqb a b.

(** [isspace] in the C locale. *)
Definition isspace (c : ascii) : bool :=
  let n := Z.of_nat (nat_of_ascii c) in (n =? 32) || ((9 <=? n) && (n <=? 13)).

Definition isdigit (c : ascii) : bool :=
  let n := Z.of_nat (nat_of_ascii c) in (48 <=? n) && (n <=? 57).

(** [s[i]], with the terminating NUL read at and past the end. *)
Definition char_at (s : string) (i : nat) : ascii :=
  match String.get i s with Some c => c | None => Ascii.zero end.

(** [strstr(s,t)]: the suffix of [s] that starts at the first occurrence
    of [t], or [None] for a null pointer. *)
Fixpoint strstr (s t : string) : option string :=
  if String.prefix t s then Some s
  else match s with
       | EmptyString => None
       | String _ s' => strstr s' t
       end.

(** [strchr(s,c)] as the offset of the match from [s]; the terminator
    matches a NUL argument. *)
Fixpoint strchr (s : string) (c : ascii) : option Z :=
  match s with
  | EmptyString => if ascii_eqb c Ascii.zero then Some 0 else None
  | String a s' =>
      if ascii_eqb a c then Some 0
      else match strchr s' c with Some k => Some (k + 1) | None => None end
  end.

Fixpoint drop_prefix (lit s : string) : option string :=
  match lit, s with
  | EmptyString, _ => Some s
  | String a lit', String b s' => if ascii_eqb a b then drop_prefix lit' s' else None
  | String _ _, EmptyString => None
  end.

Fixpoint skip_space (s : string) : string :=
  match s with
  | String c s' => if isspace c then skip_space s' else s
  | EmptyString => s
  end.

(** [sscanf(p,lit "%2s",str)<1] is [None]; otherwise the two bytes
    [str[0]], [str[1]] that the conversion stores ([str[1]] is the NUL when
    a single character was read). *)
Definition sscanf_2s (lit p : string) : option (ascii * ascii) :=
  match drop_prefix lit p with
  | None => None
  | Some rest =>
      match skip_space rest with
      | EmptyString => None
      | String c0 rest' =>
          match rest' with
          | EmptyString => Some (c0, Ascii.zero)
          | String c1 _ => Some (c0, if isspace c1 then Ascii.zero else c1)
          end
      end
  end.

Fixpoint scan_digits (s : string) (acc : Z) : Z :=
  match s with
  | String c s' =>
      if isdigit c then scan_digits s' (acc * 10 + (Z.of_nat (nat_of_ascii c) - 48))
      else acc
  | EmptyString => acc
  end.

Definition starts_with_digit (s : string) : bool :=
  match s with String c _ => isdigit c | EmptyString => false end.

(** The value a [%d] conversion stores in an [int]: the digits are converted
    as strtol does, which stops at the ends of [long] (64 bits), and the
    [long] is then cut to 32 bits.  C leaves a number outside [int]
    undefined; this is what the library does with it. *)
Definition int_of_digits (v : Z) : Z :=
  s32 (Z.max (- 2 ^ 63) (Z.min (2 ^ 63 - 1) v)).

(** [sscanf(p,lit "%d",&id)==1] yields [Some id]: white space is skipped,
    a sign is optional, at least one digit is required. *)
Definition sscanf_d (lit p : string) : option Z :=
  match drop_prefix lit p with
  | None => None
  | Some rest =>
      match skip_space rest with
      | String "-"%char ds =>
          if starts_with_digit ds then Some (int_of_digits (- scan_digits ds 0)) else None
      | String "+"%char ds =>
          if starts_with_digit ds then Some (int_of_digits (scan_digits ds 0)) else None
      | ds => if starts_with_digit ds then Some (int_of_digits (scan_digits ds 0)) else None
      end
  end.

(** ** Satellite systems and observation codes (rtcm3.c tables) *)

Inductive sys_t : Type :=
  | SYS_NONE | SYS_GPS | SYS_SBS | SYS_GLO | SYS_GAL | SYS_QZS | SYS_CMP | SYS_LEO.

Definition sys_eqb (a b : sys_t) : bool :=
  match a, b with
  | SYS_NONE, SYS_NONE | SYS_GPS, SYS_GPS | SYS_SBS, SYS_SBS | SYS_GLO, SYS_GLO
  | SYS_GAL, SYS_GAL | SYS_QZS, SYS_QZS | SYS_CMP, SYS_CMP | SYS_LEO, SYS_LEO => true
  | _, _ => false
  end.

Definition CODE_NONE : Z := 0.

Definition obscodes : list string := [
    ""  ;"1C";"1P";"1W";"1Y"; "1M";"1N";"1S";"1L";"1E";
    "1A";"1B";"1X";"1Z";"2C"; "2D";"2S";"2L";"2X";"2P";
    "2W";"2Y";"2M";"2N";"5I"; "5Q";"5X";"7I";"7Q";"7X";
    "6A";"6B";"6C";"6X";"6Z"; "6S";"6L";"8L";"8Q";"8X";
    "2I";"2Q";"6I";"6Q";"3I"; "3Q";"3X";"1I";"1Q";""
]%string.

Definition obsfreqs : list Z := [
    0; 1; 1; 1; 1;  1; 1; 1; 1; 1;
    1; 1; 1; 1; 2;  2; 2; 2; 2; 2;
    2; 2; 2; 2; 3;  3; 3; 5; 5; 5;
    4; 4; 4; 4; 4;  4; 4; 6; 6; 6;
    2; 2; 4; 4; 3;  3; 3; 1; 1; 0
].

Definition codepris : list (list string) := [
    ["CPYWMNSL";"PYWCMNDSLX";"IQX"     ;""       ;""       ;""   ];
    ["PC"      ;"PC"        ;"IQX"     ;""       ;""       ;""   ];
    ["CABXZ"   ;""          ;"IQX"     ;"ABCXZ"  ;"IQX"    ;"IQX"];
    ["CSLXZ"   ;"SLX"       ;"IQX"     ;"SLX"    ;""       ;""   ];
    ["C"       ;""          ;"IQX"     ;""       ;""       ;""   ];
    ["IQX"     ;"IQX"       ;"IQX"     ;"IQX"    ;"IQX"    ;""   ]
]%string.


Definition str_get (tbl : list string) (i : Z) : string :=
  default EmptyString (tbl !! Z.to_nat i).

(** [for (i=1;*obscodes[i];i++) { if (strcmp(obscodes[i],obs)) continue; ... }] *)
Fixpoint obs2code_loop (tbl : list string) (i : Z) (obs : string) : Z * Z :=
  match tbl with
  | [] => (CODE_NONE, 0)
  | s :: tbl' =>
      if String.eqb s EmptyString then (CODE_NONE, 0)
      else if String.eqb s obs then (i, arr_get obsfreqs i)
      else obs2code_loop tbl' (i + 1) obs
  end.

(** Returns the code and the value stored through [freq]. *)
Definition obs2code (obs : string) : Z * Z :=
  obs2code_loop (drop 1 obscodes) 1 obs.

(** ** Records of rtklib.h as the decoders use them *)

(** [gtime_t]: whole seconds ([time_t time]) and fraction ([double sec]). *)
Record gtime_t : Type := mk_gtime { gt_time : Z; gt_sec : float }.

(** [eph_t].  Every broadcast parameter is kept as the integer read from
    the frame; the constant scale factors of rtklib.h (P2_xx, SC2RAD) that
    the C code multiplies in are left out.  [eph_fit] is in hours and
    [eph_toes] in seconds, both whole numbers. *)
Record eph_t : Type := mk_eph {
  eph_sat : Z; eph_iode : Z; eph_iodc : Z; eph_sva : Z; eph_svh : Z;
  eph_week : Z; eph_code : Z; eph_flag : Z;
  eph_toe : gtime_t; eph_toc : gtime_t; eph_ttr : gtime_t;
  eph_sqrtA : Z; eph_e : Z; eph_i0 : Z; eph_OMG0 : Z; eph_omg : Z; eph_M0 : Z;
  eph_deln : Z; eph_OMGd : Z; eph_idot : Z;
  eph_crc : Z; eph_crs : Z; eph_cuc : Z; eph_cus : Z; eph_cic : Z; eph_cis : Z;
  eph_toes : Z; eph_fit : Z; eph_f0 : Z; eph_f1 : Z; eph_f2 : Z; eph_tgd0 : Z
}.

(** [sta_t], the members the station messages assign: the ARP members and
    the descriptor strings, each a [char] array. *)
Record sta_t : Type := mk_sta {
  sta_deltype : Z; sta_pos : list float; sta_del : list float;
  sta_hgt : float; sta_itrf : Z;
  sta_antdes : list Z; sta_antsno : list Z; sta_antsetup : Z;
  sta_rectype : list Z; sta_recver : list Z; sta_recsno : list Z
}.

(** The assignments of types 1005 and 1006 to [rtcm->sta]. *)
Definition set_arp (s : sta_t) (deltype : Z) (pos del : list float) (hgt : float)
    (itrf : Z) : sta_t :=
  mk_sta deltype pos del hgt itrf (sta_antdes s) (sta_antsno s) (sta_antsetup s)
         (sta_rectype s) (sta_recver s) (sta_recsno s).

Record obsd_t : Type := mk_obsd {
  od_time : gtime_t; od_sat : Z;
  od_SNR : list Z; od_LLI : list Z; od_code : list Z;
  od_L : list float; od_P : list float; od_D : list float
}.

Record obs_t : Type := mk_obs { obs_n : Z; obs_data : list obsd_t }.

(** [ssr_t], the members the code-bias message assigns.  A bias is kept as
    the signed 14-bit field (unit 0.01 m). *)
Record ssr_t : Type := mk_ssr {
  ssr_t0 : list gtime_t; ssr_udi : list float; ssr_iod : list Z;
  ssr_cbias : list Z; ssr_update : Z
}.

(** [msm_h_t] *)
Record msm_h_t : Type := mk_msm_h {
  h_iod : Z; h_time_s : Z; h_clk_str : Z; h_clk_ext : Z; h_smooth : Z; h_tint_s : Z;
  h_nsat : Z; h_nsig : Z;
  h_sats : list Z; h_sigs : list Z; h_cellmask : list Z
}.

(** [rtcm_t], the members read or written by the functions below. *)
Record rtcm_t : Type := mk_rtcm {
  staid : Z; rtime : gtime_t; obs : obs_t; nav_eph : list eph_t;
  sta : sta_t; ssr : list ssr_t; opt : string;
  obsflag : Z; ephsat : Z; nbyte : Z; len : Z; buff : list Z
}.

Definition set_staid (r : rtcm_t) (v : Z) : rtcm_t :=
  mk_rtcm v (rtime r) (obs r) (nav_eph r) (sta r) (ssr r) (opt r)
          (obsflag r) (ephsat r) (nbyte r) (len r) (buff r).
Definition set_rtime (r : rtcm_t) (v : gtime_t) : rtcm_t :=
  mk_rtcm (staid r) v (obs r) (nav_eph r) (sta r) (ssr r) (opt r)
          (obsflag r) (ephsat r) (nbyte r) (len r) (buff r).
Definition set_nav_eph (r : rtcm_t) (v : list eph_t) : rtcm_t :=
  mk_rtcm (staid r) (rtime r) (obs r) v (sta r) (ssr r) (opt r)
          (obsflag r) (ephsat r) (nbyte r) (len r) (buff r).
Definition set_sta (r : rtcm_t) (v : sta_t) : rtcm_t :=
  mk_rtcm (staid r) (rtime r) (obs r) (nav_eph r) v (ssr r) (opt r)
          (obsflag r) (ephsat r) (nbyte r) (len r) (buff r).
Definition set_ssr (r : rtcm_t) (v : list ssr_t) : rtcm_t :=
  mk_rtcm (staid r) (rtime r) (obs r) (nav_eph r) (sta r) v (opt r)
          (obsflag r) (ephsat r) (nbyte r) (len r) (buff r).
Definition set_obsflag (r : rtcm_t) (v : Z) : rtcm_t :=
  mk_rtcm (staid r) (rtime r) (obs r) (nav_eph r) (sta r) (ssr r) (opt r)
          v (ephsat r) (nbyte r) (len r) (buff r).
Definition set_ephsat (r : rtcm_t) (v : Z) : rtcm_t :=
  mk_rtcm (staid r) (rtime r) (obs r) (nav_eph r) (sta r) (ssr r) (opt r)
          (obsflag r) v (nbyte r) (len r) (buff r).
Definition set_nbyte (r : rtcm_t) (v : Z) : rtcm_t :=
  mk_rtcm (staid r) (rtime r) (obs r) (nav_eph r) (sta r) (ssr r) (opt r)
          (obsflag r) (ephsat r) v (len r) (buff r).
Definition set_len (r : rtcm_t) (v : Z) : rtcm_t :=
  mk_rtcm (staid r) (rtime r) (obs r) (nav_eph r) (sta r) (ssr r) (opt r)
          (obsflag r) (ephsat r) (nbyte r) v (buff r).
Definition set_buff (r : rtcm_t) (v : list Z) : rtcm_t :=
  mk_rtcm (staid r) (rtime r) (obs r) (nav_eph r) (sta r) (ssr r) (opt r)
          (obsflag r) (ephsat r) (nbyte r) (len r) v.

(** What a decoder hands back: the control record and the [int] status. *)
Definition status : Type := (rtcm_t * Z)%type.

(** Outputs of decode_msm_head: the return value and what is stored
    through [sync], [iod], [h] and [hsize] (0 where nothing was stored). *)
Record msm_head : Type := mk_msm_head {
  mh_ret : Z; mh_sync : Z; mh_iod : Z; mh_h : msm_h_t; mh_hsize : Z
}.

(** ** Compile-time constants and host services

    rtklib.h is not among the sources, so its constants are parameters.
    The time reconstruction (adjweek, adjday_glot, adjgpsweek) reads the
    host clock through timeget and only assigns [rtcm->time]; it enters as
    a function on that member.  The sample loops of the MSM bodies with
    save_msm_obs, the sample loops of the observation messages 1002, 1004,
    1010 and 1012 ([obs_payload], by message type and satellite count), and
    the dispatcher decode_rtcm3 that the framer calls, are taken as given
    functions. *)
Class rtklib_h : Type := {
  NFREQ : Z;
  NEXOBS : Z;
  MAXCODE : Z;
  MINPRN : sys_t -> Z;
  MAXPRN : sys_t -> Z;
  NSAT : sys_t -> Z;
  cpu_gpsweek : Z;
  adjweek_time : gtime_t -> float -> gtime_t;
  adjday_glot_time : gtime_t -> float -> gtime_t;
  msm_payload : Z -> sys_t -> msm_head -> rtcm_t -> rtcm_t;
  obs_payload : Z -> Z -> rtcm_t -> rtcm_t;
  decode_rtcm3 : rtcm_t -> status
}.

(** [(double)n] for an integer of magnitude below 2^53. *)
Definition Z2float (z : Z) : float :=
  if z <? 0 then PrimFloat.opp (PrimFloat.of_uint63 (Uint63.of_Z (- z)))
  else PrimFloat.of_uint63 (Uint63.of_Z z).



(** ** s/n ratio (snratio) *)


(** ** Bit cursor: a field read advances [i] by its width *)

Definition reader (A : Type) : Type := list Z -> Z -> A * Z.

Definition rd_ret {A : Type} (a : A) : reader A := fun _ i => (a, i).
Definition rd_bind {A B : Type} (m : reader A) (k : A -> reader B) : reader B :=
  fun b i => let '(a, i') := m b i in k a b i'.

Declare Scope reader_scope.
Delimit Scope reader_scope with rd.
Notation "'let*' x ':=' m 'in' k" := (rd_bind m (fun x => k))
  (at level 10, x name, m at level 100, k at level 200) : reader_scope.

(** [v=getbitu(rtcm->buff,i,n); i+=n;] and the signed form. *)
Definition fieldu (n : Z) : reader Z := fun b i => (getbitu b i n, i + n).
Definition fields (n : Z) : reader Z := fun b i => (getbits b i n, i + n).
Definition skip (n : Z) : reader unit := fun _ i => (tt, i + n).

Section Decoders.
Context `{env : rtklib_h}.

(** ** Satellite numbers (satno) *)

(** Start of a system's block of satellite numbers: the sum of NSATxxx
    over the systems that precede it. *)
Definition sat_base (sys : sys_t) : Z :=
  match sys with
  | SYS_GPS => 0
  | SYS_GLO => NSAT SYS_GPS
  | SYS_GAL => NSAT SYS_GPS + NSAT SYS_GLO
  | SYS_QZS => NSAT SYS_GPS + NSAT SYS_GLO + NSAT SYS_GAL
  | SYS_CMP => NSAT SYS_GPS + NSAT SYS_GLO + NSAT SYS_GAL + NSAT SYS_QZS
  | SYS_LEO => NSAT SYS_GPS + NSAT SYS_GLO + NSAT SYS_GAL + NSAT SYS_QZS + NSAT SYS_CMP
  | SYS_SBS => NSAT SYS_GPS + NSAT SYS_GLO + NSAT SYS_GAL + NSAT SYS_QZS + NSAT SYS_CMP
               + NSAT SYS_LEO
  | SYS_NONE => 0
  end.

Definition satno (sys : sys_t) (prn : Z) : Z :=
  if prn <=? 0 then 0
  else match sys with
       | SYS_NONE => 0
       | _ => if (prn <? MINPRN sys) || (MAXPRN sys <? prn) then 0
              else sat_base sys + prn - MINPRN sys + 1
       end.

(** ** Observation codes and code priority (code2obs, getcodepri) *)

(** Returns the string and the value stored through [freq]. *)
Definition code2obs (code : Z) : string * Z :=
  if (code <=? CODE_NONE) || (MAXCODE <? code) then (EmptyString, 0)
  else (str_get obscodes code, arr_get obsfreqs code).

(** [for (p=opt;p&&(p=strchr(p,'-'));p++) { if (sscanf(p,optstr,str)<1||
    str[0]!=obs[0]) continue; return str[1]==obs[1]?15:0; }]:
    [Some] is the value returned from inside the loop. *)
Fixpoint code_option (lit obs p : string) : option Z :=
  match p with
  | EmptyString => None
  | String c p' =>
      if ascii_eqb c "-"%char then
        match sscanf_2s lit p with
        | Some (c0, c1) =>
            if ascii_eqb c0 (char_at obs 0)
            then Some (if ascii_eqb c1 (char_at obs 1) then 15 else 0)
            else code_option lit obs p'
        | None => code_option lit obs p'
        end
      else code_option lit obs p'
  end.

Definition codepri_row (i j : Z) : string :=
  str_get (default [] (codepris !! Z.to_nat i)) j.

Definition getcodepri (sys : sys_t) (code : Z) (opts : string) : Z :=
  let sel :=
    match sys with
    | SYS_GPS => Some (0, "-GL"%string)
    | SYS_GLO => Some (1, "-RL"%string)
    | SYS_GAL => Some (2, "-EL"%string)
    | SYS_QZS => Some (3, "-JL"%string)
    | SYS_SBS => Some (4, "-SL"%string)
    | SYS_CMP => Some (5, "-CL"%string)
    | _ => None
    end in
  match sel with
  | None => 0
  | Some (i, lit) =>
      let '(obs, j) := code2obs code in
      match code_option lit obs opts with
      | Some v => v
      | None =>
          match strchr (codepri_row i (j - 1)) (char_at obs 1) with
          | Some k => 14 - k
          | None => 0
          end
      end
  end.

(** ** Signal index (sigindex) *)







(** ** Time members *)

Definition adjweek (r : rtcm_t) (tow : float) : rtcm_t :=
  set_rtime r (adjweek_time (rtime r) tow).
Definition adjday_glot (r : rtcm_t) (tod : float) : rtcm_t :=
  set_rtime r (adjday_glot_time (rtime r) tod).

(** [w] is the week of the host clock. *)
Definition adjgpsweek (week : Z) : Z :=
  let w := if cpu_gpsweek <? 1560 then 1560 else cpu_gpsweek in
  week + Z.quot (w - week + 512) 1024 * 1024.

(** gpst2time for a whole number of seconds; epoch2time(gpst0) is
    315964800.  The fraction [sec-(int)sec] is zero.  In
    [t.time+=86400*7*week+(int)sec] the right-hand side is formed in [int],
    shown with its 32-bit wrap-around, and added to the [time_t]. *)
Definition gpst2time (week sec : Z) : gtime_t :=
  let sec := if (sec <? -1000000000) || (1000000000 <? sec) then 0 else sec in
  mk_gtime (315964800 + s32 (86400 * 7 * week + sec)) 0%float.

(** ** Station id test (test_staid) *)

(** [(p=strstr(opt,"-STA="))&&sscanf(p,"-STA=%d",&id)==1] yields [Some id]. *)
Definition sta_option (opts : string) : option Z :=
  match strstr opts "-STA=" with
  | Some p => sscanf_d "-STA=" p
  | None => None
  end.

Definition test_staid (r : rtcm_t) (sid : Z) : rtcm_t * Z :=
  let other_station :=
    match sta_option (opt r) with
    | Some id => negb (sid =? id)
    | None => false
    end in
  if other_station then (r, 0)
  else if (staid r =? 0) || negb (obsflag r =? 0) then (set_staid r sid, 1)
  else if negb (sid =? staid r) then (set_staid r 0, 0)
  else (r, 1).

(** ** Observation headers and header-only types (1001, 1003) *)

(** Returns the control record, the return value and [*sync]. *)
Definition decode_head1001 (r : rtcm_t) : rtcm_t * Z * Z :=
  let i := 24 + 12 in
  if i + 52 <=? len r * 8 then
    let sid := getbitu (buff r) i 12 in
    let tow := PrimFloat.mul (Z2float (getbitu (buff r) (i + 12) 30)) 0.001 in
    let sync := getbitu (buff r) (i + 42) 1 in
    let nsat := getbitu (buff r) (i + 43) 5 in
    let '(r1, ok) := test_staid r sid in
    if ok =? 0 then (r1, -1, sync)
    else (adjweek r1 tow, nsat, sync)
  else (r, -1, 0).

Definition decode_type1001 (r : rtcm_t) : status :=
  let '(r1, ret, sync) := decode_head1001 r in
  if ret <? 0 then (r1, -1)
  else (set_obsflag r1 (if sync =? 0 then 1 else 0), if sync =? 0 then 1 else 0).

Definition decode_type1003 (r : rtcm_t) : status := decode_type1001 r.

(** Types 1002 and 1004: the header, then the sample loop ([obs_payload]).
    After the loop 1004 assigns [rtcm->obsflag=!sync]; 1002 does not. *)
Definition decode_type1002 (r : rtcm_t) : status :=
  let '(r1, nsat, sync) := decode_head1001 r in
  if nsat <? 0 then (r1, -1)
  else (obs_payload 1002 nsat r1, if sync =? 0 then 1 else 0).

Definition decode_type1004 (r : rtcm_t) : status :=
  let '(r1, nsat, sync) := decode_head1001 r in
  if nsat <? 0 then (r1, -1)
  else (set_obsflag (obs_payload 1004 nsat r1) (if sync =? 0 then 1 else 0),
        if sync =? 0 then 1 else 0).

(** ** Station ARP (1005, 1006) *)

Definition arp_pos (rr0 rr1 rr2 : Z) : list float :=
  [PrimFloat.mul (Z2float rr0) 0.0001;
   PrimFloat.mul (Z2float rr1) 0.0001;
   PrimFloat.mul (Z2float rr2) 0.0001].

Definition decode_type1005 (r : rtcm_t) : status :=
  let i := 24 + 12 in
  if i + 140 =? len r * 8 then
    let sid := getbitu (buff r) i 12 in
    let itrf := getbitu (buff r) (i + 12) 6 in
    let rr0 := getbits_38 (buff r) (i + 22) in
    let rr1 := getbits_38 (buff r) (i + 62) in
    let rr2 := getbits_38 (buff r) (i + 102) in
    let '(r1, ok) := test_staid r sid in
    if ok =? 0 then (r1, -1)
    else (set_sta r1 (set_arp (sta r1) 0 (arp_pos rr0 rr1 rr2) [0; 0; 0]%float
                              0%float itrf), 5)
  else (r, -1).

Definition decode_type1006 (r : rtcm_t) : status :=
  let i := 24 + 12 in
  if i + 156 <=? len r * 8 then
    let sid := getbitu (buff r) i 12 in
    let itrf := getbitu (buff r) (i + 12) 6 in
    let rr0 := getbits_38 (buff r) (i + 22) in
    let rr1 := getbits_38 (buff r) (i + 62) in
    let rr2 := getbits_38 (buff r) (i + 102) in
    let anth := getbitu (buff r) (i + 140) 16 in
    let '(r1, ok) := test_staid r sid in
    if ok =? 0 then (r1, -1)
    else (set_sta r1 (set_arp (sta r1) 1 (arp_pos rr0 rr1 rr2) [0; 0; 0]%float
                              (PrimFloat.mul (Z2float anth) 0.0001) itrf), 5)
  else (r, -1).

(** ** Antenna and receiver descriptors (1007, 1008, 1033) *)

(** [for (j=0;j<n&&j<31;j++) { des[j]=(char)getbitu(buff,i,8); i+=8; }] on
    [char des[32]=""]: the array and the position reached.  A character is
    kept as its byte. *)
Definition read_chars (b : list Z) (i n : Z) : list Z * Z :=
  let k := Z.to_nat (Z.min n 31) in
  (for_range k 0 (fun j des => arr_set des j (getbitu b (i + 8 * j) 8)) (replicate 32 0),
   i + 8 * Z.of_nat k).

Fixpoint strlen (s : list Z) : Z :=
  match s with
  | [] => 0
  | c :: s' => if c =? 0 then 0 else 1 + strlen s'
  end.

(** [strncpy(dst,src,n); dst[n]='\0';]: [n] bytes are written, those of
    [src] up to its terminator and zeros from there on.  [n] comes from the
    frame and is not compared with the size of the member; what would be
    written past its end is dropped here. *)
Definition strncpy0 (dst src : list Z) (n : Z) : list Z :=
  arr_set
    (for_range (Z.to_nat n) 0
       (fun k d => arr_set d k (if k <? strlen src then arr_get src k else 0)) dst)
    n 0.

Definition decode_type1007 (r : rtcm_t) : status :=
  let i := 24 + 12 in
  let n := getbitu (buff r) (i + 12) 8 in
  if i + 28 + 8 * n <=? len r * 8 then
    let sid := getbitu (buff r) i 12 in
    let '(des, i) := read_chars (buff r) (i + 12 + 8) n in
    let setup := getbitu (buff r) i 8 in
    let '(r1, ok) := test_staid r sid in
    if ok =? 0 then (r1, -1)
    else
      let s := sta r1 in
      (set_sta r1
         (mk_sta (sta_deltype s) (sta_pos s) (sta_del s) (sta_hgt s) (sta_itrf s)
                 (strncpy0 (sta_antdes s) des n) (arr_set (sta_antsno s) 0 0) setup
                 (sta_rectype s) (sta_recver s) (sta_recsno s)), 5)
  else (r, -1).

Definition decode_type1008 (r : rtcm_t) : status :=
  let i := 24 + 12 in
  let n := getbitu (buff r) (i + 12) 8 in
  let m := getbitu (buff r) (i + 28 + 8 * n) 8 in
  if i + 36 + 8 * (n + m) <=? len r * 8 then
    let sid := getbitu (buff r) i 12 in
    let '(des, i) := read_chars (buff r) (i + 12 + 8) n in
    let setup := getbitu (buff r) i 8 in
    let '(sno, i) := read_chars (buff r) (i + 8 + 8) m in
    let '(r1, ok) := test_staid r sid in
    if ok =? 0 then (r1, -1)
    else
      let s := sta r1 in
      (set_sta r1
         (mk_sta (sta_deltype s) (sta_pos s) (sta_del s) (sta_hgt s) (sta_itrf s)
                 (strncpy0 (sta_antdes s) des n) (strncpy0 (sta_antsno s) sno m) setup
                 (sta_rectype s) (sta_recver s) (sta_recsno s)), 5)
  else (r, -1).

Definition decode_type1033 (r : rtcm_t) : status :=
  let i := 24 + 12 in
  let n  := getbitu (buff r) (i + 12) 8 in
  let m  := getbitu (buff r) (i + 28 + 8 * n) 8 in
  let n1 := getbitu (buff r) (i + 36 + 8 * (n + m)) 8 in
  let n2 := getbitu (buff r) (i + 44 + 8 * (n + m + n1)) 8 in
  let n3 := getbitu (buff r) (i + 52 + 8 * (n + m + n1 + n2)) 8 in
  if i + 60 + 8 * (n + m + n1 + n2 + n3) <=? len r * 8 then
    let sid := getbitu (buff r) i 12 in
    let '(des, i) := read_chars (buff r) (i + 12 + 8) n in
    let setup := getbitu (buff r) i 8 in
    let '(sno, i) := read_chars (buff r) (i + 8 + 8) m in
    let '(rec, i) := read_chars (buff r) (i + 8) n1 in
    let '(ver, i) := read_chars (buff r) (i + 8) n2 in
    let '(rsn, i) := read_chars (buff r) (i + 8) n3 in
    let '(r1, ok) := test_staid r sid in
    if ok =? 0 then (r1, -1)
    else
      let s := sta r1 in
      (set_sta r1
         (mk_sta (sta_deltype s) (sta_pos s) (sta_del s) (sta_hgt s) (sta_itrf s)
                 (strncpy0 (sta_antdes s) des n) (strncpy0 (sta_antsno s) sno m) setup
                 (strncpy0 (sta_rectype s) rec n1) (strncpy0 (sta_recver s) ver n2)
                 (strncpy0 (sta_recsno s) rsn n3)), 5)
  else (r, -1).

(** ** GLONASS observation headers and messages (1009 to 1012) *)

(** Returns the control record, the return value and [*sync]. *)
Definition decode_head1009 (r : rtcm_t) : rtcm_t * Z * Z :=
  let i := 24 + 12 in
  if i + 49 <=? len r * 8 then
    let sid := getbitu (buff r) i 12 in
    let tod := PrimFloat.mul (Z2float (getbitu (buff r) (i + 12) 27)) 0.001 in
    let sync := getbitu (buff r) (i + 39) 1 in
    let nsat := getbitu (buff r) (i + 40) 5 in
    let '(r1, ok) := test_staid r sid in
    if ok =? 0 then (r1, -1, sync)
    else (adjday_glot r1 tod, nsat, sync)
  else (r, -1, 0).

Definition decode_type1009 (r : rtcm_t) : status :=
  let '(r1, ret, sync) := decode_head1009 r in
  if ret <? 0 then (r1, -1)
  else (set_obsflag r1 (if sync =? 0 then 1 else 0), if sync =? 0 then 1 else 0).

Definition decode_type1011 (r : rtcm_t) : status := decode_type1009 r.

(** Types 1010 and 1012: the header, then the sample loop ([obs_payload]).
    After the loop 1012 assigns [rtcm->obsflag=!sync]; 1010 does not. *)
Definition decode_type1010 (r : rtcm_t) : status :=
  let '(r1, nsat, sync) := decode_head1009 r in
  if nsat <? 0 then (r1, -1)
  else (obs_payload 1010 nsat r1, if sync =? 0 then 1 else 0).

Definition decode_type1012 (r : rtcm_t) : status :=
  let '(r1, nsat, sync) := decode_head1009 r in
  if nsat <? 0 then (r1, -1)
  else (set_obsflag (obs_payload 1012 nsat r1) (if sync =? 0 then 1 else 0),
        if sync =? 0 then 1 else 0).

(** ** GPS ephemeris (1019) *)

Definition gtime0 : gtime_t := mk_gtime 0 0%float.

(** The field reads of decode_type1019 in frame order: [prn], [week],
    [toc] in seconds and the record [eph] as filled so far. *)
Definition read_type1019 : reader (Z * Z * Z * eph_t) :=
  (let* prn   := fieldu 6 in
   let* week  := fieldu 10 in
   let* sva   := fieldu 4 in
   let* code  := fieldu 2 in
   let* idot  := fields 14 in
   let* iode  := fieldu 8 in
   let* toc   := fieldu 16 in
   let* f2    := fields 8 in
   let* f1    := fields 16 in
   let* f0    := fields 22 in
   let* iodc  := fieldu 10 in
   let* crs   := fields 16 in
   let* deln  := fields 16 in
   let* M0    := fields 32 in
   let* cuc   := fields 16 in
   let* e     := fieldu 32 in
   let* cus   := fields 16 in
   let* sqrtA := fieldu 32 in
   let* toes  := fieldu 16 in
   let* cic   := fields 16 in
   let* OMG0  := fields 32 in
   let* cis   := fields 16 in
   let* i0    := fields 32 in
   let* crc   := fields 16 in
   let* omg   := fields 32 in
   let* OMGd  := fields 24 in
   let* tgd   := fields 8 in
   let* svh   := fieldu 6 in
   let* flag  := fieldu 1 in
   let* fit   := fieldu 1 in
   rd_ret (prn, week, toc * 16,
           mk_eph 0 iode iodc sva svh 0 code flag gtime0 gtime0 gtime0
                  sqrtA e i0 OMG0 omg M0 deln OMGd idot
                  crc crs cuc cus cic cis (toes * 16)
                  (if fit =? 0 then 4 else 0) f0 f1 f2 tgd))%rd.

(** [eph.sat=sat; eph.week=adjgpsweek(week); eph.toe=...; eph.toc=...;
    eph.ttr=rtcm->time;] *)
Definition eph1019_complete (eph : eph_t) (sat week toc : Z) (ttr : gtime_t) : eph_t :=
  let w := adjgpsweek week in
  mk_eph sat (eph_iode eph) (eph_iodc eph) (eph_sva eph) (eph_svh eph)
         w (eph_code eph) (eph_flag eph)
         (gpst2time w (eph_toes eph)) (gpst2time w toc) ttr
         (eph_sqrtA eph) (eph_e eph) (eph_i0 eph) (eph_OMG0 eph) (eph_omg eph)
         (eph_M0 eph) (eph_deln eph) (eph_OMGd eph) (eph_idot eph)
         (eph_crc eph) (eph_crs eph) (eph_cuc eph) (eph_cus eph) (eph_cic eph)
         (eph_cis eph) (eph_toes eph) (eph_fit eph)
         (eph_f0 eph) (eph_f1 eph) (eph_f2 eph) (eph_tgd0 eph).

(** [rtcm->nav.eph[sat-1].iode] *)
Definition nav_iode (r : rtcm_t) (sat : Z) : Z :=
  match nav_eph r !! Z.to_nat (sat - 1) with
  | Some e => eph_iode e
  | None => 0
  end.

Definition has_option (r : rtcm_t) (o : string) : bool :=
  match strstr (opt r) o with Some _ => true | None => false end.

Definition decode_type1019 (r : rtcm_t) : status :=
  let i := 24 + 12 in
  if i + 476 <=? len r * 8 then
    let '(prn, week, toc, eph) := fst (read_type1019 (buff r) i) in
    let '(sys, prn) := if prn >=? 40 then (SYS_SBS, prn + 80) else (SYS_GPS, prn) in
    let sat := satno sys prn in
    if sat =? 0 then (r, -1)
    else
      let eph := eph1019_complete eph sat week toc (rtime r) in
      if negb (has_option r "-EPHALL") && (eph_iode eph =? nav_iode r sat) then (r, 0)
      else
        (set_ephsat (set_nav_eph r (<[Z.to_nat (sat - 1) := eph]> (nav_eph r))) sat, 2)
  else (r, -1).

(** ** MSM header (decode_msm_head) and the MSM decoders *)

(** [for (j=1;j<=n;j++) { mask=getbitu(buff,i,1); i+=1;
    if (mask) arr[cnt++]=j; }] *)
Fixpoint mask_scan (n : nat) (b : list Z) (i j : Z) (arr : list Z) (cnt : Z)
    : list Z * Z :=
  match n with
  | O => (arr, cnt)
  | S n' =>
      if getbitu b i 1 =? 0 then mask_scan n' b (i + 1) (j + 1) arr cnt
      else mask_scan n' b (i + 1) (j + 1) (arr_set arr cnt j) (cnt + 1)
  end.

(** [for (j=0;j<n;j++) { cellmask[j]=getbitu(buff,i,1); i+=1;
    if (cellmask[j]) ncell++; }] *)
Fixpoint cell_scan (n : nat) (b : list Z) (i j : Z) (cellmask : list Z) (ncell : Z)
    : list Z * Z :=
  match n with
  | O => (cellmask, ncell)
  | S n' =>
      let m := getbitu b i 1 in
      cell_scan n' b (i + 1) (j + 1) (arr_set cellmask j m)
                (if m =? 0 then ncell else ncell + 1)
  end.

Definition msm_h0 : msm_h_t :=
  mk_msm_h 0 0 0 0 0 0 0 0 (replicate 64 0) (replicate 32 0) (replicate 64 0).

Definition decode_msm_head (r : rtcm_t) (sys : sys_t) : rtcm_t * msm_head :=
  let b := buff r in
  let i := 24 + 12 in
  if i + 157 <=? len r * 8 then
    let sid := getbitu b i 12 in
    let r1 :=
      match sys with
      | SYS_GLO =>
          adjday_glot r (PrimFloat.mul (Z2float (getbitu b (i + 15) 27)) 0.001)
      | SYS_CMP =>
          adjweek r (PrimFloat.add
                       (PrimFloat.mul (Z2float (getbitu b (i + 12) 30)) 0.001) 14)
      | _ => adjweek r (PrimFloat.mul (Z2float (getbitu b (i + 12) 30)) 0.001)
      end in
    let i := i + 42 in
    let sync    := getbitu b i 1 in
    let iod     := getbitu b (i + 1) 3 in
    let time_s  := getbitu b (i + 4) 7 in
    let clk_str := getbitu b (i + 11) 2 in
    let clk_ext := getbitu b (i + 13) 2 in
    let smooth  := getbitu b (i + 15) 1 in
    let tint_s  := getbitu b (i + 16) 3 in
    let i := i + 19 in
    let '(sats, nsat) := mask_scan 64 b i 1 (replicate 64 0) 0 in
    let i := i + 64 in
    let '(sigs, nsig) := mask_scan 32 b i 1 (replicate 32 0) 0 in
    let i := i + 32 in
    let h := mk_msm_h 0 time_s clk_str clk_ext smooth tint_s nsat nsig
                      sats sigs (replicate 64 0) in
    let '(r2, ok) := test_staid r1 sid in
    if ok =? 0 then (r2, mk_msm_head (-1) sync iod h 0)
    else if nsat * nsig >? 64 then (r2, mk_msm_head (-1) sync iod h 0)
    else if i + nsat * nsig >? len r * 8 then (r2, mk_msm_head (-1) sync iod h 0)
    else
      let '(cellmask, ncell) :=
        cell_scan (Z.to_nat (nsat * nsig)) b i 0 (replicate 64 0) 0 in
      let h := mk_msm_h 0 time_s clk_str clk_ext smooth tint_s nsat nsig
                        sats sigs cellmask in
      (r2, mk_msm_head ncell sync iod h (i + nsat * nsig))
  else (r, mk_msm_head (-1) 0 0 msm_h0 0).

(** [rtcm->obsflag=!sync; return sync?0:1;] *)
Definition end_of_obs (r : rtcm_t) (sync : Z) : status :=
  (set_obsflag r (if sync =? 0 then 1 else 0), if sync =? 0 then 1 else 0).

Definition decode_msm0 (r : rtcm_t) (sys : sys_t) : status :=
  let '(r1, hd) := decode_msm_head r sys in
  if mh_ret hd <? 0 then (r1, -1) else end_of_obs r1 (mh_sync hd).

(** The four decoders differ in the bits per satellite and per cell that
    the length test counts and in the sample loops, which together with
    save_msm_obs are [msm_payload k]. *)
Definition decode_msm (k sat_bits cell_bits : Z) (r : rtcm_t) (sys : sys_t) : status :=
  let '(r1, hd) := decode_msm_head r sys in
  if mh_ret hd <? 0 then (r1, -1)
  else if mh_hsize hd + h_nsat (mh_h hd) * sat_bits + mh_ret hd * cell_bits
          >? len r1 * 8
  then (r1, -1)
  else end_of_obs (msm_payload k sys hd r1) (mh_sync hd).

Definition decode_msm4 : rtcm_t -> sys_t -> status := decode_msm 4 18 48.
Definition decode_msm5 : rtcm_t -> sys_t -> status := decode_msm 5 36 63.
Definition decode_msm6 : rtcm_t -> sys_t -> status := decode_msm 6 18 65.
Definition decode_msm7 : rtcm_t -> sys_t -> status := decode_msm 7 36 80.

(** ** SSR code biases (decode_ssr2_head, decode_ssr3) *)

Definition ssrudint : list float :=
  [1; 2; 5; 10; 15; 30; 60; 120; 240; 300; 600; 900; 1800; 3600; 7200; 10800]%float.

(** [CODE_Lxx] is the position of ["xx"] in [obscodes].  [CODE_L8I] is 37,
    the place where the table spells ["8L"]. *)
Definition CODE (s : string) : Z := fst (obs2code s).
Definition CODE_L8I : Z := 37.

Definition codes_gps : list Z := map CODE
  ["1C";"1P";"1W";"1Y";"1M";"2C";"2D";"2S";"2L";"2X";"2P";"2W";"2Y";"2M";"5I";"5Q";
   "5X"]%string.
Definition codes_glo : list Z := map CODE ["1C";"1P";"2C";"2P"]%string.
Definition codes_gal : list Z :=
  map CODE ["1A";"1B";"1C";"1X";"1Z";"5I";"5Q";"5X";"7I";"7Q";"7X"]%string
  ++ [CODE_L8I]
  ++ map CODE ["8Q";"8X";"6A";"6B";"6C";"6X";"6Z"]%string.
Definition codes_qzs : list Z := map CODE
  ["1C";"1S";"1L";"2S";"2L";"2X";"5I";"5Q";"5X";"6S";"6L";"6X";"1X"]%string.
Definition codes_bds : list Z := map CODE
  ["1I";"1Q";"1X";"7I";"7Q";"7X";"6I";"6Q";"6X"]%string.
Definition codes_sbs : list Z := map CODE ["1C";"5I";"5Q";"5X"]%string.

(** Outputs of decode_ssr2_head: return value, [*sync], [*iod], [*udint],
    [*hsize]. *)
Record ssr_head : Type := mk_ssr_head {
  sh_ret : Z; sh_sync : Z; sh_iod : Z; sh_udint : float; sh_hsize : Z
}.

Definition decode_ssr2_head (r : rtcm_t) (sys : sys_t) : rtcm_t * ssr_head :=
  let b := buff r in
  let i := 24 + 12 in
  let ns := if sys_eqb sys SYS_QZS then 4 else 6 in
  if i + (if sys_eqb sys SYS_GLO then 52 else 49 + ns) >? len r * 8
  then (r, mk_ssr_head (-1) 0 0 0%float 0)
  else
    let '(r1, i) :=
      if sys_eqb sys SYS_GLO
      then (adjday_glot r (Z2float (getbitu b i 17)), i + 17)
      else (adjweek r (Z2float (getbitu b i 20)), i + 20) in
    let udi  := getbitu b i 4 in
    let sync := getbitu b (i + 4) 1 in
    let iod  := getbitu b (i + 5) 4 in
    let nsat := getbitu b (i + 29) ns in
    (r1, mk_ssr_head nsat sync iod
           (default 0%float (ssrudint !! Z.to_nat udi)) (i + 29 + ns)).

(** The loop over the biases of one satellite.  [codes[mode]] with [mode]
    past the last element of the table is a read outside the array: the
    result is [None]. *)
Fixpoint ssr3_biases (n : nat) (b : list Z) (len : Z) (codes : list Z) (ncode : Z)
    (i : Z) (cbias : list Z) : option (Z * list Z) :=
  match n with
  | O => Some (i, cbias)
  | S n' =>
      if i + 19 <=? len * 8 then
        let mode := getbitu b i 5 in
        let bias := getbits b (i + 5) 14 in
        if mode <=? ncode then
          match codes !! Z.to_nat mode with
          | Some c => ssr3_biases n' b len codes ncode (i + 19) (arr_set cbias (c - 1) bias)
          | None => None
          end
        else ssr3_biases n' b len codes ncode (i + 19) cbias
      else Some (i, cbias)
  end.

(** [ssr[sat-1].t0[4]=rtcm->time; ... ssr[sat-1].update=1;] *)
Definition ssr3_store (s : ssr_t) (t : gtime_t) (udint : float) (iod : Z)
    (cbias : list Z) : ssr_t :=
  mk_ssr (<[4%nat := t]> (ssr_t0 s)) (<[4%nat := udint]> (ssr_udi s))
         (<[4%nat := iod]> (ssr_iod s)) cbias 1.

(** The loop over the satellites of the message. *)
Fixpoint ssr3_sats (n : nat) (r : rtcm_t) (sys : sys_t) (np offp : Z)
    (codes : list Z) (ncode : Z) (hd : ssr_head) (i : Z) : option rtcm_t :=
  match n with
  | O => Some r
  | S n' =>
      if i + 5 + np <=? len r * 8 then
        let prn := getbitu (buff r) i np + offp in
        let nbias := getbitu (buff r) (i + np) 5 in
        match ssr3_biases (Z.to_nat nbias) (buff r) (len r) codes ncode (i + np + 5)
                          (replicate (Z.to_nat MAXCODE) 0) with
        | None => None
        | Some (i', cbias) =>
            let sat := satno sys prn in
            if sat =? 0 then ssr3_sats n' r sys np offp codes ncode hd i'
            else
              let r' :=
                match ssr r !! Z.to_nat (sat - 1) with
                | Some s =>
                    set_ssr r (<[Z.to_nat (sat - 1) :=
                                   ssr3_store s (rtime r) (sh_udint hd) (sh_iod hd) cbias]>
                                 (ssr r))
                | None => r
                end in
              ssr3_sats n' r' sys np offp codes ncode hd i'
        end
      else Some r
  end.

Definition decode_ssr3 (r : rtcm_t) (sys : sys_t) : option status :=
  let '(r1, hd) := decode_ssr2_head r sys in
  if sh_ret hd <? 0 then Some (r1, -1)
  else
    let ret := if sh_sync hd =? 0 then 10 else 0 in
    let sel :=
      match sys with
      | SYS_GPS => Some (6,   0, codes_gps, 17)
      | SYS_GLO => Some (5,   0, codes_glo,  4)
      | SYS_GAL => Some (6,   0, codes_gal, 19)
      | SYS_QZS => Some (4, 192, codes_qzs, 13)
      | SYS_CMP => Some (6,   1, codes_bds,  9)
      | SYS_SBS => Some (6, 120, codes_sbs,  4)
      | _ => None
      end in
    match sel with
    | None => Some (r1, ret)
    | Some (np, offp, codes, ncode) =>
        match ssr3_sats (Z.to_nat (sh_ret hd)) r1 sys np offp codes ncode hd
                        (sh_hsize hd) with
        | Some r2 => Some (r2, ret)
        | None => None
        end
    end.

(** ** Stream framer (input_rtcm3) *)

(** Where the framer stands after a byte: no complete frame, a complete
    frame whose parity test failed, or a frame handed to decode_rtcm3. *)
Inductive sync_t : Type :=
  | Pending (r : rtcm_t)
  | ParityError (r : rtcm_t)
  | Frame (r : rtcm_t).

(** [rtcm->buff[rtcm->nbyte++]=data] *)
Definition push_byte (r : rtcm_t) (data : Z) : rtcm_t :=
  set_nbyte (set_buff r (arr_set (buff r) (nbyte r) data)) (nbyte r + 1).

Definition sync_rtcm3 (r : rtcm_t) (data : Z) : sync_t :=
  if nbyte r =? 0 then
    if negb (data =? RTCM3PREAMB) then Pending r
    else Pending (push_byte r data)
  else
    let r1 := push_byte r data in
    let r2 := if nbyte r1 =? 3 then set_len r1 (getbitu (buff r1) 14 10 + 3) else r1 in
    if (nbyte r2 <? 3) || (nbyte r2 <? len r2 + 3) then Pending r2
    else
      let r3 := set_nbyte r2 0 in
      if negb (rtk_crc24q (buff r3) (len r3) =? getbitu (buff r3) (len r3 * 8) 24)
      then ParityError r3
      else Frame r3.

Definition input_rtcm3 (r : rtcm_t) (data : Z) : status :=
  match sync_rtcm3 r data with
  | Pending r' => (r', 0)
  | ParityError r' => (r', 0)
  | Frame r' => decode_rtcm3 r'
  end.

End Decoders.

(** ** Notions used to state the properties *)

(** Number of set bits among the [n] bits from position [i]. *)
Fixpoint count_bits (n : nat) (b : list Z) (i : Z) : Z :=
  match n with
  | O => 0
  | S n' => (if bit_at b i =? 0 then 0 else 1) + count_bits n' b (i + 1)
  end.

(** Number of non-zero entries among the first [n] of an array. *)
Definition count_set (n : nat) (a : list Z) : Z :=
  Z.of_nat (length (filter (fun x => x <> 0) (take n a))).

(** The payload length [L] of the frame header and the station id and
    issue of data of the messages that carry them at fixed positions. *)
Definition frame_payload_len (b : list Z) : Z := getbitu b 14 10.
Definition frame_staid (b : list Z) : Z := getbitu b 36 12.
Definition frame1019_prn (b : list Z) : Z := getbitu b 36 6.
Definition frame1019_iode (b : list Z) : Z := getbitu b 72 8.

(** The record a type-1019 frame describes, field by field at the bit
    positions of the message layout: what has to be in the navigation slot
    once the frame is stored for satellite [sat] at control time [ttr]. *)
Definition frame1019_eph `{env : rtklib_h} (b : list Z) (sat : Z) (ttr : gtime_t) : eph_t :=
  let week := adjgpsweek (getbitu b 42 10) in
  let toes := getbitu b 312 16 * 16 in
  let toc := getbitu b 80 16 * 16 in
  {| eph_sat := sat;
     eph_iode := getbitu b 72 8;
     eph_iodc := getbitu b 142 10;
     eph_sva := getbitu b 52 4;
     eph_svh := getbitu b 504 6;
     eph_week := week;
     eph_code := getbitu b 56 2;
     eph_flag := getbitu b 510 1;
     eph_toe := gpst2time week toes;
     eph_toc := gpst2time week toc;
     eph_ttr := ttr;
     eph_sqrtA := getbitu b 280 32;
     eph_e := getbitu b 232 32;
     eph_i0 := getbits b 392 32;
     eph_OMG0 := getbits b 344 32;
     eph_omg := getbits b 440 32;
     eph_M0 := getbits b 184 32;
     eph_deln := getbits b 168 16;
     eph_OMGd := getbits b 472 24;
     eph_idot := getbits b 58 14;
     eph_crc := getbits b 424 16;
     eph_crs := getbits b 152 16;
     eph_cuc := getbits b 216 16;
     eph_cus := getbits b 264 16;
     eph_cic := getbits b 328 16;
     eph_cis := getbits b 376 16;
     eph_toes := toes;
     eph_fit := if getbitu b 511 1 =? 0 then 4 else 0;
     eph_f0 := getbits b 120 22;
     eph_f1 := getbits b 104 16;
     eph_f2 := getbits b 96 8;
     eph_tgd0 := getbits b 496 8 |}.



(** A frame under construction: [n] zero bytes, then fields written with
    setbitu as the (disabled) encoder would. *)
Definition put (pos len data : Z) (b : list Z) : list Z := setbitu b pos len data.

(** ** A build of the library for evaluating the decoders

    RTKLIB's usual constants; the host clock stands at GPS week 2100, the
    time hooks keep [rtcm->time], the MSM sample loops and the dispatcher
    leave the control record as it is. *)
Definition sample_MINPRN (sys : sys_t) : Z :=
  match sys with SYS_QZS => 193 | SYS_SBS => 120 | SYS_NONE => 0 | _ => 1 end.
Definition sample_MAXPRN (sys : sys_t) : Z :=
  match sys with
  | SYS_GPS => 32 | SYS_GLO => 27 | SYS_GAL => 30 | SYS_QZS => 199
  | SYS_CMP => 35 | SYS_LEO => 10 | SYS_SBS => 142 | SYS_NONE => 0
  end.

#[export] Instance sample_env : rtklib_h := {|
  NFREQ := 3;
  NEXOBS := 3;
  MAXCODE := 48;
  MINPRN := sample_MINPRN;
  MAXPRN := sample_MAXPRN;
  NSAT := fun sys => match sys with
                     | SYS_NONE => 0
                     | _ => sample_MAXPRN sys - sample_MINPRN sys + 1
                     end;
  cpu_gpsweek := 2100;
  adjweek_time := fun t _ => t;
  adjday_glot_time := fun t _ => t;
  msm_payload := fun _ _ _ r => r;
  obs_payload := fun _ _ r => r;
  decode_rtcm3 := fun r => (r, 5)
|}.


Definition eph0 : eph_t :=
  mk_eph 0 (-1) (-1) 0 0 0 0 0 gtime0 gtime0 gtime0
         0 0 0 0 0 0 0 0 0 0 0 0 0 0 0 0 0 0 0 0 0.

Definition sta0 : sta_t :=
  mk_sta 0 [0; 0; 0]%float [0; 0; 0]%float 0%float 0
         (replicate 64 0) (replicate 64 0) 0
         (replicate 64 0) (replicate 64 0) (replicate 64 0).

Definition ssr0 : ssr_t :=
  mk_ssr (replicate 6 gtime0) (replicate 6 0%float) (replicate 6 0) (replicate 48 0) 0.

(** The control record as init_rtcm leaves it, with a frame buffer [b] of
    which [n] bytes (header and payload) are in use. *)
Definition rtcm_with (b : list Z) (n : Z) (opts : string) : rtcm_t :=
  mk_rtcm 0 gtime0 (mk_obs 0 []) (replicate 164 eph0) sta0 (replicate 164 ssr0)
          opts 0 0 0 n b.

(** ** Frames for evaluating the decoders *)

(** The shortest frame, [D3 00 00] with its parity [47 EA 4B], before the
    last byte has arrived. *)
Definition empty_frame_head : list Z := [0xD3; 0; 0; 0x47; 0xEA] ++ replicate 11 0.

(** A type-1019 frame for GPS PRN 7 with iode 42 and iodc 42. *)
Definition frame1019 : list Z :=
  put 36 6 7 (put 72 8 42 (put 142 10 42 (put 24 12 1019 (replicate 67 0)))).

(** An MSM7 GPS frame: station 123, satellites 3 and 15, signal 2, both
    cells present. *)
Definition frame_msm7 : list Z :=
  put 24 12 1077 (put 36 12 123 (put 99 1 1 (put 111 1 1 (put 162 1 1
    (put 193 2 3 (replicate 40 0)))))).

(** An MSM frame whose masks select 64 satellites and 2 signals. *)
Definition frame_msm_wide : list Z :=
  put 24 12 1077 (put 97 32 (2 ^ 32 - 1) (put 129 32 (2 ^ 32 - 1)
    (put 161 2 3 (replicate 40 0)))).

(** A type-1005 frame of station 123, ITRF year 14, with a payload of 19
    bytes, and a type-1006 frame of the same station. *)
Definition frame1005 : list Z :=
  put 0 8 RTCM3PREAMB (put 14 10 19
    (put 24 12 1005 (put 36 12 123 (put 48 6 14 (replicate 28 0))))).
Definition frame1005_long : list Z := put 14 10 22 frame1005.
Definition frame1006 : list Z :=
  put 24 12 1006 (put 36 12 123 (put 48 6 14 (replicate 28 0))).

(** A frame dropped after the station id test: the return value is -1, the
    stored station id is cleared, and the observation buffer, the station
    record, the navigation table and the SSR table are as before. *)
Definition dropped (r : rtcm_t) (res : status) : Prop :=
  snd res = -1 /\ staid (fst res) = 0 /\ obs (fst res) = obs r /\
  sta (fst res) = sta r /\ nav_eph (fst res) = nav_eph r /\ ssr (fst res) = ssr r.

(** The bits a descriptor frame has to hold for its decoder to read it:
    [i+28+8*n] of decode_type1007, [i+36+8*(n+m)] of decode_type1008 and
    [i+60+8*(n+m+n1+n2+n3)] of decode_type1033, with [i] = 36 and the string
    lengths read from the frame. *)
Definition bits1007 (b : list Z) : Z := 64 + 8 * getbitu b 48 8.

Definition bits1008 (b : list Z) : Z :=
  let n := getbitu b 48 8 in
  let m := getbitu b (64 + 8 * n) 8 in
  72 + 8 * (n + m).

Definition bits1033 (b : list Z) : Z :=
  let n := getbitu b 48 8 in
  let m := getbitu b (64 + 8 * n) 8 in
  let n1 := getbitu b (72 + 8 * (n + m)) 8 in
  let n2 := getbitu b (80 + 8 * (n + m + n1)) 8 in
  let n3 := getbitu b (88 + 8 * (n + m + n1 + n2)) 8 in
  96 + 8 * (n + m + n1 + n2 + n3).

(** A type-1033 frame of station 123: antenna descriptor [ANT] with setup
    id 1, serial number [S], receiver type [RX], firmware version [2] and an
    empty receiver serial number; 21 bytes of header and payload. *)
Definition frame1033 : list Z :=
  put 24 12 1033 (put 36 12 123
    (put 48 8 3 (put 56 8 65 (put 64 8 78 (put 72 8 84
    (put 80 8 1
    (put 88 8 1 (put 96 8 83
    (put 104 8 2 (put 112 8 82 (put 120 8 88
    (put 128 8 1 (put 136 8 50
    (put 144 8 0 (replicate 24 0))))))))))))))).

(** Control records holding the type-1005 frame: fresh, with station 7
    recorded, and with station 7 recorded under the option -STA=5. *)
Definition rtcm1005 : rtcm_t := rtcm_with frame1005 22 "".
Definition rtcm1005_other : rtcm_t := set_staid rtcm1005 7.
Definition rtcm1005_sta5 : rtcm_t := set_staid (rtcm_with frame1005 22 "-STA=5") 7.

(** Control records holding the type-1033 frame: fresh, and with station 7
    recorded. *)
Definition rtcm1033 : rtcm_t := rtcm_with frame1033 21 "".
Definition rtcm1033_other : rtcm_t := set_staid rtcm1033 7.

(** The same type-1005 content declared with a payload of 22 bytes, and a
    control record holding the type-1006 frame (payload 21 bytes). *)
Definition rtcm1005_long : rtcm_t := rtcm_with frame1005_long 25 "".
Definition rtcm1006 : rtcm_t := rtcm_with frame1006 24 "".


(** A GPS code-bias frame (type 1059) with one satellite, PRN 5, and one
    bias of 100 (1.00 m) whose tracking mode is [mode]; 16 bytes of header
    and payload. *)
Definition frame_ssr3 (mode : Z) : list Z :=
  put 24 12 1059 (put 85 6 1 (put 91 6 5 (put 97 5 1 (put 102 5 mode
    (put 107 14 100 (replicate 19 0)))))).
Definition rtcm_ssr3 (mode : Z) : rtcm_t := rtcm_with (frame_ssr3 mode) 16 "".

(** The code biases stored for satellite number [sat]. *)
Definition cbias_of (r : rtcm_t) (sat : Z) : list Z :=
  match ssr r !! Z.to_nat (sat - 1) with
  | Some s => ssr_cbias s
  | None => []
  end.

(** Control records holding the two MSM frames. *)
Definition rtcm_msm7 : rtcm_t := rtcm_with frame_msm7 40 "".
Definition rtcm_msm_wide : rtcm_t := rtcm_with frame_msm_wide 40 "".

Section Invariants.
Context `{env : rtklib_h}.



End Invariants.

(** * Further functions of rtcm.c and rtcm3.c *)

(** ** CRC-24Q generator (POLYCRC24Q in rtcm3.c) *)

Definition POLYCRC24Q : Z := 0x1864CFB.

(** Division of [crc] by the generator, one bit at a time: the register is
    shifted left and the generator is subtracted whenever bit 24 comes out. *)
Fixpoint crc24q_shift (n : nat) (crc : Z) : Z :=
  match n with
  | O => crc
  | S n' =>
      let c := Z.shiftl crc 1 in
      crc24q_shift n' (if Z.testbit c 24 then Z.lxor c POLYCRC24Q else c)
  end.

(** The remainder a single byte [i] leaves: what entry [i] of a CRC-24Q table
    has to hold. *)
Definition crc24q_entry (i : Z) : Z := crc24q_shift 8 (Z.shiftl i 16).

(** The loop body of rtk_crc24q as a function of the register and the byte. *)
Definition crc24q_byte (crc x : Z) : Z :=
  Z.lxor (Z.land (u32 (Z.shiftl crc 8)) 0xFFFFFF)
         (arr_get tbl_CRC24Q (Z.lxor (Z.shiftr crc 16) x)).

(** Every element is an [unsigned char]. *)
Definition bytes (l : list Z) : Prop := Forall (fun x => 0 <= x < 256) l.

(** The buffer with bit [p] inverted, written with the bit store of setbitu. *)
Definition flip_bit (buff : list Z) (p : Z) : list Z :=
  setbit buff p (bit_at buff p =? 0).

(** ** Frames on the wire

    The layout given with input_rtcm3: preamble, six zero bits, the 10-bit
    length of the message, the message, and 24 bits of parity computed over
    everything before them. *)
Definition crc_bytes (crc : Z) : list Z :=
  [Z.land (Z.shiftr crc 16) 255; Z.land (Z.shiftr crc 8) 255; Z.land crc 255].

Definition frame_head (msg : list Z) : list Z :=
  let n := Z.of_nat (length msg) in
  [RTCM3PREAMB; Z.shiftr n 8; Z.land n 255] ++ msg.

Definition rtcm3_frame (msg : list Z) : list Z :=
  let body := frame_head msg in
  body ++ crc_bytes (rtk_crc24q body (Z.of_nat (length body))).

(** The control record once the first [k] bytes of the frame [f] have been
    stored: the length member is set with the third byte. *)
Definition stored (r : rtcm_t) (f : list Z) (k : nat) : rtcm_t :=
  let r1 := set_nbyte (set_buff r (take k f ++ drop k (buff r))) (Z.of_nat k) in
  if 3 <=? Z.of_nat k then set_len r1 (Z.of_nat (length f) - 3) else r1.

(** The control record once the bytes [f] of a complete frame have been
    stored from the start of the buffer. *)
Definition framed (r : rtcm_t) (f : list Z) : rtcm_t :=
  set_nbyte
    (set_len (set_buff r (f ++ drop (length f) (buff r))) (Z.of_nat (length f) - 3)) 0.

(** The framer's own members are consistent: the write index is not
    negative, and past the header it is below the end of the frame, which
    ends within 1029 bytes. *)
Definition framer_ok (r : rtcm_t) : Prop :=
  0 <= nbyte r /\ (nbyte r < 3 \/ nbyte r < len r + 3 /\ len r + 3 <= 1029).

Section Stream.
Context `{env : rtklib_h}.

(** ** Input from a file (input_rtcm3f in rtcm.c)

    The file is the list of the bytes not yet read; fgetc takes the first
    and yields EOF on the empty list.  The result is the control record,
    the rest of the file and the return value. *)
Fixpoint input_rtcm3f_loop (n : nat) (r : rtcm_t) (fp : list Z) : rtcm_t * list Z * Z :=
  match n with
  | O => (r, fp, 0)
  | S n' =>
      match fp with
      | [] => (r, fp, -2)
      | data :: fp' =>
          let '(r1, ret) := input_rtcm3 r (u8 data) in
          if negb (ret =? 0) then (r1, fp', ret)
          else input_rtcm3f_loop n' r1 fp'
      end
  end.

Definition input_rtcm3f (r : rtcm_t) (fp : list Z) : rtcm_t * list Z * Z :=
  input_rtcm3f_loop 4096 r fp.

End Stream.

Section Registry.
Context `{env : rtklib_h}.
Variable MAXSAT : Z.

(** ** Satellite number to system and PRN (satsys in rtcm3.c)

    Returns the system and the value stored through [prn].  The satellite
    number is reduced block by block, as the chain of [(sat-=NSATxxx)<=...]
    does. *)
Definition satsys (sat : Z) : sys_t * Z :=
  if (sat <=? 0) || (MAXSAT <? sat) then (SYS_NONE, 0)
  else if sat <=? NSAT SYS_GPS then (SYS_GPS, sat + (MINPRN SYS_GPS - 1))
  else let sat := sat - NSAT SYS_GPS in
  if sat <=? NSAT SYS_GLO then (SYS_GLO, sat + (MINPRN SYS_GLO - 1))
  else let sat := sat - NSAT SYS_GLO in
  if sat <=? NSAT SYS_GAL then (SYS_GAL, sat + (MINPRN SYS_GAL - 1))
  else let sat := sat - NSAT SYS_GAL in
  if sat <=? NSAT SYS_QZS then (SYS_QZS, sat + (MINPRN SYS_QZS - 1))
  else let sat := sat - NSAT SYS_QZS in
  if sat <=? NSAT SYS_CMP then (SYS_CMP, sat + (MINPRN SYS_CMP - 1))
  else let sat := sat - NSAT SYS_CMP in
  if sat <=? NSAT SYS_LEO then (SYS_LEO, sat + (MINPRN SYS_LEO - 1))
  else let sat := sat - NSAT SYS_LEO in
  if sat <=? NSAT SYS_SBS then (SYS_SBS, sat + (MINPRN SYS_SBS - 1))
  else (SYS_NONE, 0).

(** The constants of rtklib.h fit together: a system that is compiled in
    has NSAT = MAXPRN - MINPRN + 1 with PRNs from 1 up, a system that is
    left out has all three zero, and MAXSAT is the sum of the NSAT. *)
Definition prn_block_ok (sys : sys_t) : Prop :=
  (1 <= MINPRN sys <= MAXPRN sys /\ NSAT sys = MAXPRN sys - MINPRN sys + 1) \/
  (MINPRN sys = 0 /\ MAXPRN sys = 0 /\ NSAT sys = 0).

Definition prn_ranges_ok : Prop :=
  prn_block_ok SYS_GPS /\ prn_block_ok SYS_GLO /\ prn_block_ok SYS_GAL /\
  prn_block_ok SYS_QZS /\ prn_block_ok SYS_CMP /\ prn_block_ok SYS_LEO /\
  prn_block_ok SYS_SBS /\
  MAXSAT = NSAT SYS_GPS + NSAT SYS_GLO + NSAT SYS_GAL + NSAT SYS_QZS
           + NSAT SYS_CMP + NSAT SYS_LEO + NSAT SYS_SBS.

End Registry.

(** A control record holding a complete type-1019 frame. *)
Definition rtcm1019 : rtcm_t := rtcm_with frame1019 67 "".

(** The members of the control record that the framer and the option
    parser own are the same in [r'] as in [r]. *)
Definition same_frame (r r' : rtcm_t) : Prop :=
  buff r' = buff r /\ len r' = len r /\ nbyte r' = nbyte r /\ opt r' = opt r.

(** ** Calendar time (epoch2time, time2epoch in rtcm3.c)

    The integer member [time] of [gtime_t] for a calendar time given in
    whole numbers, and back; [time_t] is taken wide enough for the year
    2099, as the note with the functions asks.  The fraction of a second,
    which the C functions carry in the member [sec], is zero here. *)
Definition doy : list Z := [1; 32; 60; 91; 121; 152; 182; 213; 244; 274; 305; 335].

(** [days=(year-1970)*365+(year-1969)/4+doy[mon-1]+day-2+(year%4==0&&mon>=3?1:0)] *)
Definition epoch_days (year mon day : Z) : Z :=
  (year - 1970) * 365 + Z.quot (year - 1969) 4 + arr_get doy (mon - 1) + day - 2
  + (if (Z.rem year 4 =? 0) && (mon >=? 3) then 1 else 0).

Definition epoch2time (year mon day hour min sec : Z) : Z :=
  if (year <? 1970) || (2099 <? year) || (mon <? 1) || (12 <? mon) then 0
  else epoch_days year mon day * 86400 + hour * 3600 + min * 60 + sec.

Definition mday : list Z := [
    31; 28; 31; 30; 31; 30; 31; 31; 30; 31; 30; 31; 31; 28; 31; 30; 31; 30; 31; 31; 30; 31; 30; 31;
    31; 29; 31; 30; 31; 30; 31; 31; 30; 31; 30; 31; 31; 28; 31; 30; 31; 30; 31; 31; 30; 31; 30; 31
].

(** [for (...;mon<48;mon++) { if (day>=mday[mon]) day-=mday[mon]; else break; }] *)
Fixpoint time2epoch_loop (tbl : list Z) (day mon : Z) : Z * Z :=
  match tbl with
  | [] => (day, mon)
  | m :: tbl' =>
      if day >=? m then time2epoch_loop tbl' (day - m) (mon + 1) else (day, mon)
  end.

Definition time2epoch (t : Z) : Z * Z * Z * Z * Z * Z :=
  let days := Z.quot t 86400 in
  let sec := t - days * 86400 in
  let '(day, mon) := time2epoch_loop mday (Z.rem days 1461) 0 in
  (1970 + Z.quot days 1461 * 4 + Z.quot mon 12, Z.rem mon 12 + 1, day + 1,
   Z.quot sec 3600, Z.quot (Z.rem sec 3600) 60, Z.rem sec 60).

(** Number of days of a month, a year being a leap year when it divides by
    four (true from 1901 to 2099). *)
Definition days_in_month (year mon : Z) : Z :=
  if mon =? 2 then (if year mod 4 =? 0 then 29 else 28)
  else if (mon =? 4) || (mon =? 6) || (mon =? 9) || (mon =? 11) then 30 else 31.

(** The two directions of the date conversion as checks that evaluate: the
    date [y]-[m]-[d] comes back from its day number, and the day number [D]
    comes back from its date. *)
Definition date_there (y m d : Z) : bool :=
  negb (d <=? days_in_month y m) ||
  (let D := epoch_days y m d in
   let '(day, mon) := time2epoch_loop mday (Z.rem D 1461) 0 in
   (0 <=? D) && (1970 + Z.quot D 1461 * 4 + Z.quot mon 12 =? y) &&
   (Z.rem mon 12 + 1 =? m) && (day + 1 =? d)).

Definition date_back (D : Z) : bool :=
  let '(day, mon) := time2epoch_loop mday (Z.rem D 1461) 0 in
  let y := 1970 + Z.quot D 1461 * 4 + Z.quot mon 12 in
  let m := Z.rem mon 12 + 1 in
  (1970 <=? y) && (y <=? 2099) && (1 <=? m) && (m <=? 12) &&
  (1 <=? day + 1) && (day + 1 <=? days_in_month y m) &&
  (epoch_days y m (day + 1) =? D).

(** time2gpst for a time without fraction: the week stored through [week]
    and the whole seconds of the week, to which the C function adds [t.sec].
    [sec] is a [time_t]; [w] and the product [w*86400*7] are [int], shown
    with the 32-bit wrap-around. *)
Definition time2gpst (t : gtime_t) : Z * Z :=
  let sec := gt_time t - 315964800 in
  let w := s32 (Z.quot sec (86400 * 7)) in
  (w, sec - s32 (w * 86400 * 7)).

Section Buffers.
Context `{env : rtklib_h}.
Variable MAXSAT : Z.
Variable MAXOBS : Z.

(** ** Observation buffer (obsindex in rtcm3.c) *)

(** A record with the satellite and time set and every sample zero. *)
Definition obsd_new (time : gtime_t) (sat : Z) : obsd_t :=
  let n := Z.to_nat (NFREQ + NEXOBS) in
  mk_obsd time sat (replicate n 0) (replicate n 0) (replicate n 0)
          (replicate n 0%float) (replicate n 0%float) (replicate n 0%float).

(** [for (i=0;i<obs->n;i++) if (obs->data[i].sat==sat) return i;]: the
    index found, or [None] when the loop runs out. *)
Fixpoint obsindex_find (data : list obsd_t) (n : nat) (i : Z) (sat : Z) : option Z :=
  match n, data with
  | S n', d :: data' =>
      if od_sat d =? sat then Some i else obsindex_find data' n' (i + 1) sat
  | _, _ => None
  end.

(** Returns the buffer and the index (-1 on overflow).  [obs->data] holds
    MAXOBS records, of which the first [obs->n] are in use. *)
Definition obsindex (o : obs_t) (time : gtime_t) (sat : Z) : obs_t * Z :=
  match obsindex_find (obs_data o) (Z.to_nat (obs_n o)) 0 sat with
  | Some i => (o, i)
  | None =>
      let i := obs_n o in
      if i >=? MAXOBS then (o, -1)
      else (mk_obs (i + 1) (<[Z.to_nat i := obsd_new time sat]> (obs_data o)), i)
  end.

(** The satellites of the records in use. *)
Definition obs_sats (o : obs_t) : list Z :=
  map od_sat (take (Z.to_nat (obs_n o)) (obs_data o)).

(** ** Control record set-up (init_rtcm, free_rtcm in rtcm.c) *)

(** [obsd_t data0={{0}}] *)
Definition data0 : obsd_t := obsd_new gtime0 0.

Definition free_rtcm (r : rtcm_t) : rtcm_t :=
  mk_rtcm (staid r) (rtime r) (mk_obs 0 []) [] (sta r) (ssr r) (opt r)
          (obsflag r) (ephsat r) (nbyte r) (len r) (buff r).

(** [alloc] tells whether the three malloc calls succeed.  The frame buffer
    is not cleared, and of each descriptor string only the first byte is. *)
Definition init_rtcm (alloc : bool) (r : rtcm_t) : rtcm_t * Z :=
  let s := sta r in
  let sta1 := mk_sta 0 [0; 0; 0]%float [0; 0; 0]%float 0%float 0
                     (arr_set (sta_antdes s) 0 0) (arr_set (sta_antsno s) 0 0) 0
                     (arr_set (sta_rectype s) 0 0) (arr_set (sta_recver s) 0 0)
                     (arr_set (sta_recsno s) 0 0) in
  let r1 := mk_rtcm 0 gtime0 (obs r) (nav_eph r) sta1
                    (replicate (Z.to_nat MAXSAT) ssr0) "" 0 0 0 0 (buff r) in
  if alloc then
    (mk_rtcm (staid r1) (rtime r1)
             (mk_obs 0 (replicate (Z.to_nat MAXOBS) data0))
             (replicate (Z.to_nat MAXSAT) eph0)
             (sta r1) (ssr r1) (opt r1) (obsflag r1) (ephsat r1)
             (nbyte r1) (len r1) (buff r1), 1)
  else (free_rtcm r1, 0).

End Buffers.

(** A buffer of two records with satellite 5 in use. *)
Definition obs_sample : obs_t := mk_obs 1 [obsd_new gtime0 5; data0].

(** ** Descriptor strings *)

(** The characters a C string holds: the bytes before the first NUL. *)
Fixpoint cstr (s : list Z) : list Z :=
  match s with
  | [] => []
  | c :: s' => if c =? 0 then [] else c :: cstr s'
  end.

(** The [n] characters of a frame that start at bit [i]. *)
Definition frame_chars (b : list Z) (i n : Z) : list Z :=
  map (fun j => getbitu b (i + 8 * Z.of_nat j) 8) (seq 0 (Z.to_nat n)).

(** The members of [sta] that the descriptor messages leave alone. *)
Definition same_arp (s s' : sta_t) : Prop :=
  sta_deltype s' = sta_deltype s /\ sta_pos s' = sta_pos s /\
  sta_del s' = sta_del s /\ sta_hgt s' = sta_hgt s /\ sta_itrf s' = sta_itrf s.

(** ** Header-only observation messages *)

(** What a header-only observation message (1001, 1003, 1009, 1011) does
    with a frame: [bits] is the length its header needs and [syncpos] the
    bit of the synchronous-message flag.  A short frame and a frame that
    fails the station test return -1; an accepted frame returns 1 when the
    flag is clear and 0 when it is set, stores the same value in obsflag,
    records the station id and leaves the buffers and tables alone. *)
Definition header_only (r : rtcm_t) (res : status) (bits syncpos : Z) : Prop :=
  let sid := getbitu (buff r) 36 12 in
  (len r * 8 < bits -> res = (r, -1)) /\
  (bits <= len r * 8 -> snd (test_staid r sid) = 0 ->
     res = (fst (test_staid r sid), -1)) /\
  (bits <= len r * 8 -> snd (test_staid r sid) = 1 ->
     snd res = 1 - getbitu (buff r) syncpos 1 /\
     obsflag (fst res) = snd res /\ staid (fst res) = sid /\
     obs (fst res) = obs r /\ sta (fst res) = sta r /\
     nav_eph (fst res) = nav_eph r /\ ssr (fst res) = ssr r).

(** ** Tracking-mode tables of the code-bias message *)

(** The tables of decode_ssr3 with the length [ncode] it pairs each with. *)
Definition ssr_tables : list (list Z * Z) :=
  [(codes_gps, 17); (codes_glo, 4); (codes_gal, 19);
   (codes_qzs, 13); (codes_bds, 9); (codes_sbs, 4)].
(** * Properties *)

(** ** Bit-field codec *)


Lemma arr_get_nonneg (a : list Z) (i : Z) :
  0 <= i -> arr_get a i = default 0 (a !! Z.to_nat i).
Proof. intros H. unfold arr_get. destruct (Z.ltb_spec i 0); [lia|reflexivity]. Qed.

Lemma arr_set_nonneg (a : list Z) (i v : Z) :
  0 <= i -> arr_set a i v = <[Z.to_nat i := v]> a.
Proof. intros H. unfold arr_set. destruct (Z.ltb_spec i 0); [lia|reflexivity]. Qed.

Lemma land_shiftr_1 a k : 0 <= k -> Z.land (Z.shiftr a k) 1 = Z.b2z (Z.testbit a k).
Proof.
  intros Hk. change 1 with (Z.ones 1). rewrite Z.land_ones by lia.
  rewrite <- Z.bit0_mod. rewrite Z.shiftr_spec by lia. reflexivity.
Qed.

Lemma bit_at_testbit (buff : list Z) (i : Z) :
  0 <= i -> bit_at buff i = Z.b2z (Z.testbit (byte_at buff (i / 8)) (7 - i mod 8)).
Proof.
  intros Hi. unfold bit_at.
  rewrite Z.quot_div_nonneg, Z.rem_mod_nonneg by lia.
  apply land_shiftr_1. pose proof (Z.mod_pos_bound i 8). lia.
Qed.

Lemma bit_at_range (buff : list Z) (i : Z) : 0 <= i -> 0 <= bit_at buff i <= 1.
Proof. intros. rewrite bit_at_testbit by done. destruct (Z.testbit _ _); simpl; lia. Qed.

Lemma length_setbit (buff : list Z) (i : Z) (on : bool) : length (setbit buff i on) = length buff.
Proof.
  unfold setbit, arr_set. destruct (Z.quot i 8 <? 0); [done|]. by rewrite length_insert.
Qed.

Lemma testbit_set_byte (b p k : Z) (on : bool) :
  0 <= p < 8 -> 0 <= k < 8 ->
  Z.testbit (u8 (if on then Z.lor b (u32 (Z.shiftl 1 p))
                 else Z.land b (u32 (Z.lnot (u32 (Z.shiftl 1 p)))))) k
  = if k =? p then on else Z.testbit b k.
Proof.
  intros Hp Hk. unfold u8, u32.
  rewrite Z.mod_pow2_bits_low by lia.
  rewrite Z.shiftl_1_l.
  assert (E : (2 ^ p) mod 2 ^ 32 = 2 ^ p).
  { apply Z.mod_small. split; [apply Z.pow_nonneg; lia|apply Z.pow_lt_mono_r; lia]. }
  rewrite E. destruct on.
  - rewrite Z.lor_spec, Z.pow2_bits_eqb by lia.
    rewrite (Z.eqb_sym p k). destruct (k =? p); [apply orb_true_r|apply orb_false_r].
  - rewrite Z.land_spec, Z.mod_pow2_bits_low by lia.
    rewrite Z.lnot_spec, Z.pow2_bits_eqb by lia.
    rewrite (Z.eqb_sym p k). destruct (k =? p); simpl; [apply andb_false_r|apply andb_true_r].
Qed.

Lemma bit_at_setbit (buff : list Z) (i j : Z) (on : bool) :
  0 <= i -> 0 <= j -> i / 8 < Z.of_nat (length buff) ->
  bit_at (setbit buff i on) j = if j =? i then Z.b2z on else bit_at buff j.
Proof.
  intros Hi Hj Hlen. rewrite !bit_at_testbit by done.
  unfold setbit. rewrite Z.quot_div_nonneg, Z.rem_mod_nonneg by lia.
  pose proof (Z.mod_pos_bound i 8 ltac:(lia)) as Bi.
  pose proof (Z.mod_pos_bound j 8 ltac:(lia)) as Bj.
  assert (0 <= i / 8) by (apply Z.div_pos; lia).
  assert (0 <= j / 8) by (apply Z.div_pos; lia).
  rewrite arr_set_nonneg by lia.
  unfold byte_at at 1. rewrite arr_get_nonneg by lia.
  destruct (decide (j / 8 = i / 8)) as [E|NE].
  - rewrite E, list_lookup_insert_eq by lia. simpl.
    rewrite testbit_set_byte by lia.
    destruct (Z.eqb_spec j i) as [->|N].
    + by rewrite Z.eqb_refl.
    + destruct (Z.eqb_spec (7 - j mod 8) (7 - i mod 8)) as [E'|_]; [|done].
      exfalso. apply N. rewrite (Z.div_mod j 8), (Z.div_mod i 8) by lia. lia.
  - rewrite list_lookup_insert_ne by lia.
    destruct (Z.eqb_spec j i) as [->|N]; [done|].
    unfold byte_at. by rewrite arr_get_nonneg by lia.
Qed.

Lemma land_pow2_eqb d k : 0 <= k -> (Z.land d (2 ^ k) =? 0) = negb (Z.testbit d k).
Proof.
  intros Hk. destruct (Z.testbit d k) eqn:T; simpl.
  - apply Z.eqb_neq. intros E.
    assert (Z.testbit (Z.land d (2 ^ k)) k = true).
    { rewrite Z.land_spec, T, Z.pow2_bits_true by lia. done. }
    rewrite E, Z.bits_0 in H. discriminate.
  - apply Z.eqb_eq. apply Z.bits_inj'. intros n Hn.
    rewrite Z.land_spec, Z.bits_0, Z.pow2_bits_eqb by lia.
    destruct (Z.eqb_spec k n) as [->|]; [by rewrite T|apply andb_false_r].
Qed.

(* bits written by the store loop *)
Lemma bit_at_setbitu_loop (n : nat) : forall (buff : list Z) (i mask data j : Z),
  0 <= i -> 0 <= j ->
  (0 < Z.of_nat n -> mask = 2 ^ (Z.of_nat n - 1)) ->
  i + Z.of_nat n <= 8 * Z.of_nat (length buff) ->
  bit_at (setbitu_loop n buff i mask data) j
  = if (i <=? j) && (j <? i + Z.of_nat n)
    then Z.b2z (Z.testbit data (i + Z.of_nat n - 1 - j))
    else bit_at buff j.
Proof.
  induction n as [|n IH]; intros buff i mask data j Hi Hj Hm Hlen.
  - simpl. destruct (Z.leb_spec i j), (Z.ltb_spec j (i + Z.of_nat 0)); simpl; try done; lia.
  - cbn [setbitu_loop].
    rewrite Hm by lia. replace (Z.of_nat (S n) - 1) with (Z.of_nat n) by lia.
    rewrite (IH _ (i + 1)); rewrite ?length_setbit; try lia.
    + rewrite bit_at_setbit by (try lia; apply Z.div_lt_upper_bound; lia).
      rewrite land_pow2_eqb, negb_involutive by lia.
      destruct (Z.eqb_spec j i) as [->|N].
      * destruct (Z.leb_spec (i + 1) i), (Z.leb_spec i i),
          (Z.ltb_spec i (i + Z.of_nat (S n))); try lia; simpl.
        do 2 f_equal. lia.
      * destruct (Z.leb_spec (i + 1) j), (Z.leb_spec i j); try lia; simpl;
        destruct (Z.ltb_spec j (i + 1 + Z.of_nat n)), (Z.ltb_spec j (i + Z.of_nat (S n))); try lia; try done.
        do 2 f_equal. lia.
    + intros Hpos. rewrite Z.shiftr_div_pow2 by lia. change (2 ^ 1) with 2.
      replace (Z.of_nat n) with (Z.succ (Z.of_nat n - 1)) at 1 by lia.
      rewrite Z.pow_succ_r by lia. rewrite Z.mul_comm, Z.div_mul by lia. done.
Qed.

(* value read by the fetch loop *)
Lemma u32_range x : 0 <= u32 x < 2 ^ 32.
Proof. unfold u32. apply Z.mod_pos_bound. lia. Qed.

Lemma testbit_split (v n : Z) :
  0 <= n -> v mod 2 ^ (n + 1) = Z.b2z (Z.testbit v n) * 2 ^ n + v mod 2 ^ n.
Proof.
  intros Hn. rewrite Z.testbit_spec' by lia.
  rewrite Z.pow_add_r by lia. change (2 ^ 1) with 2.
  rewrite Z.rem_mul_r by lia. lia.
Qed.

Lemma getbitu_loop_spec (n : nat) : forall (buff : list Z) (i bits v : Z),
  0 <= i -> 0 <= bits < 2 ^ 32 ->
  (forall k, 0 <= k < Z.of_nat n ->
     bit_at buff (i + k) = Z.b2z (Z.testbit v (Z.of_nat n - 1 - k))) ->
  getbitu_loop n buff i bits = u32 (bits * 2 ^ Z.of_nat n + v mod 2 ^ Z.of_nat n).
Proof.
  induction n as [|n IH]; intros buff i bits v Hi Hbits Hb.
  - simpl. rewrite Z.mod_1_r, Z.mul_1_r, Z.add_0_r. unfold u32.
    symmetry. apply Z.mod_small. lia.
  - cbn [getbitu_loop].
    rewrite (IH buff (i + 1) _ v); try lia; try apply u32_range.
    + specialize (Hb 0 ltac:(lia)). rewrite Z.add_0_r in Hb. rewrite Hb.
      replace (Z.of_nat (S n) - 1 - 0) with (Z.of_nat n) by lia.
      rewrite Nat2Z.inj_succ, <- Z.add_1_r, (testbit_split v) by lia.
      rewrite Z.shiftl_mul_pow2 by lia. change (2 ^ 1) with 2.
      unfold u32. rewrite Z.pow_add_r by lia. change (2 ^ 1) with 2.
      set (b := Z.b2z (Z.testbit v (Z.of_nat n))).
      set (P := 2 ^ Z.of_nat n). set (r := v mod P).
      rewrite Z.add_mod by lia. rewrite Z.mul_mod by lia. rewrite Z.mod_mod by lia.
      rewrite <- Z.mul_mod by lia. rewrite <- Z.add_mod by lia.
      f_equal. lia.
    + intros k Hk. replace (i + 1 + k) with (i + (k + 1)) by lia.
      rewrite Hb by lia. do 2 f_equal. lia.
Qed.

Lemma getbitu_setbitu_mod (buff : list Z) (pos len d : Z) :
  0 <= pos -> 1 <= len <= 32 -> pos + len <= 8 * Z.of_nat (length buff) ->
  getbitu (setbitu buff pos len d) pos len = d mod 2 ^ len.
Proof.
  intros Hpos Hlen Hfit. unfold getbitu, setbitu.
  destruct (Z.leb_spec len 0); [lia|]. destruct (Z.ltb_spec 32 len); [lia|]. simpl.
  rewrite (getbitu_loop_spec _ _ _ _ d); try lia.
  - rewrite Z2Nat.id by lia. simpl. unfold u32. apply Z.mod_small.
    pose proof (Z.mod_pos_bound d (2 ^ len) ltac:(apply Z.pow_pos_nonneg; lia)).
    assert (2 ^ len <= 2 ^ 32) by (apply Z.pow_le_mono_r; lia). lia.
  - intros k Hk. rewrite Z2Nat.id in Hk by lia.
    rewrite bit_at_setbitu_loop; rewrite ?Z2Nat.id; try lia.
    + destruct (Z.leb_spec pos (pos + k)), (Z.ltb_spec (pos + k) (pos + len)); try lia.
      simpl. do 2 f_equal. lia.
    + intros _. rewrite Z.shiftl_1_l. unfold u32. apply Z.mod_small.
      split; [apply Z.pow_nonneg; lia|apply Z.pow_lt_mono_r; lia].
Qed.

Lemma mod_u32_low (v len : Z) : 0 <= len <= 32 -> u32 v mod 2 ^ len = v mod 2 ^ len.
Proof.
  intros H. unfold u32.
  replace (2 ^ 32) with (2 ^ len * 2 ^ (32 - len))
    by (rewrite <- Z.pow_add_r by lia; f_equal; lia).
  rewrite Z.rem_mul_r by (try apply Z.pow_pos_nonneg; try apply Z.pow_nonzero; lia).
  rewrite Z.mul_comm, Z.mod_add by (apply Z.pow_nonzero; lia).
  apply Z.mod_mod. apply Z.pow_nonzero; lia.
Qed.

Lemma ones_shiftl_u32 (len : Z) :
  0 <= len <= 32 -> u32 (Z.shiftl (2 ^ 32 - 1) len) = 2 ^ 32 - 2 ^ len.
Proof.
  intros H. unfold u32. rewrite Z.shiftl_mul_pow2 by lia.
  replace ((2 ^ 32 - 1) * 2 ^ len) with ((2 ^ 32 - 2 ^ len) + (2 ^ len - 1) * 2 ^ 32) by lia.
  rewrite Z.mod_add by lia. apply Z.mod_small.
  assert (0 < 2 ^ len) by (apply Z.pow_pos_nonneg; lia).
  assert (2 ^ len <= 2 ^ 32) by (apply Z.pow_le_mono_r; lia). lia.
Qed.

Lemma land_low_high (w len : Z) :
  0 <= len <= 32 -> 0 <= w < 2 ^ len -> Z.land w (2 ^ 32 - 2 ^ len) = 0.
Proof.
  intros H Hw. apply Z.bits_inj'. intros n Hn.
  rewrite Z.land_spec, Z.bits_0.
  destruct (Z.ltb_spec n len).
  - replace (2 ^ 32 - 2 ^ len) with ((2 ^ (32 - len) - 1) * 2 ^ len)
      by (rewrite Z.mul_sub_distr_r, <- Z.pow_add_r by lia;
          replace (32 - len + len) with 32 by lia; lia).
    rewrite Z.mul_pow2_bits_low by lia. apply andb_false_r.
  - destruct (Z.eq_dec w 0) as [->|]; [by rewrite Z.bits_0|].
    rewrite (Z.bits_above_log2 w n); [done|lia|].
    apply Z.log2_lt_pow2; [lia|].
    assert (2 ^ len <= 2 ^ n) by (apply Z.pow_le_mono_r; lia). lia.
Qed.

(** C5: a field of 1..32 bits written with setbitu is read back unchanged by
    getbitu, and a signed value written as its 32-bit two's-complement pattern
    is read back unchanged by getbits. *)
Theorem bits_roundtrip (buff : list Z) (pos len : Z) :
  0 <= pos -> 1 <= len <= 32 -> pos + len <= 8 * Z.of_nat (length buff) ->
  (forall v, 0 <= v < 2 ^ len ->
     getbitu (setbitu buff pos len v) pos len = v) /\
  (forall v, - 2 ^ (len - 1) <= v < 2 ^ (len - 1) ->
     getbits (setbitu buff pos len (u32 v)) pos len = v).
Proof.
  intros Hpos Hlen Hfit. split; intros v Hv.
  - rewrite getbitu_setbitu_mod by lia. apply Z.mod_small. lia.
  - unfold getbits. rewrite getbitu_setbitu_mod by lia.
    rewrite mod_u32_low by lia.
    assert (P : 2 ^ len = 2 * 2 ^ (len - 1)).
    { replace len with (Z.succ (len - 1)) at 1 by lia. apply Z.pow_succ_r. lia. }
    assert (0 < 2 ^ (len - 1)) by (apply Z.pow_pos_nonneg; lia).
    assert (L32 : 2 ^ len <= 2 ^ 32) by (apply Z.pow_le_mono_r; lia).
    set (w := v mod 2 ^ len).
    assert (Hw : 0 <= w < 2 ^ len) by (apply Z.mod_pos_bound; lia).
    assert (Mk : u32 (Z.shiftl 1 (len - 1)) = 2 ^ (len - 1)).
    { rewrite Z.shiftl_1_l. unfold u32. apply Z.mod_small.
      split; [lia|apply Z.pow_lt_mono_r; lia]. }
    rewrite Mk, land_pow2_eqb by lia.
    assert (Tb : Z.testbit w (len - 1) = negb (0 <=? v)).
    { unfold w. rewrite Z.mod_pow2_bits_low by lia.
      assert (Low : forall u, 0 <= u < 2 ^ (len - 1) -> Z.testbit u (len - 1) = false).
      { intros u Hu. destruct (Z.eq_dec u 0) as [->|]; [apply Z.bits_0|].
        apply Z.bits_above_log2; [lia|]. apply Z.log2_lt_pow2; lia. }
      destruct (Z.leb_spec 0 v); simpl.
      - apply Low. lia.
      - rewrite <- (Z.lnot_involutive v), Z.lnot_spec by lia.
        rewrite Low; [done|]. unfold Z.lnot. lia. }
    rewrite Tb, negb_involutive.
    destruct (Z.leb_spec len 0); [lia|]. simpl.
    destruct (Z.leb_spec 32 len); simpl.
    + assert (len = 32) as -> by lia. change (32 - 1) with 31 in *.
      assert (Hwv : w = if 0 <=? v then v else v + 2 ^ 32).
      { unfold w. destruct (Z.leb_spec 0 v).
        - apply Z.mod_small. lia.
        - replace v with ((v + 2 ^ 32) + (-1) * 2 ^ 32) at 1 by lia.
          rewrite Z.mod_add by lia. apply Z.mod_small. lia. }
      unfold s32. assert (u32 w = w) as -> by (unfold u32; apply Z.mod_small; lia).
      destruct (Z.ltb_spec w (2 ^ 31)), (Z.leb_spec 0 v); lia.
    + destruct (Z.leb_spec 0 v) as [Hv0|Hv0]; simpl.
      * assert (w = v) as -> by (unfold w; apply Z.mod_small; lia).
        unfold s32, u32. rewrite Z.mod_small by lia.
        assert (2 ^ len <= 2 ^ 31) by (apply Z.pow_le_mono_r; lia).
        destruct (Z.ltb_spec v (2 ^ 31)); lia.
      * assert (w = v + 2 ^ len) as ->.
        { unfold w. replace v with ((v + 2 ^ len) + (-1) * 2 ^ len) at 1 by lia.
          rewrite Z.mod_add by lia. apply Z.mod_small. lia. }
        rewrite ones_shiftl_u32 by lia.
        rewrite <- Z.add_nocarry_lor by (apply land_low_high; lia).
        unfold s32, u32.
        assert (2 ^ len <= 2 ^ 31) by (apply Z.pow_le_mono_r; lia).
        rewrite Z.mod_small by lia.
        destruct (Z.ltb_spec (v + 2 ^ len + (2 ^ 32 - 2 ^ len)) (2 ^ 31)); lia.
Qed.

Lemma getbitu_loop_range (n : nat) : forall (b : list Z) (i bits : Z),
  0 <= bits < 2 ^ 32 -> 0 <= getbitu_loop n b i bits < 2 ^ 32.
Proof.
  induction n as [|n IH]; intros b i bits Hb; simpl; [done|].
  apply IH, u32_range.
Qed.

Lemma getbitu_loop_app (m n : nat) : forall (b : list Z) (i bits : Z),
  getbitu_loop (m + n) b i bits
  = getbitu_loop n b (i + Z.of_nat m) (getbitu_loop m b i bits).
Proof.
  induction m as [|m IH]; intros b i bits.
  - simpl. by rewrite Z.add_0_r.
  - cbn [Nat.add getbitu_loop]. rewrite IH. f_equal. lia.
Qed.

Lemma getbitu_loop_shift (n : nat) : forall (b : list Z) (i bits : Z),
  exists k, getbitu_loop n b i bits
            = bits * 2 ^ Z.of_nat n + getbitu_loop n b i 0 + k * 2 ^ 32.
Proof.
  induction n as [|n IH]; intros b i bits.
  - exists 0. simpl. lia.
  - cbn [getbitu_loop].
    destruct (IH b (i + 1) (u32 (Z.shiftl bits 1 + bit_at b i))) as [k1 E1].
    destruct (IH b (i + 1) (u32 (Z.shiftl 0 1 + bit_at b i))) as [k2 E2].
    rewrite E1, E2. rewrite Z.shiftl_0_l, Z.add_0_l, Z.shiftl_mul_pow2 by lia.
    change (2 ^ 1) with 2. rewrite Nat2Z.inj_succ, Z.pow_succ_r by lia.
    unfold u32. rewrite (Z.mod_eq (bits * 2 + _)), (Z.mod_eq (bit_at b i)) by lia.
    set (q1 := (bits * 2 + bit_at b i) / 2 ^ 32). set (q2 := bit_at b i / 2 ^ 32).
    exists (k1 - k2 + (q2 - q1) * 2 ^ Z.of_nat n). ring.
Qed.

Lemma getbitu_loop_32 (n : nat) (b : list Z) (i bits : Z) :
  Z.of_nat n = 32 -> 0 <= bits < 2 ^ 32 ->
  getbitu_loop n b i bits = getbitu_loop n b i 0.
Proof.
  intros Hn Hb. destruct (getbitu_loop_shift n b i bits) as [k E].
  pose proof (getbitu_loop_range n b i bits Hb) as R1.
  pose proof (getbitu_loop_range n b i 0 ltac:(lia)) as R0.
  rewrite Hn in E.
  generalize dependent (getbitu_loop n b i bits).
  generalize dependent (getbitu_loop n b i 0).
  intros g0 R0 g1 E R1. lia.
Qed.

(** C8 (amended): with [len <= 0] both readers return zero; with [len > 32]
    getbitu still reads [len] bits and returns the last 32 of them, and
    getbits returns that pattern as an [int]. *)
Theorem getbit_len_out_of_range (buff : list Z) (pos len : Z) :
  (len <= 0 -> getbitu buff pos len = 0 /\ getbits buff pos len = 0) /\
  (32 < len ->
     getbitu buff pos len = getbitu buff (pos + (len - 32)) 32 /\
     getbits buff pos len = s32 (getbitu buff (pos + (len - 32)) 32)).
Proof.
  split; intros Hlen.
  - assert (G : getbitu buff pos len = 0).
    { unfold getbitu. by replace (Z.to_nat len) with O by lia. }
    split; [done|]. unfold getbits. rewrite G.
    destruct (Z.leb_spec len 0); [|lia]. reflexivity.
  - assert (G : getbitu buff pos len = getbitu buff (pos + (len - 32)) 32).
    { unfold getbitu.
      replace (Z.to_nat len) with (Z.to_nat (len - 32) + 32)%nat by lia.
      rewrite getbitu_loop_app, Z2Nat.id by lia.
      apply getbitu_loop_32; [lia|]. apply getbitu_loop_range. lia. }
    split; [done|]. unfold getbits. rewrite G.
    destruct (Z.leb_spec len 0); [lia|]. destruct (Z.leb_spec 32 len); [|lia].
    reflexivity.
Qed.

Lemma getbit_len_out_of_range_witness :
  (getbitu [165; 90] 3 0 = 0 /\ getbits [165; 90] 3 0 = 0) /\
  (getbitu [255; 1; 2; 3; 4] 0 40 = getbitu [255; 1; 2; 3; 4] (0 + (40 - 32)) 32 /\
   getbits [255; 1; 2; 3; 4] 0 40 = s32 (getbitu [255; 1; 2; 3; 4] (0 + (40 - 32)) 32)).
Proof.
  split.
  - apply (getbit_len_out_of_range [165; 90] 3 0). lia.
  - apply (getbit_len_out_of_range [255; 1; 2; 3; 4] 0 40). lia.
Defined.

(** C8 as stated fails: a 33-bit read of five 0xFF bytes returns the pattern
    0xFFFFFFFF from getbitu and -1 from getbits, not zero. *)
Lemma getbit_len33_counterexample :
  ~ (forall (buff : list Z) (pos len : Z),
       len < 1 \/ 32 < len -> getbitu buff pos len = 0 /\ getbits buff pos len = 0).
Proof.
  intros H. destruct (H [255; 255; 255; 255; 255] 0 33) as [G _]; [lia|].
  vm_compute in G. discriminate.
Qed.

Lemma bits_roundtrip_witness :
  (forall v, 0 <= v < 2 ^ 12 ->
     getbitu (setbitu [0; 0; 0; 0; 0; 0] 21 12 v) 21 12 = v) /\
  (forall v, - 2 ^ (12 - 1) <= v < 2 ^ (12 - 1) ->
     getbits (setbitu [0; 0; 0; 0; 0; 0] 21 12 (u32 v)) 21 12 = v).
Proof.
  apply (bits_roundtrip [0; 0; 0; 0; 0; 0] 21 12); simpl; lia.
Defined.

(** ** Stream framer *)

Section Framer.
Context `{env : rtklib_h}.

(** C1: when a byte completes a frame, the frame goes to decode_rtcm3 exactly
    when the 24-bit trailer equals the CRC-24Q of the first [len] bytes
    (header and payload); otherwise the frame is dropped, the byte counter is
    back at 0, decode_rtcm3 is not called and input_rtcm3 returns 0. *)
Theorem frame_dispatch_iff_crc (r : rtcm_t) (data : Z) :
  3 <= nbyte r -> len r + 3 <= nbyte r + 1 ->
  let r3 := set_nbyte (set_buff r (arr_set (buff r) (nbyte r) data)) 0 in
  let crc_ok := rtk_crc24q (buff r3) (len r3) = getbitu (buff r3) (len r3 * 8) 24 in
  (sync_rtcm3 r data = Frame r3 <-> crc_ok) /\
  (crc_ok -> input_rtcm3 r data = decode_rtcm3 r3) /\
  (~ crc_ok ->
     sync_rtcm3 r data = ParityError r3 /\
     input_rtcm3 r data = (r3, 0) /\ nbyte r3 = 0).
Proof.
  intros Hn Hfull r3 crc_ok.
  assert (S : sync_rtcm3 r data
              = if negb (rtk_crc24q (buff r3) (len r3)
                         =? getbitu (buff r3) (len r3 * 8) 24)
                then ParityError r3 else Frame r3).
  { unfold sync_rtcm3, push_byte.
    destruct (Z.eqb_spec (nbyte r) 0); [lia|]. cbn.
    destruct (Z.eqb_spec (nbyte r + 1) 3); [lia|]. cbn.
    destruct (Z.ltb_spec (nbyte r + 1) 3); [lia|].
    destruct (Z.ltb_spec (nbyte r + 1) (len r + 3)); [lia|]. reflexivity. }
  unfold input_rtcm3. rewrite S. subst crc_ok.
  destruct (Z.eqb_spec (rtk_crc24q (buff r3) (len r3))
                       (getbitu (buff r3) (len r3 * 8) 24)) as [E|N]; cbn.
  - intuition congruence.
  - intuition congruence.
Qed.

End Framer.

Lemma frame_dispatch_iff_crc_witness :
  let r := set_nbyte (rtcm_with empty_frame_head 3 "") 5 in
  let r3 := set_nbyte (set_buff r (arr_set (buff r) (nbyte r) 0x4B)) 0 in
  let crc_ok := rtk_crc24q (buff r3) (len r3) = getbitu (buff r3) (len r3 * 8) 24 in
  (sync_rtcm3 r 0x4B = Frame r3 <-> crc_ok) /\
  (crc_ok -> input_rtcm3 r 0x4B = decode_rtcm3 r3) /\
  (~ crc_ok ->
     sync_rtcm3 r 0x4B = ParityError r3 /\
     input_rtcm3 r 0x4B = (r3, 0) /\ nbyte r3 = 0).
Proof.
  apply (frame_dispatch_iff_crc (set_nbyte (rtcm_with empty_frame_head 3 "") 5) 0x4B);
    vm_compute; discriminate.
Defined.

(** ** GPS ephemeris write policy *)

Section Ephemeris.
Context `{env : rtklib_h}.

Lemma read_type1019_fields (b : list Z) :
  exists week toc eph,
    fst (read_type1019 b 36) = (frame1019_prn b, week, toc, eph) /\
    eph_iode eph = frame1019_iode b.
Proof.
  unfold read_type1019, rd_bind, fieldu, fields, rd_ret, frame1019_prn, frame1019_iode.
  cbn. eauto.
Qed.

Lemma read_type1019_eq (b : list Z) :
  fst (read_type1019 b 36)
  = (getbitu b 36 6, getbitu b 42 10, getbitu b 80 16 * 16,
     mk_eph 0 (getbitu b 72 8) (getbitu b 142 10) (getbitu b 52 4) (getbitu b 504 6)
            0 (getbitu b 56 2) (getbitu b 510 1) gtime0 gtime0 gtime0
            (getbitu b 280 32) (getbitu b 232 32) (getbits b 392 32) (getbits b 344 32)
            (getbits b 440 32) (getbits b 184 32) (getbits b 168 16) (getbits b 472 24)
            (getbits b 58 14) (getbits b 424 16) (getbits b 152 16) (getbits b 216 16)
            (getbits b 264 16) (getbits b 328 16) (getbits b 376 16)
            (getbitu b 312 16 * 16) (if getbitu b 511 1 =? 0 then 4 else 0)
            (getbits b 120 22) (getbits b 104 16) (getbits b 96 8) (getbits b 496 8)).
Proof.
  unfold read_type1019, rd_bind, fieldu, fields, rd_ret.
  cbn -[getbitu getbits Z.mul Z.eqb].
  repeat match goal with
         | |- context [?a + ?c] =>
             let v := eval vm_compute in (a + c) in change (a + c) with v
         end.
  reflexivity.
Qed.

(** What decode_type1019 completes the decoded fields to is the record the
    frame describes. *)
Lemma eph1019_complete_frame (b : list Z) (sat : Z) (ttr : gtime_t) :
  eph1019_complete (snd (fst (read_type1019 b 36))) sat
                   (getbitu b 42 10) (getbitu b 80 16 * 16) ttr
  = frame1019_eph b sat ttr.
Proof. rewrite read_type1019_eq. reflexivity. Qed.

(** C2: without -EPHALL, a type-1019 frame of full length whose PRN maps to a
    satellite [sat] returns 0 and leaves the control record as it was when its
    iode equals the stored one; when the iode differs, slot [sat-1] of the
    navigation table is replaced by the record the frame describes (every
    member at its bit position, the satellite, the adjusted week with both
    reference times, and the control time as reception time), no other slot
    or member of the control record changes, ephsat is [sat] and the return
    value is 2. *)
Theorem eph1019_write_policy (r : rtcm_t) (sat : Z) :
  36 + 476 <= len r * 8 ->
  has_option r "-EPHALL" = false ->
  sat = (let prn := frame1019_prn (buff r) in
         if prn >=? 40 then satno SYS_SBS (prn + 80) else satno SYS_GPS prn) ->
  sat <> 0 ->
  (Z.to_nat (sat - 1) < length (nav_eph r))%nat ->
  (frame1019_iode (buff r) = nav_iode r sat -> decode_type1019 r = (r, 0)) /\
  (frame1019_iode (buff r) <> nav_iode r sat ->
     let eph := frame1019_eph (buff r) sat (rtime r) in
     decode_type1019 r
     = (set_ephsat (set_nav_eph r (<[Z.to_nat (sat - 1) := eph]> (nav_eph r))) sat, 2) /\
     nav_eph (fst (decode_type1019 r)) !! Z.to_nat (sat - 1) = Some eph /\
     (forall k, k <> Z.to_nat (sat - 1) ->
        nav_eph (fst (decode_type1019 r)) !! k = nav_eph r !! k) /\
     ephsat (fst (decode_type1019 r)) = sat /\
     eph_sat eph = sat /\ eph_iode eph = frame1019_iode (buff r) /\
     eph_ttr eph = rtime r).
Proof.
  intros Hlen Hopt Hsat Hnz Hslot.
  assert (D : decode_type1019 r
              = let e := frame1019_eph (buff r) sat (rtime r) in
                if eph_iode e =? nav_iode r sat then (r, 0)
                else (set_ephsat
                        (set_nav_eph r (<[Z.to_nat (sat - 1) := e]> (nav_eph r))) sat, 2)).
  { unfold decode_type1019.
    destruct (Z.leb_spec (24 + 12 + 476) (len r * 8)); [|lia].
    change (24 + 12) with 36.
    rewrite <- eph1019_complete_frame.
    rewrite (read_type1019_eq (buff r)).
    revert Hsat. unfold frame1019_prn. cbv zeta.
    destruct (getbitu (buff r) 36 6 >=? 40); intros Hsat; cbv beta iota;
      rewrite <- Hsat;
      (destruct (Z.eqb_spec sat 0); [done|]); rewrite Hopt; reflexivity. }
  assert (Hi : eph_iode (frame1019_eph (buff r) sat (rtime r))
               = frame1019_iode (buff r))
    by (unfold frame1019_eph, frame1019_iode; cbn [eph_iode]; reflexivity).
  rewrite D. cbv zeta. rewrite Hi.
  split; intros H.
  - by rewrite H, Z.eqb_refl.
  - destruct (Z.eqb_spec (frame1019_iode (buff r)) (nav_iode r sat)); [done|].
    split; [reflexivity|]. cbn [fst nav_eph set_ephsat set_nav_eph ephsat].
    split; [by rewrite list_lookup_insert_eq|].
    split; [intros k Hk; by rewrite list_lookup_insert_ne|].
    split; [reflexivity|].
    split; [unfold frame1019_eph; cbn [eph_sat]; reflexivity|].
    split; [reflexivity|].
    unfold frame1019_eph; cbn [eph_ttr]; reflexivity.
Qed.

End Ephemeris.

Lemma eph1019_write_policy_witness :
  let r := rtcm_with frame1019 67 "" in
  (frame1019_iode (buff r) = nav_iode r 7 -> decode_type1019 r = (r, 0)) /\
  (frame1019_iode (buff r) <> nav_iode r 7 ->
     let eph := frame1019_eph (buff r) 7 (rtime r) in
     decode_type1019 r
     = (set_ephsat (set_nav_eph r (<[Z.to_nat (7 - 1) := eph]> (nav_eph r))) 7, 2) /\
     nav_eph (fst (decode_type1019 r)) !! Z.to_nat (7 - 1) = Some eph /\
     (forall k, k <> Z.to_nat (7 - 1) ->
        nav_eph (fst (decode_type1019 r)) !! k = nav_eph r !! k) /\
     ephsat (fst (decode_type1019 r)) = 7 /\
     eph_sat eph = 7 /\ eph_iode eph = frame1019_iode (buff r) /\
     eph_ttr eph = rtime r).
Proof.
  apply (eph1019_write_policy (rtcm_with frame1019 67 "") 7);
    first [ by vm_compute | vm_compute; lia ].
Defined.

(** ** MSM header *)

Lemma land_1_range (x : Z) : 0 <= Z.land x 1 <= 1.
Proof.
  change 1 with (Z.ones 1) at 1 2. rewrite Z.land_ones by lia.
  pose proof (Z.mod_pos_bound x (2 ^ 1) ltac:(lia)). change (2 ^ 1) with 2 in *. lia.
Qed.

Lemma getbitu_1 (b : list Z) (i : Z) : getbitu b i 1 = bit_at b i.
Proof.
  unfold getbitu. change (Z.to_nat 1) with 1%nat. cbn [getbitu_loop].
  rewrite Z.shiftl_0_l, Z.add_0_l. unfold u32. apply Z.mod_small.
  unfold bit_at. pose proof (land_1_range (Z.shiftr (byte_at b (Z.quot i 8)) (7 - Z.rem i 8))).
  lia.
Qed.

Lemma count_bits_range (n : nat) : forall (b : list Z) (i : Z),
  0 <= count_bits n b i <= Z.of_nat n.
Proof.
  induction n as [|n IH]; intros b i; cbn [count_bits]; [lia|].
  specialize (IH b (i + 1)). destruct (bit_at b i =? 0); lia.
Qed.

Lemma mask_scan_count (n : nat) : forall (b : list Z) (i j : Z) (arr : list Z) (cnt : Z),
  snd (mask_scan n b i j arr cnt) = cnt + count_bits n b i.
Proof.
  induction n as [|n IH]; intros b i j arr cnt; cbn [mask_scan count_bits]; [simpl; lia|].
  rewrite getbitu_1. destruct (bit_at b i =? 0); rewrite IH; lia.
Qed.

Lemma cell_scan_count (n : nat) : forall (b : list Z) (i j : Z) (cm : list Z) (nc : Z),
  snd (cell_scan n b i j cm nc) = nc + count_bits n b i.
Proof.
  induction n as [|n IH]; intros b i j cm nc; cbn [cell_scan count_bits]; [simpl; lia|].
  rewrite getbitu_1. destruct (bit_at b i =? 0); rewrite IH; lia.
Qed.

Section MsmHead.
Context `{env : rtklib_h}.

Lemma test_staid_keeps (r : rtcm_t) (sid : Z) :
  let r' := fst (test_staid r sid) in
  obs r' = obs r /\ sta r' = sta r /\ nav_eph r' = nav_eph r /\ ssr r' = ssr r /\
  rtime r' = rtime r /\ obsflag r' = obsflag r /\ ephsat r' = ephsat r /\
  buff r' = buff r /\ len r' = len r /\ nbyte r' = nbyte r /\ opt r' = opt r.
Proof.
  unfold test_staid.
  destruct (match sta_option (opt r) with Some id => negb (sid =? id) | None => false end);
    [cbn; tauto|].
  destruct ((staid r =? 0) || negb (obsflag r =? 0)); [cbn; tauto|].
  destruct (negb (sid =? staid r)); cbn; tauto.
Qed.

(** The header decoder: what it returns in terms of the two masks and the
    cell mask of the frame. *)
Lemma decode_msm_head_cases (r : rtcm_t) (sys : sys_t) :
  let nsat := count_bits 64 (buff r) 97 in
  let nsig := count_bits 32 (buff r) 161 in
  let res := decode_msm_head r sys in
  obs (fst res) = obs r /\ len (fst res) = len r /\
  (mh_ret (snd res) = -1 \/
   nsat * nsig <= 64 /\
   h_nsat (mh_h (snd res)) = nsat /\ h_nsig (mh_h (snd res)) = nsig /\
   mh_ret (snd res) = count_bits (Z.to_nat (nsat * nsig)) (buff r) 193 /\
   mh_hsize (snd res) = 193 + nsat * nsig).
Proof.
  cbv zeta. unfold decode_msm_head.
  destruct (Z.leb_spec (24 + 12 + 157) (len r * 8)); [|cbn [fst snd mh_ret]; auto].
  set (r1 := match sys with SYS_GLO => _ | SYS_CMP => _ | _ => _ end).
  assert (K1 : obs r1 = obs r /\ len r1 = len r /\ buff r1 = buff r).
  { subst r1. destruct sys; cbn; auto. }
  destruct K1 as (Ko & Kl & Kb). clearbody r1.
  change (24 + 12 + 42 + 19) with 97. change (97 + 64) with 161. change (161 + 32) with 193.
  pose proof (mask_scan_count 64 (buff r) 97 1 (replicate 64 0) 0) as Ms.
  pose proof (mask_scan_count 32 (buff r) 161 1 (replicate 32 0) 0) as Mg.
  destruct (mask_scan 64 (buff r) 97 1 (replicate 64 0) 0) as [sats nsat].
  destruct (mask_scan 32 (buff r) 161 1 (replicate 32 0) 0) as [sigs nsig].
  cbn [snd] in Ms, Mg. rewrite Z.add_0_l in Ms, Mg. subst nsat nsig.
  pose proof (test_staid_keeps r1 (getbitu (buff r) (24 + 12) 12)) as T. cbv zeta in T.
  destruct (test_staid r1 (getbitu (buff r) (24 + 12) 12)) as [r2 ok].
  cbn [fst] in T. destruct T as (To & _ & _ & _ & _ & _ & _ & _ & Tl & _).
  rewrite Ko in To. rewrite Kl in Tl.
  destruct (ok =? 0); [cbn [fst snd mh_ret]; rewrite To, Tl; auto|].
  destruct (Z.gtb_spec (count_bits 64 (buff r) 97 * count_bits 32 (buff r) 161) 64);
    [cbn [fst snd mh_ret]; rewrite To, Tl; auto|].
  destruct (193 + _ >? len r * 8); [cbn [fst snd mh_ret]; rewrite To, Tl; auto|].
  pose proof (cell_scan_count
                (Z.to_nat (count_bits 64 (buff r) 97 * count_bits 32 (buff r) 161))
                (buff r) 193 0 (replicate 64 0) 0) as Cs.
  destruct (cell_scan _ (buff r) 193 0 (replicate 64 0) 0) as [cm nc].
  cbn [snd] in Cs. rewrite Z.add_0_l in Cs.
  cbn [fst snd mh_ret mh_h mh_hsize h_nsat h_nsig]. rewrite To, Tl.
  split; [done|]. split; [done|]. right. repeat split; try done; lia.
Qed.

Lemma decode_msm_rejected (k sb cb : Z) (r : rtcm_t) (sys : sys_t) :
  mh_ret (snd (decode_msm_head r sys)) = -1 ->
  snd (decode_msm k sb cb r sys) = -1 /\ obs (fst (decode_msm k sb cb r sys)) = obs r.
Proof.
  intros H. unfold decode_msm.
  destruct (decode_msm_head_cases r sys) as (Ho & _). cbv zeta in Ho.
  destruct (decode_msm_head r sys) as [r1 hd]. cbn [fst snd] in *.
  rewrite H. cbn. done.
Qed.

(** C3: when the satellites selected by the 64-bit mask times the signals
    selected by the 32-bit mask exceed 64, each of the MSM4..MSM7 decoders
    returns -1 and leaves the observation buffer untouched; when the header
    decoder accepts a frame, that product is at most 64 and the returned
    ncell is the number of set bits of the cell mask of that many bits. *)
Theorem msm_cell_limit (r : rtcm_t) (sys : sys_t) :
  let nsat := count_bits 64 (buff r) 97 in
  let nsig := count_bits 32 (buff r) 161 in
  (nsat * nsig > 64 ->
     Forall (fun dec : rtcm_t -> sys_t -> status =>
               snd (dec r sys) = -1 /\ obs (fst (dec r sys)) = obs r)
            [decode_msm4; decode_msm5; decode_msm6; decode_msm7]) /\
  (0 <= mh_ret (snd (decode_msm_head r sys)) ->
     nsat * nsig <= 64 /\
     h_nsat (mh_h (snd (decode_msm_head r sys))) = nsat /\
     h_nsig (mh_h (snd (decode_msm_head r sys))) = nsig /\
     mh_ret (snd (decode_msm_head r sys))
     = count_bits (Z.to_nat (nsat * nsig)) (buff r) 193).
Proof.
  cbv zeta. destruct (decode_msm_head_cases r sys) as (_ & _ & C). cbv zeta in C.
  split.
  - intros Hbig.
    assert (R : mh_ret (snd (decode_msm_head r sys)) = -1).
    { destruct C as [R|[Hle _]]; [done|lia]. }
    apply Forall_cons_2; [exact (decode_msm_rejected 4 18 48 r sys R)|].
    apply Forall_cons_2; [exact (decode_msm_rejected 5 36 63 r sys R)|].
    apply Forall_cons_2; [exact (decode_msm_rejected 6 18 65 r sys R)|].
    apply Forall_cons_2; [exact (decode_msm_rejected 7 36 80 r sys R)|].
    apply Forall_nil_2.
  - intros Hacc. destruct C as [R|(H1 & H2 & H3 & H4 & _)]; [lia|done].
Qed.

End MsmHead.

Lemma msm_cell_limit_witness :
  Forall (fun dec : rtcm_t -> sys_t -> status =>
            snd (dec rtcm_msm_wide SYS_GPS) = -1 /\
            obs (fst (dec rtcm_msm_wide SYS_GPS)) = obs rtcm_msm_wide)
         [decode_msm4; decode_msm5; decode_msm6; decode_msm7] /\
  (count_bits 64 (buff rtcm_msm7) 97 * count_bits 32 (buff rtcm_msm7) 161 <= 64 /\
   h_nsat (mh_h (snd (decode_msm_head rtcm_msm7 SYS_GPS))) = count_bits 64 (buff rtcm_msm7) 97 /\
   h_nsig (mh_h (snd (decode_msm_head rtcm_msm7 SYS_GPS))) = count_bits 32 (buff rtcm_msm7) 161 /\
   mh_ret (snd (decode_msm_head rtcm_msm7 SYS_GPS))
   = count_bits (Z.to_nat (count_bits 64 (buff rtcm_msm7) 97
                           * count_bits 32 (buff rtcm_msm7) 161))
                (buff rtcm_msm7) 193).
Proof.
  split.
  - apply (proj1 (msm_cell_limit rtcm_msm_wide SYS_GPS)). vm_compute. reflexivity.
  - apply (proj2 (msm_cell_limit rtcm_msm7 SYS_GPS)). vm_compute. discriminate.
Defined.

(** ** Station id consistency *)

Section StationId.
Context `{env : rtklib_h}.

Lemma set_staid_same (r : rtcm_t) : set_staid r (staid r) = r.
Proof. by destruct r. Qed.

Lemma test_staid_mismatch (r : rtcm_t) (sid : Z) :
  sta_option (opt r) = None \/ sta_option (opt r) = Some sid ->
  staid r <> 0 -> obsflag r = 0 -> sid <> staid r ->
  test_staid r sid = (set_staid r 0, 0).
Proof.
  intros Ho Hs Hf Hd. unfold test_staid.
  assert (match sta_option (opt r) with Some id => negb (sid =? id) | None => false end
          = false) as ->.
  { destruct Ho as [Ho|Ho]; rewrite Ho; [done|]. by rewrite Z.eqb_refl. }
  destruct (Z.eqb_spec (staid r) 0); [done|]. rewrite Hf. cbn.
  destruct (Z.eqb_spec sid (staid r)); done.
Qed.

Lemma test_staid_pass (r : rtcm_t) (sid : Z) :
  sta_option (opt r) = None \/ sta_option (opt r) = Some sid ->
  staid r = 0 \/ obsflag r <> 0 \/ sid = staid r ->
  test_staid r sid = (set_staid r sid, 1).
Proof.
  intros Ho Hc. unfold test_staid.
  assert (match sta_option (opt r) with Some id => negb (sid =? id) | None => false end
          = false) as ->.
  { destruct Ho as [Ho|Ho]; rewrite Ho; [done|]. by rewrite Z.eqb_refl. }
  destruct (Z.eqb_spec (staid r) 0); [done|].
  destruct (Z.eqb_spec (obsflag r) 0); [|done]. cbn.
  destruct Hc as [?|[?|Hc]]; [done..|]. rewrite Hc.
  by rewrite Z.eqb_refl, set_staid_same.
Qed.

Lemma test_staid_filtered (r : rtcm_t) (sid id : Z) :
  sta_option (opt r) = Some id -> id <> sid -> test_staid r sid = (r, 0).
Proof.
  intros Ho Hd. unfold test_staid. rewrite Ho.
  destruct (Z.eqb_spec sid id); [lia|]. done.
Qed.

Lemma decode_msm_head_mismatch (r : rtcm_t) (sys : sys_t) :
  let sid := getbitu (buff r) 36 12 in
  sta_option (opt r) = None \/ sta_option (opt r) = Some sid ->
  staid r <> 0 -> obsflag r = 0 -> sid <> staid r ->
  193 <= len r * 8 ->
  let res := decode_msm_head r sys in
  mh_ret (snd res) = -1 /\ staid (fst res) = 0 /\ obs (fst res) = obs r /\
  sta (fst res) = sta r /\ nav_eph (fst res) = nav_eph r /\ ssr (fst res) = ssr r.
Proof.
  cbv zeta. intros Ho Hs Hf Hd Hlen. unfold decode_msm_head.
  destruct (Z.leb_spec (24 + 12 + 157) (len r * 8)); [|lia].
  set (r1 := match sys with SYS_GLO => _ | SYS_CMP => _ | _ => _ end).
  assert (K : opt r1 = opt r /\ staid r1 = staid r /\ obsflag r1 = obsflag r /\
              obs r1 = obs r /\ sta r1 = sta r /\ nav_eph r1 = nav_eph r /\
              ssr r1 = ssr r).
  { subst r1. destruct sys; cbn; tauto. }
  destruct K as (K1 & K2 & K3 & K4 & K5 & K6 & K7).
  clearbody r1.
  change (24 + 12 + 42 + 19) with 97. change (97 + 64) with 161. change (161 + 32) with 193.
  change (24 + 12) with 36.
  destruct (mask_scan 64 (buff r) 97 1 (replicate 64 0) 0) as [sats nsat].
  destruct (mask_scan 32 (buff r) 161 1 (replicate 32 0) 0) as [sigs nsig].
  assert (T : test_staid r1 (getbitu (buff r) 36 12) = (set_staid r1 0, 0)).
  { apply test_staid_mismatch; rewrite ?K1, ?K2, ?K3; assumption. }
  destruct (test_staid r1 (getbitu (buff r) 36 12)) as [r2 ok].
  injection T as -> ->.
  change (0 =? 0) with true. cbv iota.
  cbn [fst snd mh_ret set_staid staid obs sta nav_eph ssr].
  repeat split; assumption || reflexivity.
Qed.

Lemma dropped_reset (r : rtcm_t) : dropped r (set_staid r 0, -1).
Proof. unfold dropped. cbn [fst snd set_staid staid obs sta nav_eph ssr]. tauto. Qed.

Lemma decode_type1001_mismatch (r : rtcm_t) :
  test_staid r (getbitu (buff r) 36 12) = (set_staid r 0, 0) ->
  88 <= len r * 8 -> decode_type1001 r = (set_staid r 0, -1).
Proof.
  intros T Hlen. unfold decode_type1001, decode_head1001. change (24 + 12) with 36.
  destruct (Z.leb_spec (36 + 52) (len r * 8)); [|lia]. rewrite T. reflexivity.
Qed.

Lemma decode_type1005_mismatch (r : rtcm_t) :
  test_staid r (getbitu (buff r) 36 12) = (set_staid r 0, 0) ->
  len r * 8 = 176 -> decode_type1005 r = (set_staid r 0, -1).
Proof.
  intros T Hlen. unfold decode_type1005. change (24 + 12) with 36.
  destruct (Z.eqb_spec (36 + 140) (len r * 8)); [|lia]. rewrite T. reflexivity.
Qed.

Lemma decode_type1006_mismatch (r : rtcm_t) :
  test_staid r (getbitu (buff r) 36 12) = (set_staid r 0, 0) ->
  192 <= len r * 8 -> decode_type1006 r = (set_staid r 0, -1).
Proof.
  intros T Hlen. unfold decode_type1006. change (24 + 12) with 36.
  destruct (Z.leb_spec (36 + 156) (len r * 8)); [|lia]. rewrite T. reflexivity.
Qed.

Lemma decode_msm_mismatch (k sb cb : Z) (r : rtcm_t) (sys : sys_t) :
  let res := decode_msm_head r sys in
  mh_ret (snd res) = -1 /\ staid (fst res) = 0 /\ obs (fst res) = obs r /\
  sta (fst res) = sta r /\ nav_eph (fst res) = nav_eph r /\ ssr (fst res) = ssr r ->
  dropped r (decode_msm0 r sys) /\ dropped r (decode_msm k sb cb r sys).
Proof.
  cbv zeta. unfold decode_msm, decode_msm0.
  destruct (decode_msm_head r sys) as [r2 hd]. cbn [fst snd].
  intros (M1 & M). rewrite M1. change (-1 <? 0) with true. cbv iota.
  unfold dropped. cbn [fst snd]. tauto.
Qed.

Ltac fold_positions :=
  cbv beta iota zeta;
  repeat match goal with
         | |- context [Z.pos ?p + Z.pos ?q] =>
             let v := eval vm_compute in (Z.pos p + Z.pos q) in
             change (Z.pos p + Z.pos q) with v
         end.

Lemma decode_type1002_mismatch (r : rtcm_t) :
  test_staid r (getbitu (buff r) 36 12) = (set_staid r 0, 0) ->
  88 <= len r * 8 -> decode_type1002 r = (set_staid r 0, -1).
Proof.
  intros T Hlen. unfold decode_type1002, decode_head1001. change (24 + 12) with 36.
  destruct (Z.leb_spec (36 + 52) (len r * 8)); [|lia]. rewrite T. reflexivity.
Qed.

Lemma decode_type1004_mismatch (r : rtcm_t) :
  test_staid r (getbitu (buff r) 36 12) = (set_staid r 0, 0) ->
  88 <= len r * 8 -> decode_type1004 r = (set_staid r 0, -1).
Proof.
  intros T Hlen. unfold decode_type1004, decode_head1001. change (24 + 12) with 36.
  destruct (Z.leb_spec (36 + 52) (len r * 8)); [|lia]. rewrite T. reflexivity.
Qed.

Lemma decode_head1009_mismatch (r : rtcm_t) :
  test_staid r (getbitu (buff r) 36 12) = (set_staid r 0, 0) ->
  85 <= len r * 8 ->
  decode_head1009 r = (set_staid r 0, -1, getbitu (buff r) 75 1).
Proof.
  intros T Hlen. unfold decode_head1009. change (24 + 12) with 36.
  destruct (Z.leb_spec (36 + 49) (len r * 8)); [|lia]. rewrite T. reflexivity.
Qed.

Lemma decode_type1007_mismatch (r : rtcm_t) :
  test_staid r (getbitu (buff r) 36 12) = (set_staid r 0, 0) ->
  bits1007 (buff r) <= len r * 8 -> decode_type1007 r = (set_staid r 0, -1).
Proof.
  unfold bits1007. intros T Hlen. unfold decode_type1007, read_chars. fold_positions.
  match goal with
  | |- context [if ?a <=? ?b then _ else _] => destruct (Z.leb_spec a b); [|lia]
  end.
  rewrite T. reflexivity.
Qed.

Lemma decode_type1008_mismatch (r : rtcm_t) :
  test_staid r (getbitu (buff r) 36 12) = (set_staid r 0, 0) ->
  bits1008 (buff r) <= len r * 8 -> decode_type1008 r = (set_staid r 0, -1).
Proof.
  unfold bits1008. cbv zeta. intros T Hlen.
  unfold decode_type1008, read_chars. fold_positions.
  match goal with
  | |- context [if ?a <=? ?b then _ else _] => destruct (Z.leb_spec a b); [|lia]
  end.
  rewrite T. reflexivity.
Qed.

Lemma decode_type1033_mismatch (r : rtcm_t) :
  test_staid r (getbitu (buff r) 36 12) = (set_staid r 0, 0) ->
  bits1033 (buff r) <= len r * 8 -> decode_type1033 r = (set_staid r 0, -1).
Proof.
  unfold bits1033. cbv zeta. intros T Hlen.
  unfold decode_type1033, read_chars. fold_positions.
  match goal with
  | |- context [if ?a <=? ?b then _ else _] => destruct (Z.leb_spec a b); [|lia]
  end.
  rewrite T. reflexivity.
Qed.

(** C4 (amended): for a frame whose station id is not excluded by a -STA=
    option: if an id is recorded, the batch is open (obsflag clear) and the
    frame's id differs, test_staid fails and clears the recorded id, and
    every decoder of a frame carrying a station id (the observation types
    1001 to 1004 and 1009 to 1012, the station descriptors 1005, 1006, 1007,
    1008 and 1033, and the MSM types) returns -1 on a frame long enough to be
    read, with the observation buffer, station record and tables as before;
    otherwise the test passes and the frame's id is recorded.  A frame whose
    id differs from the one named by -STA= fails the test with the control
    record unchanged. *)
Theorem station_id_consistency (r : rtcm_t) (sid : Z) :
  sid = frame_staid (buff r) ->
  (sta_option (opt r) = None \/ sta_option (opt r) = Some sid ->
   staid r <> 0 -> obsflag r = 0 -> sid <> staid r ->
     test_staid r sid = (set_staid r 0, 0) /\
     (88 <= len r * 8 ->
        dropped r (decode_type1001 r) /\ dropped r (decode_type1002 r) /\
        dropped r (decode_type1003 r) /\ dropped r (decode_type1004 r)) /\
     (len r * 8 = 176 -> dropped r (decode_type1005 r)) /\
     (192 <= len r * 8 -> dropped r (decode_type1006 r)) /\
     (bits1007 (buff r) <= len r * 8 -> dropped r (decode_type1007 r)) /\
     (bits1008 (buff r) <= len r * 8 -> dropped r (decode_type1008 r)) /\
     (85 <= len r * 8 ->
        dropped r (decode_type1009 r) /\ dropped r (decode_type1010 r) /\
        dropped r (decode_type1011 r) /\ dropped r (decode_type1012 r)) /\
     (bits1033 (buff r) <= len r * 8 -> dropped r (decode_type1033 r)) /\
     (193 <= len r * 8 ->
        forall sys, dropped r (decode_msm0 r sys) /\ dropped r (decode_msm4 r sys) /\
                    dropped r (decode_msm5 r sys) /\ dropped r (decode_msm6 r sys) /\
                    dropped r (decode_msm7 r sys))) /\
  (sta_option (opt r) = None \/ sta_option (opt r) = Some sid ->
   staid r = 0 \/ obsflag r <> 0 \/ sid = staid r ->
     test_staid r sid = (set_staid r sid, 1)) /\
  (forall id, sta_option (opt r) = Some id -> id <> sid -> test_staid r sid = (r, 0)).
Proof.
  unfold frame_staid. intros Hsid. subst sid. split; [|split].
  - intros Ho Hs Hf Hd.
    pose proof (test_staid_mismatch r _ Ho Hs Hf Hd) as T.
    split; [exact T|].
    repeat apply conj.
    + intros Hlen. unfold decode_type1003.
      rewrite (decode_type1001_mismatch r T Hlen), (decode_type1002_mismatch r T Hlen),
        (decode_type1004_mismatch r T Hlen).
      repeat split; apply dropped_reset.
    + intros Hlen. rewrite (decode_type1005_mismatch r T Hlen). apply dropped_reset.
    + intros Hlen. rewrite (decode_type1006_mismatch r T Hlen). apply dropped_reset.
    + intros Hlen. rewrite (decode_type1007_mismatch r T Hlen). apply dropped_reset.
    + intros Hlen. rewrite (decode_type1008_mismatch r T Hlen). apply dropped_reset.
    + intros Hlen.
      unfold decode_type1011, decode_type1009, decode_type1010, decode_type1012.
      rewrite (decode_head1009_mismatch r T Hlen).
      repeat split; apply dropped_reset.
    + intros Hlen. rewrite (decode_type1033_mismatch r T Hlen). apply dropped_reset.
    + intros Hlen sys.
      pose proof (decode_msm_head_mismatch r sys Ho Hs Hf Hd Hlen) as M.
      split; [exact (proj1 (decode_msm_mismatch 4 18 48 r sys M))|].
      split; [exact (proj2 (decode_msm_mismatch 4 18 48 r sys M))|].
      split; [exact (proj2 (decode_msm_mismatch 5 36 63 r sys M))|].
      split; [exact (proj2 (decode_msm_mismatch 6 18 65 r sys M))|].
      exact (proj2 (decode_msm_mismatch 7 36 80 r sys M)).
  - apply test_staid_pass.
  - apply test_staid_filtered.
Qed.

End StationId.

Lemma station_id_consistency_witness :
  dropped rtcm1005_other (decode_type1005 rtcm1005_other) /\
  dropped rtcm1033_other (decode_type1033 rtcm1033_other) /\
  test_staid rtcm1005 123 = (set_staid rtcm1005 123, 1) /\
  test_staid rtcm1005_sta5 123 = (rtcm1005_sta5, 0).
Proof.
  destruct (station_id_consistency rtcm1005_other 123 ltac:(vm_compute; reflexivity))
    as (A & _ & _).
  destruct (station_id_consistency rtcm1033_other 123 ltac:(vm_compute; reflexivity))
    as (A' & _ & _).
  destruct (station_id_consistency rtcm1005 123 ltac:(vm_compute; reflexivity))
    as (_ & B & _).
  destruct (station_id_consistency rtcm1005_sta5 123 ltac:(vm_compute; reflexivity))
    as (_ & _ & C).
  split; [|split; [|split]].
  - match type of A with
    | ?P1 -> ?P2 -> ?P3 -> ?P4 -> _ =>
        assert (H1 : P1) by (left; vm_compute; reflexivity);
        assert (H2 : P2) by (vm_compute; discriminate);
        assert (H3 : P3) by (vm_compute; reflexivity);
        assert (H4 : P4) by (vm_compute; discriminate)
    end.
    destruct (A H1 H2 H3 H4) as (_ & _ & D & _). apply D. vm_compute. reflexivity.
  - match type of A' with
    | ?P1 -> ?P2 -> ?P3 -> ?P4 -> _ =>
        assert (H1 : P1) by (left; vm_compute; reflexivity);
        assert (H2 : P2) by (vm_compute; discriminate);
        assert (H3 : P3) by (vm_compute; reflexivity);
        assert (H4 : P4) by (vm_compute; discriminate)
    end.
    destruct (A' H1 H2 H3 H4) as (_ & _ & _ & _ & _ & _ & _ & D & _).
    apply D. vm_compute. discriminate.
  - apply B; left; vm_compute; reflexivity.
  - apply (C 5); [vm_compute; reflexivity|lia].
Defined.

(** C4 as stated fails under a -STA= option: with -STA=5, recorded id 7 and an
    open batch, a frame of station 9 is refused but the recorded id stays 7,
    and a frame of the recorded station 7 does not pass the test. *)
Lemma station_id_option_counterexample :
  staid rtcm1005_sta5 <> 0 /\ obsflag rtcm1005_sta5 = 0 /\
  test_staid rtcm1005_sta5 9 = (rtcm1005_sta5, 0) /\
  staid (fst (test_staid rtcm1005_sta5 9)) <> 0 /\
  snd (test_staid rtcm1005_sta5 7) <> 1.
Proof. vm_compute. repeat split; discriminate. Qed.

(** ** Station ARP messages *)

Section Arp.
Context `{env : rtklib_h}.

(** C10 (amended): with [len = L + 3] for a payload of [L] bytes, as the
    framer sets it, decode_type1005 can return 5 only for [L = 19] (176 bits
    of header and payload); for any other payload length it returns -1 and
    the control record is unchanged.  decode_type1006 takes every payload of
    at least 21 bytes and, like decode_type1005 at 19 bytes, then returns 5
    exactly when the station id test passes. *)
Theorem arp_length_check (r : rtcm_t) (L : Z) :
  len r = L + 3 ->
  (snd (decode_type1005 r) = 5 -> L = 19) /\
  (L <> 19 -> decode_type1005 r = (r, -1)) /\
  (L = 19 ->
     (snd (decode_type1005 r) = 5 <-> snd (test_staid r (frame_staid (buff r))) <> 0)) /\
  (21 <= L ->
     (snd (decode_type1006 r) = 5 <-> snd (test_staid r (frame_staid (buff r))) <> 0)).
Proof.
  unfold frame_staid. intros Hlen. unfold decode_type1005, decode_type1006.
  change (24 + 12) with 36.
  destruct (test_staid r (getbitu (buff r) 36 12)) as [r1 ok].
  destruct (Z.eqb_spec (36 + 140) (len r * 8)) as [E|N];
  destruct (Z.leb_spec (36 + 156) (len r * 8)) as [E6|N6];
  destruct (Z.eqb_spec ok 0) as [Z0|NZ]; cbn [fst snd];
  (split; [|split; [|split]]); intros; try lia; try done; split; intros; try lia; try done.
Qed.

End Arp.

Lemma arp_length_check_witness :
  (snd (decode_type1005 rtcm1005) = 5 -> 19 = 19) /\
  (snd (decode_type1005 rtcm1005) = 5 <->
     snd (test_staid rtcm1005 (frame_staid (buff rtcm1005))) <> 0) /\
  decode_type1005 rtcm1005_long = (rtcm1005_long, -1) /\
  (snd (decode_type1006 rtcm1006) = 5 <->
     snd (test_staid rtcm1006 (frame_staid (buff rtcm1006))) <> 0).
Proof.
  destruct (arp_length_check rtcm1005 19 ltac:(vm_compute; reflexivity)) as (A & _ & B & _).
  destruct (arp_length_check rtcm1005_long 22 ltac:(vm_compute; reflexivity)) as (_ & C & _).
  destruct (arp_length_check rtcm1006 21 ltac:(vm_compute; reflexivity)) as (_ & _ & _ & D).
  split; [exact A|]. split; [apply B; reflexivity|].
  split; [apply C; lia|apply D; lia].
Defined.

(** C10 as stated fails on the byte count: the 1005 frame with a payload of
    19 bytes is decoded (return 5), the same content declared with a payload
    of 22 bytes is refused. *)
Lemma arp_payload22_counterexample :
  frame_payload_len (buff rtcm1005) = 19 /\
  len rtcm1005 = 19 + 3 /\ snd (decode_type1005 rtcm1005) = 5 /\
  frame_payload_len (buff rtcm1005_long) = 22 /\
  len rtcm1005_long = 22 + 3 /\ snd (decode_type1005 rtcm1005_long) = -1.
Proof. vm_compute. repeat split. Qed.

(** ** Signal slots *)

Lemma for_range_ind {St : Type} (P : Z -> St -> Prop) (body : Z -> St -> St) (n : nat) :
  forall (i : Z) (s : St),
    P i s ->
    (forall j t, i <= j < i + Z.of_nat n -> P j t -> P (j + 1) (body j t)) ->
    P (i + Z.of_nat n) (for_range n i body s).
Proof.
  induction n as [|n IH]; intros i s H0 Hstep.
  - simpl. by rewrite Z.add_0_r.
  - cbn [for_range]. replace (i + Z.of_nat (S n)) with (i + 1 + Z.of_nat n) by lia.
    apply IH.
    + apply Hstep; [lia|done].
    + intros j t Hj. apply Hstep. lia.
Qed.

Lemma arr_get_set_eq (a : list Z) (i v : Z) :
  0 <= i < Z.of_nat (length a) -> arr_get (arr_set a i v) i = v.
Proof.
  intros H. rewrite arr_set_nonneg, arr_get_nonneg by lia.
  by rewrite list_lookup_insert_eq by lia.
Qed.

Lemma arr_get_set_ne (a : list Z) (i j v : Z) :
  0 <= i -> 0 <= j -> i <> j -> arr_get (arr_set a i v) j = arr_get a j.
Proof.
  intros Hi Hj H. rewrite arr_set_nonneg, !arr_get_nonneg by lia.
  by rewrite list_lookup_insert_ne by lia.
Qed.

Lemma length_arr_set (a : list Z) (i v : Z) : length (arr_set a i v) = length a.
Proof. unfold arr_set. destruct (i <? 0); [done|apply length_insert]. Qed.

(** A property checked by evaluation on every integer of a range. *)
Lemma Z_range_forall (P : Z -> bool) (lo n : nat) :
  forallb P (map Z.of_nat (seq lo n)) = true ->
  forall c, Z.of_nat lo <= c < Z.of_nat (lo + n) -> P c = true.
Proof.
  intros H c Hc. rewrite List.forallb_forall in H. apply H.
  apply List.in_map_iff. exists (Z.to_nat c). split; [lia|].
  apply List.in_seq. lia.
Qed.

Lemma obs2code_loop_range (tbl : list string) : forall (i : Z) (obs : string),
  let '(c, f) := obs2code_loop tbl i obs in
  c = 0 /\ f = 0 \/
  i <= c < i + Z.of_nat (length tbl) /\ f = arr_get obsfreqs c /\
  tbl !! Z.to_nat (c - i) = Some obs /\ obs <> EmptyString.
Proof.
  induction tbl as [|s tbl IH]; intros i obs; cbn [obs2code_loop]; [by left|].
  destruct (String.eqb_spec s EmptyString) as [->|Hs]; [by left|].
  destruct (String.eqb_spec s obs) as [->|Hso].
  - right. rewrite Z.sub_diag. cbn [length]. repeat split; try done; lia.
  - specialize (IH (i + 1) obs). destruct (obs2code_loop tbl (i + 1) obs) as [c f].
    destruct IH as [?|(H1 & H2 & H3 & H4)]; [by left|right].
    cbn [length]. repeat split; try done; try lia.
    replace (Z.to_nat (c - i)) with (S (Z.to_nat (c - (i + 1)))) by lia. done.
Qed.


Section SignalIndex.
Context `{env : rtklib_h}.











End SignalIndex.



(** ** SSR code biases *)

(** C7: the bound test is [mode<=ncode].  For GPS, whose table has the 17
    entries 0..16, a bias with tracking mode 18 is skipped and one with mode
    16 (5X) is stored, but mode 17 passes the test and reads [codes_gps[17]],
    one element past the table, instead of being skipped. *)
Theorem ssr3_mode17_not_skipped :
  length codes_gps = 17%nat /\
  decode_ssr3 (rtcm_ssr3 17) SYS_GPS = None /\
  (exists r, decode_ssr3 (rtcm_ssr3 18) SYS_GPS = Some (r, 10) /\
             cbias_of r 5 = replicate 48 0) /\
  (exists r, decode_ssr3 (rtcm_ssr3 16) SYS_GPS = Some (r, 10) /\
             cbias_of r 5 = <[25%nat := 100]> (replicate 48 0)).
Proof.
  split; [reflexivity|]. split; [vm_compute; reflexivity|].
  split; eexists; (split; [vm_compute; reflexivity|vm_compute; reflexivity]).
Qed.

(** ** s/n ratio *)

Lemma bit_at_01 (b : list Z) (i : Z) : 0 <= bit_at b i <= 1.
Proof. unfold bit_at. apply land_1_range. Qed.

Lemma getbitu_loop_bound (n : nat) : forall (b : list Z) (i bits m : Z),
  0 <= m -> m + Z.of_nat n <= 32 -> 0 <= bits < 2 ^ m ->
  0 <= getbitu_loop n b i bits < 2 ^ (m + Z.of_nat n).
Proof.
  induction n as [|n IH]; intros b i bits m Hm Hmn Hb.
  - simpl. by rewrite Z.add_0_r.
  - cbn [getbitu_loop].
    replace (m + Z.of_nat (S n)) with ((m + 1) + Z.of_nat n) by lia.
    apply IH; [lia|lia|].
    pose proof (bit_at_01 b i) as B.
    rewrite Z.shiftl_mul_pow2 by lia. change (2 ^ 1) with 2.
    assert (P : 2 ^ (m + 1) = 2 * 2 ^ m) by (rewrite Z.pow_add_r by lia; lia).
    assert (L : 2 ^ (m + 1) <= 2 ^ 32) by (apply Z.pow_le_mono_r; lia).
    unfold u32. rewrite Z.mod_small by lia. lia.
Qed.

Lemma getbitu_bound (b : list Z) (pos len : Z) :
  0 <= len <= 32 -> 0 <= getbitu b pos len < 2 ^ len.
Proof.
  intros H. unfold getbitu.
  pose proof (getbitu_loop_bound (Z.to_nat len) b pos 0 0 ltac:(lia) ltac:(lia) ltac:(simpl; lia)) as G.
  rewrite Z2Nat.id, Z.add_0_l in G by lia. exact G.
Qed.





(** * Further properties of the bit-field codec *)

Lemma getbitu_loop_ext (n : nat) : forall (b1 b2 : list Z) (i bits : Z),
  (forall j, i <= j < i + Z.of_nat n -> bit_at b1 j = bit_at b2 j) ->
  getbitu_loop n b1 i bits = getbitu_loop n b2 i bits.
Proof.
  induction n as [|n IH]; intros b1 b2 i bits H; [done|].
  cbn [getbitu_loop]. rewrite (H i) by lia. apply IH. intros j Hj. apply H. lia.
Qed.

(** The value of an unsigned field lies in [0, 2^len): getbitu never returns
    more than the field can hold, whatever the buffer and the position. *)
Theorem getbitu_field_range (buff : list Z) (pos len : Z) :
  0 <= len <= 32 -> 0 <= getbitu buff pos len < 2 ^ len.
Proof. apply getbitu_bound. Qed.

Lemma getbitu_field_range_witness :
  0 <= 12 <= 32 /\ 0 <= getbitu [0xD3; 0xFF; 0x0F] 4 12 < 2 ^ 12.
Proof. split; [lia|apply (getbitu_field_range [0xD3; 0xFF; 0x0F] 4 12); lia]. Defined.

(** getbits is the two's-complement reading of the field getbitu returns:
    patterns below 2^(len-1) are kept, the others are lowered by 2^len, so the
    result lies in [-2^(len-1), 2^(len-1)). *)
Theorem getbits_twos_complement (buff : list Z) (pos len : Z) :
  1 <= len <= 32 ->
  getbits buff pos len
  = (let w := getbitu buff pos len in if w <? 2 ^ (len - 1) then w else w - 2 ^ len) /\
  - 2 ^ (len - 1) <= getbits buff pos len < 2 ^ (len - 1).
Proof.
  intros Hlen.
  pose proof (getbitu_bound buff pos len ltac:(lia)) as Hw.
  assert (P : 2 ^ len = 2 * 2 ^ (len - 1)).
  { replace len with (Z.succ (len - 1)) at 1 by lia. apply Z.pow_succ_r. lia. }
  assert (P0 : 0 < 2 ^ (len - 1)) by (apply Z.pow_pos_nonneg; lia).
  assert (L32 : 2 ^ len <= 2 ^ 32) by (apply Z.pow_le_mono_r; lia).
  assert (E : getbits buff pos len
              = let w := getbitu buff pos len in if w <? 2 ^ (len - 1) then w else w - 2 ^ len).
  { unfold getbits. cbv zeta. generalize dependent (getbitu buff pos len). intros w Hw.
    assert (Mk : u32 (Z.shiftl 1 (len - 1)) = 2 ^ (len - 1)).
    { rewrite Z.shiftl_1_l. unfold u32. apply Z.mod_small.
      split; [lia|apply Z.pow_lt_mono_r; lia]. }
    rewrite Mk, land_pow2_eqb by lia.
    assert (Tb : Z.testbit w (len - 1) = negb (w <? 2 ^ (len - 1))).
    { pose proof (testbit_split w (len - 1) ltac:(lia)) as S.
      replace (len - 1 + 1) with len in S by lia.
      rewrite (Z.mod_small w (2 ^ len)) in S by lia.
      pose proof (Z.mod_pos_bound w (2 ^ (len - 1)) P0) as M.
      destruct (Z.testbit w (len - 1)); simpl in S;
        destruct (Z.ltb_spec w (2 ^ (len - 1))); simpl; try done; lia. }
    rewrite Tb, negb_involutive.
    destruct (Z.leb_spec len 0); [lia|]. simpl.
    destruct (Z.leb_spec 32 len); simpl.
    - assert (len = 32) as -> by lia. change (32 - 1) with 31 in *.
      unfold s32, u32. rewrite Z.mod_small by lia. reflexivity.
    - destruct (Z.ltb_spec w (2 ^ (len - 1))).
      + unfold s32, u32. rewrite Z.mod_small by lia.
        assert (2 ^ (len - 1) <= 2 ^ 31) by (apply Z.pow_le_mono_r; lia).
        destruct (Z.ltb_spec w (2 ^ 31)); [done|lia].
      + rewrite ones_shiftl_u32 by lia.
        rewrite <- Z.add_nocarry_lor by (apply land_low_high; lia).
        unfold s32, u32. rewrite Z.mod_small by lia.
        assert (2 ^ len <= 2 ^ 31) by (apply Z.pow_le_mono_r; lia).
        change (2 ^ 32) with (2 * 2 ^ 31) in *.
        destruct (Z.ltb_spec (w + (2 * 2 ^ 31 - 2 ^ len)) (2 ^ 31)); lia. }
  split; [exact E|]. rewrite E. cbv zeta.
  destruct (Z.ltb_spec (getbitu buff pos len) (2 ^ (len - 1))); lia.
Qed.

Lemma getbits_twos_complement_witness :
  1 <= 12 <= 32 /\ getbits [0xD3; 0xFF; 0x0F] 0 12 = 0xD3F - 2 ^ 12.
Proof.
  split; [lia|].
  destruct (getbits_twos_complement [0xD3; 0xFF; 0x0F] 0 12 ltac:(lia)) as [E _].
  rewrite E. reflexivity.
Defined.

(** Two adjacent fields read as one: the field of [m+n] bits at [pos] is the
    field of [m] bits at [pos] followed by the field of [n] bits at [pos+m]. *)
Theorem getbitu_concat (buff : list Z) (pos m n : Z) :
  0 <= m -> 0 <= n -> m + n <= 32 ->
  getbitu buff pos (m + n) = getbitu buff pos m * 2 ^ n + getbitu buff (pos + m) n.
Proof.
  intros Hm Hn Hmn.
  pose proof (getbitu_bound buff pos (m + n) ltac:(lia)) as B.
  pose proof (getbitu_bound buff pos m ltac:(lia)) as Bm.
  pose proof (getbitu_bound buff (pos + m) n ltac:(lia)) as Bn.
  unfold getbitu in *. rewrite Z2Nat.inj_add in * by lia.
  rewrite getbitu_loop_app in *. rewrite Z2Nat.id in * by lia.
  destruct (getbitu_loop_shift (Z.to_nat n) buff (pos + m)
              (getbitu_loop (Z.to_nat m) buff pos 0)) as [k E].
  rewrite Z2Nat.id in E by lia.
  generalize dependent (getbitu_loop (Z.to_nat n) buff (pos + m)
                          (getbitu_loop (Z.to_nat m) buff pos 0)).
  generalize dependent (getbitu_loop (Z.to_nat n) buff (pos + m) 0).
  generalize dependent (getbitu_loop (Z.to_nat m) buff pos 0).
  intros gm Bm gn Bn g B E. subst g.
  assert (P : 2 ^ (m + n) = 2 ^ m * 2 ^ n) by (apply Z.pow_add_r; lia).
  assert (L : 2 ^ (m + n) <= 2 ^ 32) by (apply Z.pow_le_mono_r; lia).
  assert (0 < 2 ^ n) by (apply Z.pow_pos_nonneg; lia).
  assert (0 <= gm * 2 ^ n) by nia.
  assert (gm * 2 ^ n + gn < 2 ^ m * 2 ^ n) by nia.
  assert (k = 0) by nia. subst k. lia.
Qed.

Lemma getbitu_concat_witness :
  getbitu [0xD3; 0x00; 0x13] 14 (2 + 8)
  = getbitu [0xD3; 0x00; 0x13] 14 2 * 2 ^ 8 + getbitu [0xD3; 0x00; 0x13] (14 + 2) 8.
Proof. apply (getbitu_concat [0xD3; 0x00; 0x13] 14 2 8); lia. Defined.

(** setbitu keeps the length of the buffer and touches only its own field:
    every bit outside [pos, pos+len) is unchanged, so any field that does not
    overlap the written one is read back as before. *)
Theorem setbitu_leaves_other_fields (buff : list Z) (pos len data : Z) :
  0 <= pos -> 1 <= len <= 32 -> pos + len <= 8 * Z.of_nat (length buff) ->
  length (setbitu buff pos len data) = length buff /\
  (forall j, 0 <= j -> j < pos \/ pos + len <= j ->
     bit_at (setbitu buff pos len data) j = bit_at buff j) /\
  (forall p l, 0 <= p -> p + l <= pos \/ pos + len <= p ->
     getbitu (setbitu buff pos len data) p l = getbitu buff p l).
Proof.
  intros Hpos Hlen Hfit.
  assert (Hbit : forall j, 0 <= j -> j < pos \/ pos + len <= j ->
            bit_at (setbitu buff pos len data) j = bit_at buff j).
  { intros j Hj Ho. unfold setbitu.
    destruct (Z.leb_spec len 0); [lia|]. destruct (Z.ltb_spec 32 len); [lia|]. simpl.
    rewrite bit_at_setbitu_loop; rewrite ?Z2Nat.id; try lia.
    - destruct (Z.leb_spec pos j), (Z.ltb_spec j (pos + len)); simpl; try done; lia.
    - intros _. rewrite Z.shiftl_1_l. unfold u32. apply Z.mod_small.
      split; [apply Z.pow_nonneg; lia|apply Z.pow_lt_mono_r; lia]. }
  split; [|split; [exact Hbit|]].
  - unfold setbitu. destruct ((len <=? 0) || (32 <? len)); [done|].
    generalize (u32 (Z.shiftl 1 (len - 1))). generalize pos. generalize buff.
    induction (Z.to_nat len) as [|n IH]; intros b i mk; [done|].
    cbn [setbitu_loop]. rewrite IH. apply length_setbit.
  - intros p l Hp Ho. unfold getbitu. apply getbitu_loop_ext.
    intros j Hj. apply Hbit; [lia|].
    destruct (Z.leb_spec l 0); [lia|].
    rewrite Z2Nat.id in Hj by lia. lia.
Qed.

Lemma setbitu_leaves_other_fields_witness :
  getbitu (setbitu [0xD3; 0x00; 0x13; 0x3E; 0xD0] 24 12 1005) 36 4
  = getbitu [0xD3; 0x00; 0x13; 0x3E; 0xD0] 36 4.
Proof.
  destruct (setbitu_leaves_other_fields [0xD3; 0x00; 0x13; 0x3E; 0xD0] 24 12 1005
              ltac:(lia) ltac:(lia) ltac:(simpl; lia)) as (_ & _ & H).
  apply H; lia.
Defined.

(** The 38-bit coordinate field of the station messages is read as a signed
    two's-complement number: with [u] the 38 bits taken as an unsigned value,
    getbits_38 returns [u] below 2^37 and [u - 2^38] from there on. *)
Theorem getbits_38_twos_complement (buff : list Z) (pos : Z) :
  let u := getbitu buff pos 32 * 2 ^ 6 + getbitu buff (pos + 32) 6 in
  getbits_38 buff pos = (if u <? 2 ^ 37 then u else u - 2 ^ 38) /\
  - 2 ^ 37 <= getbits_38 buff pos < 2 ^ 37.
Proof.
  cbv zeta. unfold getbits_38.
  destruct (getbits_twos_complement buff pos 32 ltac:(lia)) as [E _]. rewrite E. cbv zeta.
  pose proof (getbitu_bound buff pos 32 ltac:(lia)) as Bh.
  pose proof (getbitu_bound buff (pos + 32) 6 ltac:(lia)) as Bl.
  generalize dependent (getbitu buff (pos + 32) 6).
  generalize dependent (getbitu buff pos 32). intros h _ Bh l Bl.
  change (32 - 1) with 31.
  change (2 ^ 6) with 64 in *. change (2 ^ 31) with 2147483648 in *.
  change (2 ^ 32) with 4294967296 in *. change (2 ^ 37) with 137438953472 in *.
  change (2 ^ 38) with 274877906944 in *.
  destruct (Z.ltb_spec h 2147483648), (Z.ltb_spec (h * 64 + l) 137438953472); lia.
Qed.

(** A field inside one byte, and the fields of whole bytes. *)
Lemma getbitu_in_byte (b : list Z) (k o n : Z) :
  0 <= k -> 0 <= o -> 0 <= n -> o + n <= 8 ->
  getbitu b (8 * k + o) n = (arr_get b k / 2 ^ (8 - o - n)) mod 2 ^ n.
Proof.
  intros Hk Ho Hn Hon. unfold getbitu.
  rewrite (getbitu_loop_spec _ _ _ _ (arr_get b k / 2 ^ (8 - o - n))); try lia.
  - rewrite Z2Nat.id by lia. rewrite Z.mul_0_l, Z.add_0_l. unfold u32.
    apply Z.mod_small.
    pose proof (Z.mod_pos_bound (arr_get b k / 2 ^ (8 - o - n)) (2 ^ n)
                  ltac:(apply Z.pow_pos_nonneg; lia)).
    assert (2 ^ n <= 2 ^ 32) by (apply Z.pow_le_mono_r; lia). lia.
  - intros j Hj. rewrite Z2Nat.id in * by lia.
    rewrite bit_at_testbit by lia.
    replace (8 * k + o + j) with ((o + j) + k * 8) by lia.
    rewrite Z.div_add, Z.mod_add by lia.
    rewrite Z.div_small, Z.mod_small by lia. rewrite Z.add_0_l.
    rewrite Z.div_pow2_bits by lia. unfold byte_at. do 2 f_equal. lia.
Qed.

Lemma getbitu_byte (b : list Z) (k : Z) :
  0 <= k -> 0 <= arr_get b k < 256 -> getbitu b (8 * k) 8 = arr_get b k.
Proof.
  intros Hk Hb. pose proof (getbitu_in_byte b k 0 8 Hk ltac:(lia) ltac:(lia) ltac:(lia)) as H.
  rewrite Z.add_0_r in H. rewrite H. change (2 ^ (8 - 0 - 8)) with 1.
  rewrite Z.div_1_r. apply Z.mod_small. lia.
Qed.

Lemma getbitu_3bytes (b : list Z) (k : Z) :
  0 <= k -> 0 <= arr_get b k < 256 -> 0 <= arr_get b (k + 1) < 256 ->
  0 <= arr_get b (k + 2) < 256 ->
  getbitu b (8 * k) 24 = arr_get b k * 65536 + arr_get b (k + 1) * 256 + arr_get b (k + 2).
Proof.
  intros Hk B0 B1 B2.
  change 24 with (8 + 16). rewrite getbitu_concat by lia.
  change 16 with (8 + 8) at 2. rewrite getbitu_concat by lia.
  rewrite getbitu_byte by lia.
  replace (8 * k + 8) with (8 * (k + 1)) by lia. rewrite getbitu_byte by lia.
  replace (8 * (k + 1) + 8) with (8 * (k + 2)) by lia. rewrite getbitu_byte by lia.
  change (2 ^ 16) with 65536. change (2 ^ 8) with 256. lia.
Qed.

(** * CRC-24Q *)

Lemma land_lxor_distr (a b c : Z) :
  Z.land (Z.lxor a b) c = Z.lxor (Z.land a c) (Z.land b c).
Proof.
  apply Z.bits_inj'. intros k Hk.
  rewrite Z.land_spec, !Z.lxor_spec, !Z.land_spec.
  by destruct (Z.testbit a k), (Z.testbit b k), (Z.testbit c k).
Qed.

Lemma lxor_bound (a b n : Z) :
  0 <= n -> 0 <= a < 2 ^ n -> 0 <= b < 2 ^ n -> 0 <= Z.lxor a b < 2 ^ n.
Proof.
  intros Hn Ha Hb. split; [apply Z.lxor_nonneg; lia|].
  assert (E : Z.lxor a b = Z.lxor a b mod 2 ^ n).
  { rewrite <- Z.land_ones by lia. rewrite land_lxor_distr.
    rewrite !Z.land_ones by lia. by rewrite !Z.mod_small by lia. }
  rewrite E. apply Z.mod_pos_bound. apply Z.pow_pos_nonneg; lia.
Qed.

Lemma lxor_swap4 (a b c d : Z) :
  Z.lxor (Z.lxor a b) (Z.lxor c d) = Z.lxor (Z.lxor a c) (Z.lxor b d).
Proof.
  rewrite !Z.lxor_assoc. f_equal. rewrite <- !Z.lxor_assoc. f_equal. apply Z.lxor_comm.
Qed.

Lemma lxor_cancel (d t : Z) : Z.lxor d t = d -> t = 0.
Proof.
  intros E. assert (H : Z.lxor d (Z.lxor d t) = 0) by (rewrite E; apply Z.lxor_nilpotent).
  by rewrite <- Z.lxor_assoc, Z.lxor_nilpotent, Z.lxor_0_l in H.
Qed.

Lemma forallb_lookup (P : Z -> bool) (l : list Z) (i : nat) (x : Z) :
  forallb P l = true -> l !! i = Some x -> P x = true.
Proof.
  intros F E. rewrite List.forallb_forall in F. apply F.
  apply list_elem_of_In. by eapply list_elem_of_lookup_2.
Qed.

Lemma tbl_CRC24Q_range (i : Z) : 0 <= arr_get tbl_CRC24Q i < 2 ^ 24.
Proof.
  unfold arr_get. destruct (i <? 0); [simpl; lia|].
  destruct (tbl_CRC24Q !! Z.to_nat i) as [x|] eqn:E; simpl; [|lia].
  assert (F : forallb (fun x => (0 <=? x) && (x <? 2 ^ 24)) tbl_CRC24Q = true)
    by (vm_compute; reflexivity).
  pose proof (forallb_lookup _ _ _ _ F E) as H. simpl in H. lia.
Qed.

Lemma crc24q_byte_range (c x : Z) : 0 <= crc24q_byte c x < 2 ^ 24.
Proof.
  unfold crc24q_byte. apply lxor_bound; [lia| |apply tbl_CRC24Q_range].
  change 0xFFFFFF with (Z.ones 24). rewrite Z.land_ones by lia.
  apply Z.mod_pos_bound. lia.
Qed.

Lemma crc24q_step_byte (b : list Z) (i c : Z) :
  crc24q_step b i c = crc24q_byte c (byte_at b i).
Proof. reflexivity. Qed.

(** The checksum fits in 24 bits for every buffer and every length. *)
Theorem rtk_crc24q_range (buff : list Z) (len : Z) : 0 <= rtk_crc24q buff len < 2 ^ 24.
Proof.
  unfold rtk_crc24q.
  apply (for_range_ind (fun _ c => 0 <= c < 2 ^ 24) (crc24q_step buff) (Z.to_nat len) 0 0).
  - lia.
  - intros j t _ _. rewrite crc24q_step_byte. apply crc24q_byte_range.
Qed.

(** The table of rtk_crc24q is the table of the generator POLYCRC24Q: entry
    [i] is the remainder byte [i] leaves after eight shifts. *)
Theorem tbl_CRC24Q_polynomial (i : Z) :
  0 <= i < 256 -> arr_get tbl_CRC24Q i = crc24q_entry i.
Proof.
  intros Hi.
  pose proof (Z_range_forall (fun i => arr_get tbl_CRC24Q i =? crc24q_entry i) 0 256
                ltac:(vm_compute; reflexivity) i ltac:(lia)) as H.
  simpl in H. lia.
Qed.

Lemma tbl_CRC24Q_polynomial_witness :
  0 <= 1 < 256 /\ arr_get tbl_CRC24Q 1 = crc24q_entry 1.
Proof. split; [lia|apply (tbl_CRC24Q_polynomial 1); lia]. Defined.

(** *** The checksum as a fold over the bytes *)

Lemma crc24q_fold (n : nat) : forall (b : list Z) (i : nat) (c : Z),
  (i + n <= length b)%nat ->
  for_range n (Z.of_nat i) (crc24q_step b) c
  = fold_left crc24q_byte (take n (drop i b)) c.
Proof.
  induction n as [|n IH]; intros b i c Hl; [done|].
  cbn [for_range].
  destruct (lookup_lt_is_Some_2 b i ltac:(lia)) as [x Hx].
  rewrite (drop_S _ _ _ Hx). cbn [take fold_left].
  replace (Z.of_nat i + 1) with (Z.of_nat (S i)) by lia.
  rewrite IH by lia. f_equal.
  rewrite crc24q_step_byte. unfold byte_at. rewrite arr_get_nonneg by lia.
  by rewrite Nat2Z.id, Hx.
Qed.

Lemma rtk_crc24q_fold (b : list Z) (n : nat) :
  (n <= length b)%nat ->
  rtk_crc24q b (Z.of_nat n) = fold_left crc24q_byte (take n b) 0.
Proof.
  intros H. unfold rtk_crc24q. rewrite Nat2Z.id.
  apply (crc24q_fold n b 0 0). lia.
Qed.

Lemma fold_crc24q_range (l : list Z) : forall c,
  0 <= c < 2 ^ 24 -> 0 <= fold_left crc24q_byte l c < 2 ^ 24.
Proof.
  induction l as [|x l IH]; intros c Hc; [done|]. simpl. apply IH, crc24q_byte_range.
Qed.

(** *** Linearity over exclusive or *)

Lemma tbl_CRC24Q_lxor (i j : Z) :
  0 <= i < 256 -> 0 <= j < 256 ->
  arr_get tbl_CRC24Q (Z.lxor i j)
  = Z.lxor (arr_get tbl_CRC24Q i) (arr_get tbl_CRC24Q j).
Proof.
  intros Hi Hj.
  pose proof (Z_range_forall
    (fun i => forallb (fun j => arr_get tbl_CRC24Q (Z.lxor i j)
                                =? Z.lxor (arr_get tbl_CRC24Q i) (arr_get tbl_CRC24Q j))
                      (map Z.of_nat (seq 0 256))) 0 256
    ltac:(vm_compute; reflexivity) i ltac:(lia)) as H.
  cbv beta in H.
  pose proof (Z_range_forall _ 0 256 H j ltac:(lia)) as H2.
  cbv beta in H2. lia.
Qed.

Lemma shiftr16_range (c : Z) : 0 <= c < 2 ^ 24 -> 0 <= Z.shiftr c 16 < 256.
Proof.
  intros H. rewrite Z.shiftr_div_pow2 by lia. split.
  - apply Z.div_pos; lia.
  - apply Z.div_lt_upper_bound; lia.
Qed.

Lemma crc24q_byte_lxor (c1 c2 x1 x2 : Z) :
  0 <= c1 < 2 ^ 24 -> 0 <= c2 < 2 ^ 24 -> 0 <= x1 < 256 -> 0 <= x2 < 256 ->
  crc24q_byte (Z.lxor c1 c2) (Z.lxor x1 x2)
  = Z.lxor (crc24q_byte c1 x1) (crc24q_byte c2 x2).
Proof.
  intros H1 H2 X1 X2. unfold crc24q_byte.
  rewrite Z.shiftr_lxor, (lxor_swap4 (Z.shiftr c1 16)).
  pose proof (shiftr16_range c1 H1). pose proof (shiftr16_range c2 H2).
  rewrite tbl_CRC24Q_lxor by (apply (lxor_bound _ _ 8); lia).
  rewrite Z.shiftl_lxor. unfold u32. rewrite <- !(Z.land_ones _ 32) by lia.
  rewrite !land_lxor_distr. apply lxor_swap4.
Qed.

Lemma crc24q_byte_0 (x : Z) : crc24q_byte 0 x = arr_get tbl_CRC24Q x.
Proof. unfold crc24q_byte. by rewrite Z.shiftl_0_l, Z.shiftr_0_l, !Z.lxor_0_l. Qed.

Lemma tbl_CRC24Q_nonzero (i : Z) : 0 < i < 256 -> arr_get tbl_CRC24Q i <> 0.
Proof.
  intros Hi.
  pose proof (Z_range_forall (fun i => negb (arr_get tbl_CRC24Q i =? 0)) 1 255
                ltac:(vm_compute; reflexivity) i ltac:(lia)) as H.
  simpl in H. destruct (Z.eqb_spec (arr_get tbl_CRC24Q i) 0); [done|lia].
Qed.

Lemma tbl_CRC24Q_low_byte (h : Z) :
  0 <= h < 256 -> arr_get tbl_CRC24Q h mod 256 = 0 -> h = 0.
Proof.
  intros Hh E.
  pose proof (Z_range_forall
                (fun h => negb (arr_get tbl_CRC24Q h mod 256 =? 0) || (h =? 0)) 0 256
                ltac:(vm_compute; reflexivity) h ltac:(lia)) as H.
  simpl in H. rewrite E in H. simpl in H. lia.
Qed.

Lemma crc24q_byte_small (c x : Z) :
  0 <= c < 2 ^ 24 ->
  crc24q_byte c x
  = Z.lxor ((c mod 2 ^ 16) * 256) (arr_get tbl_CRC24Q (Z.lxor (c / 2 ^ 16) x)).
Proof.
  intros Hc. unfold crc24q_byte. rewrite Z.shiftr_div_pow2 by lia. f_equal.
  rewrite Z.shiftl_mul_pow2 by lia. unfold u32. rewrite (Z.mod_small (c * 2 ^ 8)) by lia.
  change 0xFFFFFF with (Z.ones 24). rewrite Z.land_ones by lia.
  change (2 ^ 24) with (2 ^ 16 * 2 ^ 8). rewrite Z.mul_mod_distr_r by lia. reflexivity.
Qed.

(** A register that is not zero stays so when a zero byte is taken in. *)
Lemma crc24q_byte_zero_nz (t : Z) :
  0 <= t < 2 ^ 24 -> t <> 0 -> crc24q_byte t 0 <> 0.
Proof.
  intros Ht Hnz E. rewrite crc24q_byte_small, Z.lxor_0_r in E by done.
  apply Z.lxor_eq in E.
  assert (Hh : 0 <= t / 2 ^ 16 < 256).
  { split; [apply Z.div_pos; lia|apply Z.div_lt_upper_bound; lia]. }
  assert (h0 : t / 2 ^ 16 = 0).
  { apply tbl_CRC24Q_low_byte; [done|]. rewrite <- E. apply Z.mod_mul. lia. }
  rewrite h0 in E. change (arr_get tbl_CRC24Q 0) with 0 in E.
  pose proof (Z.div_mod t (2 ^ 16) ltac:(lia)). lia.
Qed.

Lemma fold_crc24q_diff (l : list Z) : forall d t,
  bytes l -> 0 <= d < 2 ^ 24 -> 0 <= t < 2 ^ 24 -> t <> 0 ->
  fold_left crc24q_byte l (Z.lxor d t) <> fold_left crc24q_byte l d.
Proof.
  induction l as [|x l IH]; intros d t Hl Hd Ht Hnz.
  - simpl. intros E. by apply lxor_cancel in E.
  - inversion Hl as [|? ? Hx Hl']; subst. cbn [fold_left].
    rewrite <- (Z.lxor_0_r x) at 1. rewrite crc24q_byte_lxor by lia.
    apply IH; [done|apply crc24q_byte_range|apply crc24q_byte_range|].
    by apply crc24q_byte_zero_nz.
Qed.

(** *** A single inverted bit *)

Lemma testbit_byte_high (x k : Z) : 0 <= x < 256 -> 8 <= k -> Z.testbit x k = false.
Proof.
  intros Hx Hk. destruct (Z.eq_dec x 0) as [->|]; [apply Z.bits_0|].
  apply Z.bits_above_log2; [lia|]. apply Z.lt_le_trans with 8; [|lia].
  apply Z.log2_lt_pow2; lia.
Qed.

Lemma flip_byte (x p : Z) :
  0 <= x < 256 -> 0 <= p < 8 ->
  u8 (if Z.testbit x p then Z.land x (u32 (Z.lnot (u32 (Z.shiftl 1 p))))
      else Z.lor x (u32 (Z.shiftl 1 p)))
  = Z.lxor x (2 ^ p).
Proof.
  intros Hx Hp. apply Z.bits_inj'. intros k Hk.
  assert (P : 0 <= 2 ^ p < 256).
  { split; [apply Z.pow_nonneg; lia|]. change 256 with (2 ^ 8). apply Z.pow_lt_mono_r; lia. }
  destruct (Z.ltb_spec k 8).
  - pose proof (testbit_set_byte x p k (negb (Z.testbit x p)) Hp ltac:(lia)) as T.
    rewrite Z.lxor_spec, Z.pow2_bits_eqb by lia.
    destruct (Z.testbit x p) eqn:Tp; simpl in T; rewrite T;
      (destruct (Z.eqb_spec k p) as [->|];
       [rewrite Tp, Z.eqb_refl; done
       |destruct (Z.eqb_spec p k); [lia|by rewrite xorb_false_r]]).
  - unfold u8. rewrite Z.mod_pow2_bits_high by lia.
    rewrite Z.lxor_spec, (testbit_byte_high x), (testbit_byte_high (2 ^ p)) by lia. done.
Qed.

Lemma flip_bit_insert (b : list Z) (p x : Z) :
  0 <= p -> b !! Z.to_nat (p / 8) = Some x -> 0 <= x < 256 ->
  flip_bit b p = <[Z.to_nat (p / 8) := Z.lxor x (2 ^ (7 - p mod 8))]> b.
Proof.
  intros Hp Hx Bx. unfold flip_bit, setbit.
  rewrite bit_at_testbit by done.
  rewrite Z.quot_div_nonneg, Z.rem_mod_nonneg by lia.
  assert (0 <= p / 8) by (apply Z.div_pos; lia).
  rewrite arr_set_nonneg by lia.
  unfold byte_at. rewrite !arr_get_nonneg by lia. rewrite Hx. simpl. f_equal.
  pose proof (Z.mod_pos_bound p 8 ltac:(lia)).
  rewrite <- (flip_byte x (7 - p mod 8)) by lia.
  destruct (Z.testbit x (7 - p mod 8)); reflexivity.
Qed.

(** Every single-bit error in the bytes the checksum covers changes the
    checksum: inverting one bit among the first [len] bytes never leaves
    rtk_crc24q the same. *)
Theorem crc24q_detects_bit_flip (buff : list Z) (len p : Z) :
  bytes buff -> len <= Z.of_nat (length buff) -> 0 <= p < 8 * len ->
  rtk_crc24q (flip_bit buff p) len <> rtk_crc24q buff len.
Proof.
  intros Hb Hlen Hp.
  set (k := Z.to_nat (p / 8)).
  assert (Hk : (k < Z.to_nat len)%nat).
  { unfold k. apply Z2Nat.inj_lt; [apply Z.div_pos; lia|lia|].
    apply Z.div_lt_upper_bound; lia. }
  destruct (lookup_lt_is_Some_2 buff k ltac:(lia)) as [x Hx].
  assert (Bx : 0 <= x < 256).
  { unfold bytes in Hb. rewrite Forall_lookup in Hb. exact (Hb k x Hx). }
  rewrite (flip_bit_insert buff p x) by (done || lia). fold k.
  set (m := 2 ^ (7 - p mod 8)).
  assert (Bm : 0 < m < 256).
  { unfold m. pose proof (Z.mod_pos_bound p 8 ltac:(lia)).
    split; [apply Z.pow_pos_nonneg; lia|]. change 256 with (2 ^ 8).
    apply Z.pow_lt_mono_r; lia. }
  rewrite <- (Z2Nat.id len) by lia.
  rewrite !rtk_crc24q_fold by (rewrite ?length_insert; lia).
  rewrite take_insert_lt by done.
  assert (Ht : take (Z.to_nat len) buff !! k = Some x) by (rewrite lookup_take_lt; done).
  rewrite <- (take_drop_middle _ _ _ Ht) at 2.
  rewrite insert_take_drop by (rewrite length_take; lia).
  set (l1 := take k (take (Z.to_nat len) buff)).
  set (l2 := drop (S k) (take (Z.to_nat len) buff)).
  rewrite !fold_left_app. cbn [fold_left].
  set (c := fold_left crc24q_byte l1 0).
  assert (Bc : 0 <= c < 2 ^ 24) by (apply fold_crc24q_range; lia).
  rewrite <- (Z.lxor_0_r c) at 1.
  rewrite crc24q_byte_lxor by lia. rewrite crc24q_byte_0.
  apply fold_crc24q_diff.
  - unfold l2, bytes. apply Forall_drop, Forall_take. exact Hb.
  - apply crc24q_byte_range.
  - apply tbl_CRC24Q_range.
  - apply tbl_CRC24Q_nonzero. lia.
Qed.

Lemma crc24q_detects_bit_flip_witness :
  rtk_crc24q (flip_bit [0xD3; 0x00; 0x01; 0x55] 29) 4 <> rtk_crc24q [0xD3; 0x00; 0x01; 0x55] 4.
Proof.
  apply (crc24q_detects_bit_flip [0xD3; 0x00; 0x01; 0x55] 4 29).
  - unfold bytes. repeat (apply Forall_cons_2; [lia|]). apply Forall_nil_2.
  - simpl. lia.
  - lia.
Defined.

(** *** The parity bytes *)

Lemma crc24q_byte_shift (d : Z) : 0 <= d < 2 ^ 16 -> crc24q_byte d 0 = d * 256.
Proof.
  intros Hd. rewrite crc24q_byte_small by lia.
  rewrite Z.div_small, Z.mod_small by lia.
  change (arr_get tbl_CRC24Q (Z.lxor 0 0)) with 0. apply Z.lxor_0_r.
Qed.

Lemma crc24q_byte_zero_lxor (d e : Z) :
  0 <= d < 2 ^ 24 -> 0 <= e < 2 ^ 24 ->
  crc24q_byte (Z.lxor d e) 0 = Z.lxor (crc24q_byte d 0) (crc24q_byte e 0).
Proof.
  intros Hd He. rewrite <- crc24q_byte_lxor by lia. by rewrite Z.lxor_0_r.
Qed.

Lemma crc24q_byte_zero_eq0 (d : Z) : 0 <= d < 2 ^ 24 -> crc24q_byte d 0 = 0 -> d = 0.
Proof.
  intros Hd E. destruct (Z.eq_dec d 0) as [|N]; [done|].
  by destruct (crc24q_byte_zero_nz d Hd N).
Qed.

Lemma land_shifted_low (x y n : Z) : 0 <= n -> 0 <= y < 2 ^ n -> Z.land (x * 2 ^ n) y = 0.
Proof.
  intros Hn Hy. apply Z.bits_inj'. intros k Hk.
  rewrite Z.land_spec, Z.bits_0. destruct (Z.ltb_spec k n).
  - by rewrite Z.mul_pow2_bits_low by lia.
  - destruct (Z.eq_dec y 0) as [->|]; [by rewrite Z.bits_0, andb_false_r|].
    rewrite (Z.bits_above_log2 y k), andb_false_r; [done|lia|].
    apply Z.lt_le_trans with n; [|lia]. apply Z.log2_lt_pow2; lia.
Qed.

Lemma lxor_shifted_low (x y n : Z) :
  0 <= n -> 0 <= y < 2 ^ n -> Z.lxor (x * 2 ^ n) y = x * 2 ^ n + y.
Proof.
  intros Hn Hy. symmetry. apply Z.add_nocarry_lxor. by apply land_shifted_low.
Qed.

Lemma crc24q_byte_as_zero (c x : Z) :
  0 <= c < 2 ^ 24 -> 0 <= x < 256 ->
  crc24q_byte c x = crc24q_byte (Z.lxor c (x * 2 ^ 16)) 0.
Proof.
  intros Hc Hx.
  assert (Hs : 0 <= x * 2 ^ 16 < 2 ^ 24) by lia.
  pose proof (lxor_bound c (x * 2 ^ 16) 24 ltac:(lia) Hc Hs) as Hl.
  rewrite !crc24q_byte_small by lia. rewrite Z.lxor_0_r. f_equal.
  - f_equal. rewrite <- !(Z.land_ones _ 16) by lia. rewrite land_lxor_distr.
    rewrite (Z.land_ones (x * 2 ^ 16)) by lia. rewrite Z.mod_mul by lia.
    by rewrite Z.lxor_0_r.
  - f_equal. rewrite <- !Z.shiftr_div_pow2 by lia. rewrite Z.shiftr_lxor. f_equal.
    rewrite Z.shiftr_div_pow2 by lia. symmetry. apply Z.div_mul. lia.
Qed.

(** Three bytes after a register [c]: what is left is three zero-byte steps
    of [c] xor the three bytes taken as one 24-bit number. *)
Lemma crc24q_three_bytes (c t2 t1 t0 : Z) :
  0 <= c < 2 ^ 24 -> 0 <= t2 < 256 -> 0 <= t1 < 256 -> 0 <= t0 < 256 ->
  crc24q_byte (crc24q_byte (crc24q_byte c t2) t1) t0
  = crc24q_byte (crc24q_byte (crc24q_byte
      (Z.lxor c (t2 * 65536 + t1 * 256 + t0)) 0) 0) 0.
Proof.
  intros Hc H2 H1 H0.
  assert (E : t2 * 65536 + t1 * 256 + t0
              = Z.lxor (Z.lxor (t2 * 2 ^ 16) (t1 * 2 ^ 8)) t0).
  { rewrite (lxor_shifted_low t2 (t1 * 2 ^ 8) 16) by lia.
    replace (t2 * 2 ^ 16 + t1 * 2 ^ 8) with ((t2 * 2 ^ 8 + t1) * 2 ^ 8) by lia.
    rewrite lxor_shifted_low by lia. lia. }
  rewrite E, <- !Z.lxor_assoc.
  set (c1 := crc24q_byte c t2). set (c2 := crc24q_byte c1 t1).
  pose proof (crc24q_byte_range c t2) as R1. fold c1 in R1.
  pose proof (crc24q_byte_range c1 t1) as R2. fold c2 in R2.
  set (e2 := Z.lxor c (t2 * 2 ^ 16)).
  assert (B2 : 0 <= e2 < 2 ^ 24) by (apply lxor_bound; lia).
  set (e1 := Z.lxor e2 (t1 * 2 ^ 8)).
  assert (B1 : 0 <= e1 < 2 ^ 24) by (apply lxor_bound; lia).
  assert (Z2 : crc24q_byte e2 0 = c1) by (symmetry; apply crc24q_byte_as_zero; lia).
  assert (Z1 : crc24q_byte e1 0 = Z.lxor c1 (t1 * 2 ^ 16)).
  { unfold e1. rewrite crc24q_byte_zero_lxor, (crc24q_byte_shift (t1 * 2 ^ 8)), Z2 by lia.
    f_equal. lia. }
  set (f1 := Z.lxor c1 (t1 * 2 ^ 16)) in *.
  assert (F1 : 0 <= f1 < 2 ^ 24) by (apply lxor_bound; lia).
  assert (Zf : crc24q_byte f1 0 = c2) by (symmetry; apply crc24q_byte_as_zero; lia).
  rewrite (crc24q_byte_zero_lxor e1 t0), (crc24q_byte_shift t0), Z1 by lia.
  rewrite (crc24q_byte_zero_lxor f1 (t0 * 256)), (crc24q_byte_shift (t0 * 256)), Zf by lia.
  replace (t0 * 256 * 256) with (t0 * 2 ^ 16) by lia.
  apply crc24q_byte_as_zero; lia.
Qed.

(** The parity test of input_rtcm3 in its other form: the checksum of the
    first [len] bytes equals the 24 bits that follow them exactly when the
    checksum taken over those three bytes as well is zero. *)
Theorem crc24q_parity_zero (buff : list Z) (len : Z) :
  bytes buff -> 0 <= len -> len + 3 <= Z.of_nat (length buff) ->
  rtk_crc24q buff len = getbitu buff (len * 8) 24 <-> rtk_crc24q buff (len + 3) = 0.
Proof.
  intros Hb Hlen Hfit.
  set (n := Z.to_nat len).
  destruct (lookup_lt_is_Some_2 buff n ltac:(lia)) as [t2 H2].
  destruct (lookup_lt_is_Some_2 buff (S n) ltac:(lia)) as [t1 H1].
  destruct (lookup_lt_is_Some_2 buff (S (S n)) ltac:(lia)) as [t0 H0].
  unfold bytes in Hb. rewrite Forall_lookup in Hb.
  pose proof (Hb _ _ H2) as B2. pose proof (Hb _ _ H1) as B1. pose proof (Hb _ _ H0) as B0.
  cbv beta in B2, B1, B0.
  assert (G2 : arr_get buff len = t2)
    by (rewrite arr_get_nonneg by lia; fold n; by rewrite H2).
  assert (G1 : arr_get buff (len + 1) = t1).
  { rewrite arr_get_nonneg by lia.
    replace (Z.to_nat (len + 1)) with (S n) by lia. by rewrite H1. }
  assert (G0 : arr_get buff (len + 2) = t0).
  { rewrite arr_get_nonneg by lia.
    replace (Z.to_nat (len + 2)) with (S (S n)) by lia. by rewrite H0. }
  rewrite (Z.mul_comm len 8), getbitu_3bytes by lia. rewrite G2, G1, G0.
  replace (len + 3) with (Z.of_nat (S (S (S n)))) by lia.
  replace len with (Z.of_nat n) at 1 by lia.
  rewrite !rtk_crc24q_fold by lia.
  rewrite (take_S_r _ _ _ H0), (take_S_r _ _ _ H1), (take_S_r _ _ _ H2).
  rewrite !fold_left_app. cbn [fold_left].
  set (c := fold_left crc24q_byte (take n buff) 0).
  assert (Bc : 0 <= c < 2 ^ 24) by (apply fold_crc24q_range; lia).
  rewrite crc24q_three_bytes by lia.
  set (T := t2 * 65536 + t1 * 256 + t0).
  assert (BT : 0 <= T < 2 ^ 24) by (unfold T; lia).
  pose proof (lxor_bound c T 24 ltac:(lia) Bc BT) as Bx.
  split.
  - intros ->. rewrite Z.lxor_nilpotent. reflexivity.
  - intros E. apply Z.lxor_eq.
    do 3 (apply crc24q_byte_zero_eq0 in E; [|repeat apply crc24q_byte_range || lia]).
    exact E.
Qed.

Lemma crc24q_parity_zero_witness :
  rtk_crc24q [0xD3; 0x00; 0x00; 0x47; 0xEA; 0x4B] 3
  = getbitu [0xD3; 0x00; 0x00; 0x47; 0xEA; 0x4B] (3 * 8) 24
  <-> rtk_crc24q [0xD3; 0x00; 0x00; 0x47; 0xEA; 0x4B] (3 + 3) = 0.
Proof.
  apply (crc24q_parity_zero [0xD3; 0x00; 0x00; 0x47; 0xEA; 0x4B] 3).
  - unfold bytes. repeat (apply Forall_cons_2; [lia|]). apply Forall_nil_2.
  - lia.
  - simpl. lia.
Defined.

(** * The framer (input_rtcm3, input_rtcm3f) *)

Ltac rsimpl :=
  cbn [staid rtime obs nav_eph sta ssr opt obsflag ephsat nbyte len buff
       set_nbyte set_len set_buff fst snd orb negb].

Section Framer.
Context `{env : rtklib_h}.

Lemma length_field_range (b : list Z) : 3 <= getbitu b 14 10 + 3 <= 1026.
Proof. pose proof (getbitu_bound b 14 10 ltac:(lia)). change (2 ^ 10) with 1024 in *. lia. Qed.

Lemma sync_rtcm3_framer_ok (r : rtcm_t) (data : Z) :
  framer_ok r ->
  match sync_rtcm3 r data with
  | Pending r' => framer_ok r'
  | ParityError r' => nbyte r' = 0
  | Frame r' => nbyte r' = 0
  end.
Proof.
  intros [H0 H]. unfold sync_rtcm3, push_byte.
  destruct (Z.eqb_spec (nbyte r) 0) as [E|NE].
  - destruct (data =? RTCM3PREAMB); rsimpl; unfold framer_ok; rsimpl; lia.
  - rsimpl.
    destruct (Z.eqb_spec (nbyte r + 1) 3) as [E3|N3]; rsimpl.
    + pose proof (length_field_range (arr_set (buff r) (nbyte r) data)) as L.
      destruct (Z.ltb_spec (nbyte r + 1) 3); [lia|].
      destruct (Z.ltb_spec (nbyte r + 1)
                  (getbitu (arr_set (buff r) (nbyte r) data) 14 10 + 3 + 3)); [|lia].
      rsimpl. unfold framer_ok. rsimpl. lia.
    + destruct (Z.ltb_spec (nbyte r + 1) 3); rsimpl.
      * unfold framer_ok. rsimpl. lia.
      * destruct (Z.ltb_spec (nbyte r + 1) (len r + 3)).
        -- unfold framer_ok. rsimpl. lia.
        -- destruct (negb _); reflexivity.
Qed.

(** The frame buffer is never overrun: when the framer's members are
    consistent, as they are after init_rtcm, the byte is stored below index
    1029 of the 1200-byte buffer and the members are consistent again after
    the call, provided the message decoders leave the write index alone. *)
Theorem framer_buffer_bound (r : rtcm_t) (data : Z) :
  (forall r0, nbyte (fst (decode_rtcm3 r0)) = nbyte r0) ->
  framer_ok r ->
  0 <= nbyte r <= 1028 /\ framer_ok (fst (input_rtcm3 r data)).
Proof.
  intros Hdec Hok. split; [unfold framer_ok in Hok; lia|].
  pose proof (sync_rtcm3_framer_ok r data Hok) as H. unfold input_rtcm3.
  destruct (sync_rtcm3 r data) as [r'|r'|r']; cbn [fst].
  - exact H.
  - unfold framer_ok. lia.
  - unfold framer_ok. rewrite Hdec. lia.
Qed.

(** *** A frame on the wire is delivered *)

Lemma bytes_frame (msg : list Z) :
  bytes msg -> Z.of_nat (length msg) <= 1023 -> bytes (rtcm3_frame msg).
Proof.
  intros Hm Hl. unfold rtcm3_frame, frame_head, crc_bytes, bytes.
  assert (B : forall x, 0 <= Z.land x 255 < 256).
  { intros x. change 255 with (Z.ones 8). rewrite Z.land_ones by lia.
    apply Z.mod_pos_bound. lia. }
  apply Forall_app. split.
  - apply Forall_cons_2; [unfold RTCM3PREAMB; lia|].
    apply Forall_cons_2.
    { rewrite Z.shiftr_div_pow2 by lia. split; [apply Z.div_pos; lia|].
      apply Z.div_lt_upper_bound; lia. }
    apply Forall_cons_2; [apply B|exact Hm].
  - repeat (apply Forall_cons_2; [apply B|]). apply Forall_nil_2.
Qed.

Lemma length_frame (msg : list Z) : length (rtcm3_frame msg) = (length msg + 6)%nat.
Proof. unfold rtcm3_frame, frame_head, crc_bytes. rewrite !length_app. simpl. lia. Qed.

Lemma crc_bytes_value (c : Z) :
  0 <= c < 2 ^ 24 ->
  Z.land (Z.shiftr c 16) 255 * 65536 + Z.land (Z.shiftr c 8) 255 * 256 + Z.land c 255 = c.
Proof.
  intros Hc. change 255 with (Z.ones 8). rewrite !Z.land_ones by lia.
  rewrite !Z.shiftr_div_pow2 by lia.
  change (2 ^ 16) with (256 * 256). change (2 ^ 8) with 256.
  rewrite <- Z.div_div by lia.
  pose proof (Z.div_mod c 256 ltac:(lia)).
  pose proof (Z.div_mod (c / 256) 256 ltac:(lia)).
  pose proof (Z.mod_pos_bound c 256 ltac:(lia)).
  pose proof (Z.mod_pos_bound (c / 256) 256 ltac:(lia)).
  assert (0 <= c / 256 / 256 < 256).
  { split; [apply Z.div_pos; [apply Z.div_pos|]; lia|].
    apply Z.div_lt_upper_bound; [lia|]. apply Z.div_lt_upper_bound; lia. }
  rewrite (Z.mod_small (c / 256 / 256)) by lia. lia.
Qed.

Lemma frame_length_field (b : list Z) (n : Z) :
  0 <= n <= 1023 -> arr_get b 1 = Z.shiftr n 8 -> arr_get b 2 = Z.land n 255 ->
  getbitu b 14 10 = n.
Proof.
  intros Hn B1 B2. change 10 with (2 + 8). rewrite getbitu_concat by lia.
  change 14 with (8 * 1 + 6). rewrite getbitu_in_byte by lia.
  change (8 * 1 + 6 + 2) with (8 * 2 + 0). rewrite getbitu_in_byte by lia.
  rewrite B1, B2. change (2 ^ (8 - 6 - 2)) with 1. change (2 ^ (8 - 0 - 8)) with 1.
  rewrite !Z.div_1_r. change 255 with (Z.ones 8). rewrite Z.land_ones by lia.
  rewrite Z.shiftr_div_pow2 by lia. rewrite Z.mod_mod by lia.
  assert (0 <= n / 2 ^ 8 < 4).
  { split; [apply Z.div_pos; lia|apply Z.div_lt_upper_bound; lia]. }
  rewrite (Z.mod_small (n / 2 ^ 8)) by (change (2 ^ 2) with 4; lia).
  pose proof (Z.div_mod n (2 ^ 8) ltac:(lia)). lia.
Qed.

Section Delivery.
Variable r : rtcm_t.
Variable msg : list Z.
Hypothesis Hmsg : bytes msg.
Hypothesis Hlen : Z.of_nat (length msg) <= 1023.
Hypothesis Hfit : (length (rtcm3_frame msg) <= length (buff r))%nat.

Let f := rtcm3_frame msg.

Lemma nbyte_stored (k : nat) : nbyte (stored r f k) = Z.of_nat k.
Proof. unfold stored. cbv zeta. destruct (3 <=? Z.of_nat k); reflexivity. Qed.

Lemma buff_stored (k : nat) : buff (stored r f k) = take k f ++ drop k (buff r).
Proof. unfold stored. cbv zeta. destruct (3 <=? Z.of_nat k); reflexivity. Qed.

Lemma len_stored (k : nat) :
  len (stored r f k) = if 3 <=? Z.of_nat k then Z.of_nat (length f) - 3 else len r.
Proof. unfold stored. cbv zeta. destruct (3 <=? Z.of_nat k); reflexivity. Qed.

Lemma store_next (k : nat) (d : Z) :
  f !! k = Some d -> (k < length (buff r))%nat ->
  arr_set (take k f ++ drop k (buff r)) (Z.of_nat k) d
  = take (S k) f ++ drop (S k) (buff r).
Proof.
  intros Hd Hk. rewrite arr_set_nonneg by lia. rewrite Nat2Z.id.
  pose proof (lookup_lt_Some _ _ _ Hd) as Hkf.
  rewrite insert_app_r_alt by (rewrite length_take; lia).
  rewrite length_take. replace (k - k `min` length f)%nat with 0%nat by lia.
  destruct (lookup_lt_is_Some_2 (buff r) k Hk) as [x Hx].
  rewrite (drop_S _ _ _ Hx). cbn [insert list_insert].
  rewrite (take_S_r _ _ _ Hd), <- app_assoc. reflexivity.
Qed.

Lemma push_stored (k : nat) (d : Z) :
  f !! k = Some d -> (k < length (buff r))%nat ->
  push_byte (stored r f k) d
  = set_nbyte (set_buff (stored r f k) (take (S k) f ++ drop (S k) (buff r)))
              (Z.of_nat (S k)).
Proof.
  intros Hd Hk. unfold push_byte.
  rewrite nbyte_stored, buff_stored, store_next by done.
  f_equal. lia.
Qed.

Lemma stored_step (k : nat) (X : list Z) (n : Z) :
  set_nbyte (set_buff (stored r f k) X) n
  = let r1 := set_nbyte (set_buff r X) n in
    if 3 <=? Z.of_nat k then set_len r1 (Z.of_nat (length f) - 3) else r1.
Proof. unfold stored. cbv zeta. destruct (3 <=? Z.of_nat k); reflexivity. Qed.

Lemma frame_lookup_head :
  f !! 0%nat = Some RTCM3PREAMB /\
  f !! 1%nat = Some (Z.shiftr (Z.of_nat (length msg)) 8) /\
  f !! 2%nat = Some (Z.land (Z.of_nat (length msg)) 255).
Proof. by unfold f, rtcm3_frame, frame_head. Qed.

Lemma stored_length_field (k : nat) (rest : list Z) :
  (3 <= k)%nat -> getbitu (take k f ++ rest) 14 10 = Z.of_nat (length msg).
Proof.
  intros Hk. destruct frame_lookup_head as (_ & H1 & H2).
  apply frame_length_field; [lia| |]; rewrite arr_get_nonneg by lia.
  - change (Z.to_nat 1) with 1%nat.
    rewrite (lookup_app_l_Some _ _ _ (Z.shiftr (Z.of_nat (length msg)) 8)); [done|].
    by rewrite lookup_take_lt by lia.
  - change (Z.to_nat 2) with 2%nat.
    rewrite (lookup_app_l_Some _ _ _ (Z.land (Z.of_nat (length msg)) 255)); [done|].
    by rewrite lookup_take_lt by lia.
Qed.

Lemma sync_stored (k : nat) (d : Z) :
  f !! k = Some d -> (S k < length f)%nat ->
  sync_rtcm3 (stored r f k) d = Pending (stored r f (S k)).
Proof.
  intros Hd Hk. pose proof (length_frame msg) as Lf. fold f in Lf.
  assert (Hb : (k < length (buff r))%nat) by (fold f in Hfit; lia).
  unfold sync_rtcm3. rewrite (push_stored k d Hd Hb), nbyte_stored.
  destruct (Z.eqb_spec (Z.of_nat k) 0) as [E|NE].
  - assert (k = 0%nat) as -> by lia.
    destruct frame_lookup_head as (H0 & _). rewrite H0 in Hd. injection Hd as <-.
    rewrite Z.eqb_refl. cbn [negb]. reflexivity.
  - cbv zeta. rewrite stored_step. cbv zeta.
    set (X := take (S k) f ++ drop (S k) (buff r)).
    destruct (Z.leb_spec 3 (Z.of_nat k)) as [G|G].
    + rsimpl. destruct (Z.eqb_spec (Z.of_nat (S k)) 3); [lia|]. rsimpl.
      destruct (Z.ltb_spec (Z.of_nat (S k)) 3); [lia|].
      destruct (Z.ltb_spec (Z.of_nat (S k)) (Z.of_nat (length f) - 3 + 3)); [|lia].
      rsimpl. f_equal. unfold stored. cbv zeta.
      destruct (Z.leb_spec 3 (Z.of_nat (S k))); [reflexivity|lia].
    + rsimpl. destruct (Z.eqb_spec (Z.of_nat (S k)) 3) as [E3|N3]; rsimpl.
      * assert (k = 2%nat) as -> by lia.
        unfold X. rewrite stored_length_field by lia.
        destruct (Z.ltb_spec (Z.of_nat 3) 3); [lia|].
        destruct (Z.ltb_spec (Z.of_nat 3) (Z.of_nat (length msg) + 3 + 3)); [|lia].
        rsimpl. f_equal. unfold stored. cbv zeta.
        destruct (Z.leb_spec 3 (Z.of_nat 3)); [|lia].
        do 2 f_equal. lia.
      * destruct (Z.ltb_spec (Z.of_nat (S k)) 3); [|lia]. rsimpl.
        f_equal. unfold stored. cbv zeta.
        destruct (Z.leb_spec 3 (Z.of_nat (S k))); [lia|reflexivity].
Qed.

Lemma frame_crc_ok (rest : list Z) :
  rtk_crc24q (f ++ rest) (Z.of_nat (length f) - 3)
  = getbitu (f ++ rest) ((Z.of_nat (length f) - 3) * 8) 24.
Proof.
  pose proof (length_frame msg) as Lf. fold f in Lf.
  set (body := frame_head msg).
  assert (Lb : length body = (length msg + 3)%nat) by (unfold body, frame_head; simpl; lia).
  set (c := rtk_crc24q body (Z.of_nat (length body))).
  assert (Ef : f = body ++ crc_bytes c) by reflexivity.
  pose proof (rtk_crc24q_range body (Z.of_nat (length body))) as Rc. fold c in Rc.
  replace (Z.of_nat (length f) - 3) with (Z.of_nat (length body)) by lia.
  rewrite rtk_crc24q_fold by (rewrite length_app; lia).
  rewrite Ef, <- app_assoc, take_app_length.
  assert (Ec : fold_left crc24q_byte body 0 = c).
  { unfold c. rewrite rtk_crc24q_fold by lia. by rewrite firstn_all. }
  rewrite Ec.
  assert (G : forall i x, crc_bytes c !! i = Some x ->
            arr_get (body ++ crc_bytes c ++ rest) (Z.of_nat (length body) + Z.of_nat i) = x).
  { intros i x Hx. rewrite arr_get_nonneg by lia.
    replace (Z.to_nat (Z.of_nat (length body) + Z.of_nat i)) with (length body + i)%nat by lia.
    rewrite lookup_app_r by lia.
    replace (length body + i - length body)%nat with i by lia.
    by rewrite (lookup_app_l_Some _ _ _ _ Hx). }
  assert (B : forall x, 0 <= Z.land x 255 < 256).
  { intros x. change 255 with (Z.ones 8). rewrite Z.land_ones by lia.
    apply Z.mod_pos_bound. lia. }
  pose proof (G 0%nat _ eq_refl) as G0. pose proof (G 1%nat _ eq_refl) as G1.
  pose proof (G 2%nat _ eq_refl) as G2.
  rewrite Z.add_0_r in G0. change (Z.of_nat 1) with 1 in G1. change (Z.of_nat 2) with 2 in G2.
  rewrite (Z.mul_comm _ 8), getbitu_3bytes by (rewrite ?G0, ?G1, ?G2; try apply B; lia).
  rewrite G0, G1, G2. symmetry. by apply crc_bytes_value.
Qed.

Lemma sync_last (k : nat) (d : Z) :
  f !! k = Some d -> S k = length f ->
  sync_rtcm3 (stored r f k) d = Frame (framed r f).
Proof.
  intros Hd Hk. pose proof (length_frame msg) as Lf. fold f in Lf.
  assert (Hb : (k < length (buff r))%nat) by (fold f in Hfit; lia).
  unfold sync_rtcm3. rewrite (push_stored k d Hd Hb), nbyte_stored.
  destruct (Z.eqb_spec (Z.of_nat k) 0) as [E|NE]; [lia|].
  cbv zeta. rewrite stored_step. cbv zeta.
  rewrite Hk, firstn_all.
  destruct (Z.leb_spec 3 (Z.of_nat k)) as [G|G]; [|lia].
  rsimpl. destruct (Z.eqb_spec (Z.of_nat (length f)) 3); [lia|]. rsimpl.
  destruct (Z.ltb_spec (Z.of_nat (length f)) 3); [lia|].
  destruct (Z.ltb_spec (Z.of_nat (length f)) (Z.of_nat (length f) - 3 + 3)); [lia|].
  rsimpl. rewrite frame_crc_ok, Z.eqb_refl. cbn [negb]. reflexivity.
Qed.

Lemma stored_0 : nbyte r = 0 -> stored r f 0 = r.
Proof.
  clear Hmsg Hlen Hfit. intros H. unfold stored. cbv zeta.
  change (3 <=? Z.of_nat 0) with false. cbv iota.
  rewrite take_0, drop_0. cbn [app]. destruct r. cbn in H. subst. reflexivity.
Qed.

Lemma input_rtcm3f_loop_frame : forall (s : list Z) (k n : nat) (rest : list Z),
  drop k f = s -> s <> [] -> (length s <= n)%nat ->
  snd (decode_rtcm3 (framed r f)) <> 0 ->
  input_rtcm3f_loop n (stored r f k) (s ++ rest)
  = (fst (decode_rtcm3 (framed r f)), rest, snd (decode_rtcm3 (framed r f))).
Proof.
  induction s as [|d s IH]; intros k n rest Hs Hne Hn Hret; [done|].
  destruct n as [|n]; [simpl in Hn; lia|].
  assert (Hd : f !! k = Some d).
  { rewrite <- (Nat.add_0_r k), <- lookup_drop, Hs. reflexivity. }
  assert (Hs' : drop (S k) f = s).
  { pose proof (drop_S _ _ _ Hd) as E. rewrite Hs in E. by injection E. }
  assert (Bd : 0 <= d < 256).
  { pose proof (bytes_frame msg Hmsg Hlen) as Bf. fold f in Bf. unfold bytes in Bf.
    rewrite Forall_lookup in Bf. exact (Bf k d Hd). }
  cbn [app input_rtcm3f_loop]. unfold u8. rewrite Z.mod_small by (change (2 ^ 8) with 256; lia).
  unfold input_rtcm3.
  assert (Ls : length s = (length f - S k)%nat) by (rewrite <- Hs', length_drop; lia).
  pose proof (lookup_lt_Some _ _ _ Hd) as Hkf.
  destruct s as [|d' s'].
  - rewrite sync_last by (cbn [length] in Ls; done || lia).
    destruct (decode_rtcm3 (framed r f)) as [r1 ret]. cbn [fst snd] in *.
    destruct (Z.eqb_spec ret 0); [done|]. reflexivity.
  - rewrite sync_stored by (cbn [length] in Ls; done || lia).
    cbn [negb Z.eqb]. apply IH; try done. simpl in Hn |- *. lia.
Qed.

End Delivery.

Lemma input_rtcm3f_loop_junk (junk : list Z) : forall (n : nat) (r : rtcm_t) (fp : list Z),
  nbyte r = 0 -> bytes junk -> Forall (fun x => x <> RTCM3PREAMB) junk ->
  input_rtcm3f_loop (length junk + n) r (junk ++ fp) = input_rtcm3f_loop n r fp.
Proof.
  induction junk as [|d junk IH]; intros n r fp Hr Hb Hj; [done|].
  inversion Hb as [|? ? Bd Hb']; inversion Hj as [|? ? Jd Hj']; subst.
  cbn [length Nat.add app input_rtcm3f_loop].
  unfold u8. rewrite Z.mod_small by (change (2 ^ 8) with 256; lia).
  unfold input_rtcm3, sync_rtcm3. rewrite Hr. cbn [Z.eqb].
  destruct (Z.eqb_spec d RTCM3PREAMB); [done|]. cbn [negb Z.eqb].
  by apply IH.
Qed.

(** A frame laid out as the format of input_rtcm3 says, with the checksum of
    its header and message as parity, reaches the decoder: after any bytes
    that hold no preamble, input_rtcm3f stores the frame from the start of
    the buffer, hands it to decode_rtcm3 on its last byte and returns that
    status, leaving the rest of the file unread. *)
Theorem input_rtcm3f_delivers (r : rtcm_t) (junk msg rest : list Z) :
  nbyte r = 0 ->
  bytes junk -> Forall (fun x => x <> RTCM3PREAMB) junk ->
  bytes msg -> Z.of_nat (length msg) <= 1023 ->
  (length junk + length (rtcm3_frame msg) <= 4096)%nat ->
  (length (rtcm3_frame msg) <= length (buff r))%nat ->
  snd (decode_rtcm3 (framed r (rtcm3_frame msg))) <> 0 ->
  input_rtcm3f r (junk ++ rtcm3_frame msg ++ rest)
  = (fst (decode_rtcm3 (framed r (rtcm3_frame msg))), rest,
     snd (decode_rtcm3 (framed r (rtcm3_frame msg)))).
Proof.
  intros Hr Hbj Hj Hm Hl Hn Hfit Hret. unfold input_rtcm3f.
  assert (E : exists n, 4096%nat = (length junk + n)%nat /\
                        (length (rtcm3_frame msg) <= n)%nat).
  { exists (4096 - length junk)%nat. lia. }
  destruct E as (n & -> & Hle).
  rewrite input_rtcm3f_loop_junk by done.
  rewrite <- (stored_0 r msg Hr) at 1.
  apply input_rtcm3f_loop_frame; done.
Qed.

Lemma input_rtcm3f_loop_reads (n : nat) : forall (r : rtcm_t) (fp : list Z),
  exists used, fp = used ++ snd (fst (input_rtcm3f_loop n r fp)) /\
               (length used <= n)%nat /\
               (snd (input_rtcm3f_loop n r fp) = 0 -> length used = n).
Proof.
  induction n as [|n IH]; intros r fp.
  - exists []. by cbn.
  - cbn [input_rtcm3f_loop]. destruct fp as [|d fp].
    + exists []. cbn. repeat split; [lia|lia].
    + destruct (input_rtcm3 r (u8 d)) as [r1 ret].
      destruct (Z.eqb_spec ret 0) as [E|NE]; cbn [negb].
      * destruct (IH r1 fp) as (used & E1 & E2 & E3).
        exists (d :: used). cbn [app length]. repeat split; [congruence|lia|].
        intros H. rewrite E3 by done. reflexivity.
      * exists [d]. cbn. repeat split; [lia|done].
Qed.

(** What one call of input_rtcm3f reads: it takes bytes from the front of
    the file, at most 4096 of them, returns 0 only once it has read all
    4096, and on an empty file returns -2 with the control record as it was. *)
Theorem input_rtcm3f_reads (r : rtcm_t) (fp : list Z) :
  (exists used, fp = used ++ snd (fst (input_rtcm3f r fp)) /\
                (length used <= 4096)%nat /\
                (snd (input_rtcm3f r fp) = 0 -> length used = 4096%nat)) /\
  input_rtcm3f r [] = (r, [], -2).
Proof.
  split; [|reflexivity]. unfold input_rtcm3f.
  generalize 4096%nat. intros n. apply input_rtcm3f_loop_reads.
Qed.

End Framer.

Lemma framer_buffer_bound_witness :
  framer_ok (fst (input_rtcm3 (rtcm_with (replicate 1200 0) 0 "") 0xD3)).
Proof.
  apply (framer_buffer_bound (rtcm_with (replicate 1200 0) 0 "") 0xD3).
  - intros r0. reflexivity.
  - unfold framer_ok, rtcm_with. cbn [nbyte len]. lia.
Defined.

Lemma input_rtcm3f_delivers_witness :
  snd (input_rtcm3f (rtcm_with (replicate 1200 0) 0 "")
         ([0; 0x55] ++ rtcm3_frame [0x3E; 0xD0] ++ [0xD3])) = 5.
Proof.
  rewrite (input_rtcm3f_delivers (rtcm_with (replicate 1200 0) 0 "")
             [0; 0x55] [0x3E; 0xD0] [0xD3]).
  - reflexivity.
  - reflexivity.
  - unfold bytes. repeat (apply Forall_cons_2; [lia|]). apply Forall_nil_2.
  - repeat (apply Forall_cons_2; [unfold RTCM3PREAMB; lia|]). apply Forall_nil_2.
  - unfold bytes. repeat (apply Forall_cons_2; [lia|]). apply Forall_nil_2.
  - cbn [length]. lia.
  - rewrite length_frame. cbn [length]. lia.
  - rewrite length_frame. unfold rtcm_with. cbn [buff length]. rewrite length_replicate. lia.
  - change (5 <> 0). lia.
Defined.

(** * Satellite numbers and observation codes *)

Section RegistryFacts.
Context `{env : rtklib_h}.
Variable MAXSAT : Z.

Ltac split_leb :=
  repeat match goal with
         | |- context [?a <=? ?b] => destruct (Z.leb_spec a b); try lia
         | |- context [?a <? ?b] => destruct (Z.ltb_spec a b); try lia
         end.

Lemma satsys_satno (sys : sys_t) (prn : Z) :
  prn_ranges_ok MAXSAT -> satno sys prn <> 0 ->
  1 <= satno sys prn <= MAXSAT /\ satsys MAXSAT (satno sys prn) = (sys, prn).
Proof.
  unfold prn_ranges_ok, prn_block_ok.
  intros (G & R & E & J & C & L & S & M) Hnz.
  unfold satno in *. destruct (Z.leb_spec prn 0); [done|].
  destruct sys; [done|..];
    repeat match type of Hnz with
           | context [?a <? ?b] => destruct (Z.ltb_spec a b); cbn [orb] in Hnz |- *; try done
           end;
    unfold sat_base in *; (split; [lia|]);
    unfold satsys; cbv zeta; split_leb; cbn [orb]; try (f_equal; lia); lia.
Qed.

Lemma satno_satsys (sat : Z) :
  prn_ranges_ok MAXSAT -> 1 <= sat <= MAXSAT ->
  fst (satsys MAXSAT sat) <> SYS_NONE /\
  satno (fst (satsys MAXSAT sat)) (snd (satsys MAXSAT sat)) = sat.
Proof.
  unfold prn_ranges_ok, prn_block_ok.
  intros (G & R & E & J & C & L & S & M) Hs.
  unfold satsys. cbv zeta.
  destruct (Z.leb_spec sat 0); [lia|]. destruct (Z.ltb_spec MAXSAT sat); [lia|].
  cbn [orb].
  repeat match goal with
         | |- context [?a <=? ?b] =>
             destruct (Z.leb_spec a b);
             [cbn [fst snd]; split; [done|]; unfold satno, sat_base; split_leb;
              cbn [orb]; lia|]
         end.
  lia.
Qed.

(** satno and satsys are inverse to each other when the PRN ranges of
    rtklib.h fit together: a satellite number that satno hands out lies in
    1..MAXSAT and satsys gives back its system and PRN, and every number in
    1..MAXSAT is the satno of the system and PRN that satsys returns. *)
Theorem satno_satsys_inverse :
  prn_ranges_ok MAXSAT ->
  (forall sys prn, satno sys prn <> 0 ->
     1 <= satno sys prn <= MAXSAT /\ satsys MAXSAT (satno sys prn) = (sys, prn)) /\
  (forall sat, 1 <= sat <= MAXSAT ->
     fst (satsys MAXSAT sat) <> SYS_NONE /\
     satno (fst (satsys MAXSAT sat)) (snd (satsys MAXSAT sat)) = sat) /\
  (forall sat, sat <= 0 \/ MAXSAT < sat -> satsys MAXSAT sat = (SYS_NONE, 0)).
Proof.
  intros H. split; [|split].
  - intros sys prn. by apply satsys_satno.
  - intros sat. by apply satno_satsys.
  - intros sat Hs. unfold satsys.
    destruct (Z.leb_spec sat 0); [done|]. destruct (Z.ltb_spec MAXSAT sat); [done|lia].
Qed.

End RegistryFacts.

Lemma sample_prn_ranges_ok : prn_ranges_ok 164.
Proof.
  unfold prn_ranges_ok, prn_block_ok. cbn. repeat split; try (left; lia); lia.
Qed.

Lemma satno_satsys_inverse_witness :
  satsys 164 (satno SYS_GLO 5) = (SYS_GLO, 5).
Proof.
  destruct (satno_satsys_inverse 164 sample_prn_ranges_ok) as (H & _ & _).
  destruct (H SYS_GLO 5 ltac:(vm_compute; discriminate)) as [_ E]. exact E.
Defined.

Section CodeFacts.
Context `{env : rtklib_h}.

(** obs2code and code2obs are inverse to each other on the codes 1..48 that
    MAXCODE admits: the string of a code is found again at that code, with
    the same frequency (1..6), and a string that obs2code knows is the
    string code2obs returns for its code. *)
Theorem obs_code_roundtrip :
  (forall c, 1 <= c <= 48 -> c <= MAXCODE ->
     obs2code (fst (code2obs c)) = (c, snd (code2obs c)) /\
     1 <= snd (code2obs c) <= 6) /\
  (forall obs, fst (obs2code obs) <> 0 -> fst (obs2code obs) <= MAXCODE ->
     code2obs (fst (obs2code obs)) = (obs, snd (obs2code obs))).
Proof.
  split.
  - intros c Hc Hm. unfold code2obs, CODE_NONE.
    destruct (Z.leb_spec c 0); [lia|]. destruct (Z.ltb_spec MAXCODE c); [lia|].
    cbn [orb fst snd].
    pose proof (Z_range_forall
      (fun c => let '(c', f') := obs2code (str_get obscodes c) in
                (c' =? c) && (f' =? arr_get obsfreqs c) &&
                (1 <=? arr_get obsfreqs c) && (arr_get obsfreqs c <=? 6))
      1 48 ltac:(vm_compute; reflexivity) c ltac:(lia)) as R.
    cbv beta in R. destruct (obs2code (str_get obscodes c)) as [c' f'].
    split; [f_equal; lia|lia].
  - intros obs Hnz Hm. unfold obs2code, code2obs, CODE_NONE in *.
    pose proof (obs2code_loop_range (drop 1 obscodes) 1 obs) as H.
    destruct (obs2code_loop (drop 1 obscodes) 1 obs) as [c f]. cbn [fst snd] in *.
    destruct H as [[? _]|(H1 & H2 & H3 & H4)]; [done|].
    destruct (Z.leb_spec c 0); [lia|]. destruct (Z.ltb_spec MAXCODE c); [lia|].
    cbn [orb]. f_equal; [|done].
    unfold str_get. rewrite lookup_drop in H3.
    replace (1 + Z.to_nat (c - 1))%nat with (Z.to_nat c) in H3 by lia.
    by rewrite H3.
Qed.

Lemma code_option_val (lit obs : string) : forall (p : string) (v : Z),
  code_option lit obs p = Some v -> v = 15 \/ v = 0.
Proof.
  induction p as [|ch p IH]; intros v; cbn [code_option]; [done|].
  destruct (ascii_eqb ch "-"); [|apply IH].
  destruct (sscanf_2s lit (String ch p)) as [[c0 c1]|]; [|apply IH].
  destruct (ascii_eqb c0 (char_at obs 0)); [|apply IH].
  intros [= <-]. destruct (ascii_eqb c1 (char_at obs 1)); auto.
Qed.

Lemma strchr_range (s : string) : forall (c : ascii) (k : Z),
  strchr s c = Some k -> 0 <= k <= Z.of_nat (String.length s).
Proof.
  induction s as [|a s IH]; intros c k; cbn [strchr String.length].
  - destruct (ascii_eqb c Ascii.zero); [|done]. intros [= <-]. lia.
  - destruct (ascii_eqb a c); [intros [= <-]; lia|].
    destruct (strchr s c) as [k'|] eqn:E; [|done].
    intros [= <-]. specialize (IH c k' E). lia.
Qed.

Lemma codepri_row_length (i c : Z) :
  0 <= i <= 5 -> 1 <= c <= 48 ->
  Z.of_nat (String.length (codepri_row i (arr_get obsfreqs c - 1))) <= 10.
Proof.
  intros Hi Hc.
  pose proof (Z_range_forall
    (fun i => forallb (fun c => Z.of_nat (String.length
                                  (codepri_row i (arr_get obsfreqs c - 1))) <=? 10)
                      (map Z.of_nat (seq 1 48))) 0 6
    ltac:(vm_compute; reflexivity) i ltac:(lia)) as H.
  cbv beta in H. pose proof (Z_range_forall _ 1 48 H c ltac:(lia)) as H2.
  cbv beta in H2. lia.
Qed.

(** The priority of a valid code is 0 (not listed, or an option of the
    system names another code of the band), 15 (named by an option), or
    between 4 and 14 by its place in the priority table: always within
    0..15. *)
Theorem getcodepri_range (sys : sys_t) (code : Z) (opts : string) :
  1 <= code <= 48 -> code <= MAXCODE ->
  0 <= getcodepri sys code opts <= 15 /\
  (getcodepri sys code opts = 0 \/ 4 <= getcodepri sys code opts).
Proof.
  intros Hc Hm. unfold getcodepri.
  assert (G : forall i lit, 0 <= i <= 5 ->
    let v := (let '(obs, j) := code2obs code in
              match code_option lit obs opts with
              | Some v => v
              | None => match strchr (codepri_row i (j - 1)) (char_at obs 1) with
                        | Some k => 14 - k
                        | None => 0
                        end
              end) in
    0 <= v <= 15 /\ (v = 0 \/ 4 <= v)).
  { intros i lit Hi. cbv zeta. unfold code2obs, CODE_NONE.
    destruct (Z.leb_spec code 0); [lia|]. destruct (Z.ltb_spec MAXCODE code); [lia|].
    cbn [orb].
    destruct (code_option lit (str_get obscodes code) opts) as [v|] eqn:E.
    - apply code_option_val in E. lia.
    - destruct (strchr _ _) as [k|] eqn:S; [|lia].
      apply strchr_range in S. pose proof (codepri_row_length i code Hi Hc). lia. }
  destruct sys; try lia; apply G; lia.
Qed.

End CodeFacts.

Lemma obs_code_roundtrip_witness :
  obs2code (fst (code2obs 14)) = (14, snd (code2obs 14)).
Proof.
  destruct (@obs_code_roundtrip sample_env) as [H _].
  destruct (H 14 ltac:(lia) ltac:(change (14 <= 48); lia)) as [E _]. exact E.
Defined.

Lemma getcodepri_range_witness :
  0 <= getcodepri SYS_GPS 14 "-GL2X" <= 15.
Proof.
  destruct (@getcodepri_range sample_env SYS_GPS 14 "-GL2X" ltac:(lia) ltac:(change (14 <= 48); lia)) as [H _].
  exact H.
Defined.

(** * Decoders: station switch, week number, repeated ephemeris, MSM masks *)

Section DecoderFacts.
Context `{env : rtklib_h}.

(** A change of station is taken up at the second message: the first frame
    with another station id is refused and clears the stored id, and the
    frame after that, from whatever station the -STA option admits, is
    accepted and its id stored. *)
Theorem test_staid_recovers (r : rtcm_t) (sid1 sid2 : Z) :
  sta_option (opt r) = None \/ sta_option (opt r) = Some sid1 ->
  sta_option (opt r) = None \/ sta_option (opt r) = Some sid2 ->
  staid r <> 0 -> obsflag r = 0 -> sid1 <> staid r ->
  let r1 := fst (test_staid r sid1) in
  snd (test_staid r sid1) = 0 /\ staid r1 = 0 /\
  test_staid r1 sid2 = (set_staid r1 sid2, 1) /\
  staid (fst (test_staid r1 sid2)) = sid2.
Proof.
  intros Ho1 Ho2 Hs Hf Hd. cbv zeta.
  rewrite (test_staid_mismatch r sid1 Ho1 Hs Hf Hd). cbn [fst snd].
  split; [done|]. split; [done|].
  rewrite (test_staid_pass (set_staid r 0) sid2); [done|exact Ho2|by left].
Qed.


(** *** Type 1019 *)

Lemma decode_type1019_eq (r : rtcm_t) (prn week toc : Z) (eph : eph_t) (sat : Z) :
  24 + 12 + 476 <= len r * 8 ->
  fst (read_type1019 (buff r) (24 + 12)) = (prn, week, toc, eph) ->
  sat = (if prn >=? 40 then satno SYS_SBS (prn + 80) else satno SYS_GPS prn) ->
  decode_type1019 r
  = if sat =? 0 then (r, -1)
    else
      let e := eph1019_complete eph sat week toc (rtime r) in
      if negb (has_option r "-EPHALL") && (eph_iode e =? nav_iode r sat) then (r, 0)
      else (set_ephsat (set_nav_eph r (<[Z.to_nat (sat - 1) := e]> (nav_eph r))) sat, 2).
Proof.
  intros Hlen Hrd Hsat. unfold decode_type1019. cbv zeta.
  destruct (Z.leb_spec (24 + 12 + 476) (len r * 8)); [|lia].
  rewrite Hrd. subst sat. destruct (prn >=? 40); reflexivity.
Qed.

(** A type-1019 frame returns -1, 0 or 2; a frame shorter than 512 bits
    returns -1; the control record is left exactly as it was unless 2 is
    returned, and then only the navigation table and ephsat differ. *)
Theorem eph1019_status (r : rtcm_t) :
  let res := decode_type1019 r in
  (snd res = -1 \/ snd res = 0 \/ snd res = 2) /\
  (len r * 8 < 512 -> res = (r, -1)) /\
  (snd res <> 2 -> fst res = r) /\
  (exists nav sat, fst res = set_ephsat (set_nav_eph r nav) sat /\
                   length nav = length (nav_eph r)).
Proof.
  cbv zeta.
  assert (K : exists nav sat, r = set_ephsat (set_nav_eph r nav) sat /\
                              length nav = length (nav_eph r)).
  { exists (nav_eph r), (ephsat r). by destruct r. }
  destruct (Z.leb_spec (24 + 12 + 476) (len r * 8)) as [Hl|Hl].
  - destruct (fst (read_type1019 (buff r) (24 + 12))) as [[[prn week] toc] eph] eqn:Hrd.
    rewrite (decode_type1019_eq r prn week toc eph _ Hl Hrd eq_refl).
    set (sat := if prn >=? 40 then _ else _). clearbody sat.
    split; [|split; [lia|]].
    + destruct (sat =? 0); [auto|]. cbv zeta. destruct (_ && _); auto.
    + destruct (sat =? 0); [cbn [fst snd]; auto|]. cbv zeta.
      destruct (_ && _); cbn [fst snd]; [auto|]. split; [done|].
      eexists _, _. split; [reflexivity|]. apply length_insert.
  - assert (E : decode_type1019 r = (r, -1)).
    { unfold decode_type1019. cbv zeta.
      destruct (Z.leb_spec (24 + 12 + 476) (len r * 8)); [lia|done]. }
    rewrite E. cbn [fst snd]. auto.
Qed.

(** The same ephemeris frame decoded again: without -EPHALL the second pass
    returns 0 and changes nothing, so an ephemeris is reported once; with
    -EPHALL it is stored and reported (2) again, the control record staying
    as the first pass left it. *)
Theorem eph1019_repeat (r : rtcm_t) :
  let r1 := fst (decode_type1019 r) in
  snd (decode_type1019 r) = 2 ->
  (Z.to_nat (ephsat r1 - 1) < length (nav_eph r))%nat ->
  (has_option r "-EPHALL" = false -> decode_type1019 r1 = (r1, 0)) /\
  (has_option r "-EPHALL" = true -> decode_type1019 r1 = (r1, 2)).
Proof.
  cbv zeta.
  destruct (Z.leb_spec (24 + 12 + 476) (len r * 8)) as [Hl|Hl].
  2:{ intros H. exfalso. destruct (eph1019_status r) as (_ & S & _). cbv zeta in S.
      rewrite (S ltac:(lia)) in H. cbn in H. lia. }
  destruct (fst (read_type1019 (buff r) (24 + 12))) as [[[prn week] toc] eph] eqn:Hrd.
  rewrite (decode_type1019_eq r prn week toc eph _ Hl Hrd eq_refl).
  set (sat := if prn >=? 40 then _ else _).
  assert (Es : sat = if prn >=? 40 then satno SYS_SBS (prn + 80) else satno SYS_GPS prn)
    by reflexivity.
  clearbody sat.
  destruct (Z.eqb_spec sat 0) as [|Hnz]; [cbn [snd]; lia|]. cbv zeta.
  set (e := eph1019_complete eph sat week toc (rtime r)).
  destruct (negb (has_option r "-EPHALL") && (eph_iode e =? nav_iode r sat)) eqn:Hc;
    [cbn [snd]; lia|].
  cbn [fst snd]. intros _ Hslot.
  set (r1 := set_ephsat (set_nav_eph r (<[Z.to_nat (sat - 1) := e]> (nav_eph r))) sat) in *.
  assert (Hslot' : (Z.to_nat (sat - 1) < length (nav_eph r))%nat) by exact Hslot.
  assert (D : decode_type1019 r1
              = let e1 := eph1019_complete eph sat week toc (rtime r1) in
                if negb (has_option r1 "-EPHALL") && (eph_iode e1 =? nav_iode r1 sat)
                then (r1, 0)
                else (set_ephsat
                        (set_nav_eph r1 (<[Z.to_nat (sat - 1) := e1]> (nav_eph r1))) sat, 2)).
  { rewrite (decode_type1019_eq r1 prn week toc eph sat Hl Hrd Es).
    destruct (Z.eqb_spec sat 0); [done|reflexivity]. }
  rewrite D. cbv zeta.
  change (rtime r1) with (rtime r). fold e.
  change (has_option r1 "-EPHALL") with (has_option r "-EPHALL").
  assert (Hi : nav_iode r1 sat = eph_iode e).
  { unfold nav_iode, r1. cbn [nav_eph set_ephsat set_nav_eph].
    by rewrite list_lookup_insert_eq by done. }
  rewrite Hi, Z.eqb_refl, andb_true_r.
  split; intros Ho; rewrite Ho; cbn [negb]; [reflexivity|].
  f_equal. unfold r1. cbn [nav_eph set_ephsat set_nav_eph].
  rewrite list_insert_insert_eq. reflexivity.
Qed.

(** *** MSM satellite and signal masks *)

Lemma mask_scan_inv (n : nat) : forall (b : list Z) (i j : Z) (arr : list Z) (cnt : Z),
  0 <= cnt -> cnt + Z.of_nat n <= Z.of_nat (length arr) ->
  let res := mask_scan n b i j arr cnt in
  length (fst res) = length arr /\
  cnt <= snd res <= cnt + Z.of_nat n /\
  (forall k, 0 <= k < cnt -> arr_get (fst res) k = arr_get arr k) /\
  (forall k, cnt <= k < snd res ->
     j <= arr_get (fst res) k < j + Z.of_nat n /\
     bit_at b (i + (arr_get (fst res) k - j)) = 1) /\
  (forall k k', cnt <= k -> k < k' -> k' < snd res ->
     arr_get (fst res) k < arr_get (fst res) k').
Proof.
  induction n as [|n IH]; intros b i j arr cnt Hc Hl; cbv zeta; cbn [mask_scan].
  - cbn [fst snd]. repeat split; try lia; intros; lia.
  - rewrite getbitu_1. pose proof (bit_at_01 b i) as B01.
    destruct (Z.eqb_spec (bit_at b i) 0) as [E0|E1].
    + specialize (IH b (i + 1) (j + 1) arr cnt Hc ltac:(lia)). cbv zeta in IH.
      destruct (mask_scan n b (i + 1) (j + 1) arr cnt) as [a c]. cbn [fst snd] in *.
      destruct IH as (I1 & I2 & I3 & I4 & I5).
      repeat split; try lia; try (by apply I3); try (by apply I5).
      * specialize (I4 k H). lia.
      * specialize (I4 k H). lia.
      * specialize (I4 k H). destruct I4 as [_ I4]. rewrite <- I4. f_equal. lia.
    + assert (Hl1 : cnt + 1 + Z.of_nat n <= Z.of_nat (length (arr_set arr cnt j)))
        by (rewrite length_arr_set; lia).
      specialize (IH b (i + 1) (j + 1) (arr_set arr cnt j) (cnt + 1) ltac:(lia) Hl1).
      cbv zeta in IH.
      destruct (mask_scan n b (i + 1) (j + 1) (arr_set arr cnt j) (cnt + 1)) as [a c].
      cbn [fst snd] in *. destruct IH as (I1 & I2 & I3 & I4 & I5).
      rewrite length_arr_set in I1.
      assert (Ac : arr_get a cnt = j).
      { rewrite I3 by lia. apply arr_get_set_eq. lia. }
      repeat split; try lia.
      * intros k Hk. rewrite I3 by lia. apply arr_get_set_ne; lia.
      * destruct (Z.eq_dec k cnt) as [->|]; [lia|]. specialize (I4 k ltac:(lia)). lia.
      * destruct (Z.eq_dec k cnt) as [->|]; [lia|]. specialize (I4 k ltac:(lia)). lia.
      * destruct (Z.eq_dec k cnt) as [->|].
        -- rewrite Ac. replace (i + (j - j)) with i by lia. lia.
        -- specialize (I4 k ltac:(lia)). destruct I4 as [_ I4]. rewrite <- I4. f_equal. lia.
      * intros k k' H1 H2 H3. destruct (Z.eq_dec k cnt) as [->|].
        -- rewrite Ac. specialize (I4 k' ltac:(lia)). lia.
        -- apply I5; lia.
Qed.

Lemma decode_msm_head_masks (r : rtcm_t) (sys : sys_t) :
  24 + 12 + 157 <= len r * 8 ->
  let h := mh_h (snd (decode_msm_head r sys)) in
  (h_sats h, h_nsat h) = mask_scan 64 (buff r) 97 1 (replicate 64 0) 0 /\
  (h_sigs h, h_nsig h) = mask_scan 32 (buff r) 161 1 (replicate 32 0) 0.
Proof.
  intros Hl. cbv zeta. unfold decode_msm_head.
  destruct (Z.leb_spec (24 + 12 + 157) (len r * 8)); [|lia].
  set (r1 := match sys with SYS_GLO => _ | SYS_CMP => _ | _ => _ end). clearbody r1.
  change (24 + 12 + 42 + 19) with 97. change (97 + 64) with 161. change (161 + 32) with 193.
  destruct (mask_scan 64 (buff r) 97 1 (replicate 64 0) 0) as [sats nsat].
  destruct (mask_scan 32 (buff r) 161 1 (replicate 32 0) 0) as [sigs nsig].
  destruct (test_staid r1 (getbitu (buff r) (24 + 12) 12)) as [r2 ok].
  destruct (ok =? 0); [done|].
  destruct (nsat * nsig >? 64); [done|].
  destruct (193 + nsat * nsig >? len r * 8); [done|].
  destruct (cell_scan _ (buff r) 193 0 (replicate 64 0) 0) as [cm nc].
  done.
Qed.

(** The satellite and signal lists of an MSM header are the set bits of the
    two masks in rising order: at most 64 satellites with ids in 1..64 and at
    most 32 signals with ids in 1..32, each listed id having its mask bit set
    and the lists strictly increasing. *)
Theorem msm_head_masks (r : rtcm_t) (sys : sys_t) :
  24 + 12 + 157 <= len r * 8 ->
  let h := mh_h (snd (decode_msm_head r sys)) in
  0 <= h_nsat h <= 64 /\ 0 <= h_nsig h <= 32 /\
  (forall k, 0 <= k < h_nsat h ->
     1 <= arr_get (h_sats h) k <= 64 /\
     bit_at (buff r) (97 + (arr_get (h_sats h) k - 1)) = 1) /\
  (forall k k', 0 <= k -> k < k' -> k' < h_nsat h ->
     arr_get (h_sats h) k < arr_get (h_sats h) k') /\
  (forall k, 0 <= k < h_nsig h ->
     1 <= arr_get (h_sigs h) k <= 32 /\
     bit_at (buff r) (161 + (arr_get (h_sigs h) k - 1)) = 1) /\
  (forall k k', 0 <= k -> k < k' -> k' < h_nsig h ->
     arr_get (h_sigs h) k < arr_get (h_sigs h) k').
Proof.
  intros Hl. destruct (decode_msm_head_masks r sys Hl) as [Es Eg]. cbv zeta in *.
  set (h := mh_h (snd (decode_msm_head r sys))) in *. clearbody h.
  pose proof (mask_scan_inv 64 (buff r) 97 1 (replicate 64 0) 0 ltac:(lia)
                ltac:(rewrite length_replicate; lia)) as Is.
  pose proof (mask_scan_inv 32 (buff r) 161 1 (replicate 32 0) 0 ltac:(lia)
                ltac:(rewrite length_replicate; lia)) as Ig.
  cbv zeta in Is, Ig. rewrite <- Es in Is. rewrite <- Eg in Ig. cbn [fst snd] in Is, Ig.
  destruct Is as (_ & S2 & _ & S4 & S5). destruct Ig as (_ & G2 & _ & G4 & G5).
  change (Z.of_nat 64) with 64 in *. change (Z.of_nat 32) with 32 in *.
  repeat split; try lia.
  - specialize (S4 k H). lia.
  - specialize (S4 k H). lia.
  - by apply S4.
  - intros k k' H1 H2 H3. by apply S5.
  - specialize (G4 k H). lia.
  - specialize (G4 k H). lia.
  - by apply G4.
  - intros k k' H1 H2 H3. by apply G5.
Qed.

End DecoderFacts.

Lemma test_staid_recovers_witness :
  staid (fst (test_staid (fst (test_staid rtcm1005_other 5)) 9)) = 9.
Proof.
  pose proof (test_staid_recovers rtcm1005_other 5 9
                ltac:(left; vm_compute; reflexivity) ltac:(left; vm_compute; reflexivity)
                ltac:(vm_compute; discriminate) ltac:(reflexivity)
                ltac:(vm_compute; discriminate)) as H.
  cbv zeta in H. destruct H as (_ & _ & _ & H). exact H.
Defined.


Lemma eph1019_repeat_witness :
  decode_type1019 (fst (decode_type1019 rtcm1019)) = (fst (decode_type1019 rtcm1019), 0).
Proof.
  assert (H1 : snd (decode_type1019 rtcm1019) = 2) by (vm_compute; reflexivity).
  assert (H2 : (Z.to_nat (ephsat (fst (decode_type1019 rtcm1019)) - 1)
                < length (nav_eph rtcm1019))%nat) by (vm_compute; lia).
  assert (H3 : has_option rtcm1019 "-EPHALL" = false) by (vm_compute; reflexivity).
  exact (proj1 (eph1019_repeat rtcm1019 H1 H2) H3).
Defined.

Lemma msm_head_masks_witness :
  0 <= h_nsat (mh_h (snd (decode_msm_head rtcm_msm7 SYS_GPS))) <= 64.
Proof.
  pose proof (msm_head_masks rtcm_msm7 SYS_GPS ltac:(vm_compute; intros H; discriminate H)) as H.
  cbv zeta in H. destruct H as [H _]. exact H.
Defined.

Ltac same_frame_tac :=
  unfold same_frame, adjweek, adjday_glot, end_of_obs in *;
  cbn [fst snd buff len nbyte opt set_rtime set_obsflag set_sta set_staid
       set_ephsat set_nav_eph] in *;
  try done.

Section FrameMembers.
Context `{env : rtklib_h}.

Lemma same_frame_refl (r : rtcm_t) : same_frame r r.
Proof. by unfold same_frame. Qed.

Lemma same_frame_test_staid (r : rtcm_t) (sid : Z) : same_frame r (fst (test_staid r sid)).
Proof.
  pose proof (test_staid_keeps r sid) as T. cbv zeta in T.
  destruct T as (_ & _ & _ & _ & _ & _ & _ & Tb & Tl & Tn & To). by unfold same_frame.
Qed.

Lemma same_frame_msm_head (r : rtcm_t) (sys : sys_t) :
  same_frame r (fst (decode_msm_head r sys)).
Proof.
  unfold decode_msm_head.
  destruct (24 + 12 + 157 <=? len r * 8); [|apply same_frame_refl].
  set (r1 := match sys with SYS_GLO => _ | SYS_CMP => _ | _ => _ end).
  assert (K : same_frame r r1) by (subst r1; destruct sys; same_frame_tac).
  clearbody r1.
  destruct (mask_scan 64 _ _ _ _ _) as [sats nsat].
  destruct (mask_scan 32 _ _ _ _ _) as [sigs nsig].
  pose proof (same_frame_test_staid r1 (getbitu (buff r) (24 + 12) 12)) as T.
  destruct (test_staid r1 (getbitu (buff r) (24 + 12) 12)) as [r2 ok]. cbn [fst] in T.
  assert (K2 : same_frame r r2).
  { unfold same_frame in *. destruct K as (? & ? & ? & ?), T as (? & ? & ? & ?).
    repeat split; congruence. }
  destruct (ok =? 0); [done|]. destruct (nsat * nsig >? 64); [done|].
  destruct (_ >? len r * 8); [done|].
  destruct (cell_scan _ _ _ _ _ _) as [cm nc]. done.
Qed.

(** The decoders of the station, header-only, ephemeris and MSM 1-3
    messages never touch the frame buffer, the length, the write index or
    the option string, whatever they return. *)
Theorem decoders_keep_frame (r : rtcm_t) (sys : sys_t) :
  Forall (fun dec : rtcm_t -> status => same_frame r (fst (dec r)))
         [decode_type1001; decode_type1003; decode_type1005; decode_type1006;
          decode_type1019; fun r => decode_msm0 r sys].
Proof.
  assert (H1 : same_frame r (fst (decode_type1001 r))).
  { unfold decode_type1001, decode_head1001.
    destruct (24 + 12 + 52 <=? len r * 8); [|apply same_frame_refl].
    pose proof (same_frame_test_staid r (getbitu (buff r) (24 + 12) 12)) as T.
    destruct (test_staid r (getbitu (buff r) (24 + 12) 12)) as [r1 ok]. cbn [fst] in T.
    destruct (ok =? 0); [exact T|].
    destruct (getbitu (buff r) (24 + 12 + 43) 5 <? 0); same_frame_tac. }
  apply Forall_cons_2; [exact H1|]. apply Forall_cons_2; [exact H1|].
  apply Forall_cons_2; [|apply Forall_cons_2; [|apply Forall_cons_2;
    [|apply Forall_cons_2; [|apply Forall_nil_2]]]].
  - unfold decode_type1005.
    destruct (24 + 12 + 140 =? len r * 8); [|apply same_frame_refl].
    pose proof (same_frame_test_staid r (getbitu (buff r) (24 + 12) 12)) as T.
    destruct (test_staid r (getbitu (buff r) (24 + 12) 12)) as [r1 ok]. cbn [fst] in T.
    destruct (ok =? 0); same_frame_tac.
  - unfold decode_type1006.
    destruct (24 + 12 + 156 <=? len r * 8); [|apply same_frame_refl].
    pose proof (same_frame_test_staid r (getbitu (buff r) (24 + 12) 12)) as T.
    destruct (test_staid r (getbitu (buff r) (24 + 12) 12)) as [r1 ok]. cbn [fst] in T.
    destruct (ok =? 0); same_frame_tac.
  - destruct (eph1019_status r) as (_ & _ & _ & nav & sat & E & _). cbv zeta in E.
    rewrite E. same_frame_tac.
  - unfold decode_msm0.
    pose proof (same_frame_msm_head r sys) as T.
    destruct (decode_msm_head r sys) as [r1 hd]. cbn [fst] in T.
    destruct (mh_ret hd <? 0); same_frame_tac.
Qed.

End FrameMembers.

(** * Calendar and GPS time *)

Lemma quot_day (d sod : Z) :
  0 <= d -> 0 <= sod < 86400 ->
  Z.quot (d * 86400 + sod) 86400 = d /\ d * 86400 + sod - d * 86400 = sod.
Proof.
  intros Hd Hs. split; [|lia].
  rewrite Z.quot_div_nonneg by lia. symmetry. apply (Z.div_unique _ _ d sod); lia.
Qed.

Lemma time_of_day (h mi s : Z) :
  0 <= h -> 0 <= mi < 60 -> 0 <= s < 60 ->
  let sod := h * 3600 + mi * 60 + s in
  Z.quot sod 3600 = h /\ Z.quot (Z.rem sod 3600) 60 = mi /\ Z.rem sod 60 = s.
Proof.
  intros Hh Hm Hs. cbv zeta.
  assert (E1 : (h * 3600 + mi * 60 + s) / 3600 = h)
    by (symmetry; apply (Z.div_unique _ _ h (mi * 60 + s)); lia).
  assert (E2 : (h * 3600 + mi * 60 + s) mod 3600 = mi * 60 + s)
    by (symmetry; apply (Z.mod_unique _ _ h (mi * 60 + s)); lia).
  assert (E3 : (mi * 60 + s) / 60 = mi)
    by (symmetry; apply (Z.div_unique _ _ mi s); lia).
  assert (E4 : (h * 3600 + mi * 60 + s) mod 60 = s)
    by (symmetry; apply (Z.mod_unique _ _ (h * 60 + mi) s); lia).
  rewrite Z.quot_div_nonneg, !Z.rem_mod_nonneg by lia.
  rewrite E2, Z.quot_div_nonneg by lia. auto.
Qed.

Lemma second_of_day (sod : Z) :
  0 <= sod < 86400 ->
  0 <= Z.quot sod 3600 < 24 /\ 0 <= Z.quot (Z.rem sod 3600) 60 < 60 /\
  0 <= Z.rem sod 60 < 60 /\
  Z.quot sod 3600 * 3600 + Z.quot (Z.rem sod 3600) 60 * 60 + Z.rem sod 60 = sod.
Proof.
  intros H. rewrite Z.quot_div_nonneg, !Z.rem_mod_nonneg by lia.
  pose proof (Z.mod_pos_bound sod 3600 ltac:(lia)).
  rewrite Z.quot_div_nonneg by lia.
  pose proof (Z.div_mod sod 3600 ltac:(lia)).
  pose proof (Z.div_mod (sod mod 3600) 60 ltac:(lia)).
  pose proof (Z.mod_pos_bound (sod mod 3600) 60 ltac:(lia)).
  assert (E : sod mod 60 = (sod mod 3600) mod 60).
  { change 3600 with (60 * 60). rewrite Z.rem_mul_r by lia.
    rewrite Z.mul_comm, Z.mod_add by lia. by rewrite Z.mod_mod by lia. }
  rewrite E.
  assert (0 <= sod / 3600 < 24).
  { split; [apply Z.div_pos; lia|apply Z.div_lt_upper_bound; lia]. }
  assert (0 <= sod mod 3600 / 60 < 60).
  { split; [apply Z.div_pos; lia|apply Z.div_lt_upper_bound; lia]. }
  lia.
Qed.


Lemma date_there_all (y m d : Z) :
  1970 <= y <= 2099 -> 1 <= m <= 12 -> 1 <= d <= 31 -> date_there y m d = true.
Proof.
  intros Hy Hm Hd.
  pose proof (Z_range_forall
    (fun y => forallb (fun m => forallb (fun d => date_there y m d)
                                        (map Z.of_nat (seq 1 31)))
                      (map Z.of_nat (seq 1 12))) 1970 130
    ltac:(vm_compute; reflexivity) y ltac:(lia)) as H.
  cbv beta in H.
  pose proof (Z_range_forall _ 1 12 H m ltac:(lia)) as H2. cbv beta in H2.
  exact (Z_range_forall _ 1 31 H2 d ltac:(lia)).
Qed.

Lemma date_back_all (D : Z) : 0 <= D < 47482 -> date_back D = true.
Proof.
  intros H.
  pose proof (Z_range_forall
    (fun q => forallb (fun r => (47482 <=? q * 1461 + r) || date_back (q * 1461 + r))
                      (map Z.of_nat (seq 0 1461))) 0 33
    ltac:(vm_compute; reflexivity) (D / 1461)) as C.
  assert (Hq : 0 <= D / 1461 < 33).
  { split; [apply Z.div_pos; lia|apply Z.div_lt_upper_bound; lia]. }
  specialize (C ltac:(lia)). cbv beta in C.
  pose proof (Z.mod_pos_bound D 1461 ltac:(lia)) as Hr.
  pose proof (Z_range_forall _ 0 1461 C (D mod 1461) ltac:(lia)) as C2. cbv beta in C2.
  pose proof (Z.div_mod D 1461 ltac:(lia)) as E.
  replace (D / 1461 * 1461 + D mod 1461) with D in C2 by lia.
  destruct (Z.leb_spec 47482 D); [lia|]. exact C2.
Qed.

Lemma days_in_month_le (y m : Z) : days_in_month y m <= 31.
Proof.
  unfold days_in_month.
  destruct (m =? 2); [destruct (y mod 4 =? 0); lia|].
  destruct ((m =? 4) || (m =? 6) || (m =? 9) || (m =? 11)); lia.
Qed.

(** epoch2time and time2epoch are inverse to each other from 1970 to 2099:
    a valid calendar time comes back from its second count, and a second
    count below that of 2100-01-01 comes back from its calendar time, whose
    fields are those of a valid date and time of day. *)
Theorem calendar_roundtrip :
  (forall y m d h mi s,
     1970 <= y <= 2099 -> 1 <= m <= 12 -> 1 <= d <= days_in_month y m ->
     0 <= h < 24 -> 0 <= mi < 60 -> 0 <= s < 60 ->
     time2epoch (epoch2time y m d h mi s) = (y, m, d, h, mi, s)) /\
  (forall t, 0 <= t < 4102444800 ->
     let '(y, m, d, h, mi, s) := time2epoch t in
     epoch2time y m d h mi s = t /\
     1970 <= y <= 2099 /\ 1 <= m <= 12 /\ 1 <= d <= days_in_month y m /\
     0 <= h < 24 /\ 0 <= mi < 60 /\ 0 <= s < 60).
Proof.
  split.
  - intros y m d h mi s Hy Hm Hd Hh Hmi Hs.
    pose proof (days_in_month_le y m) as Hle.
    pose proof (date_there_all y m d Hy Hm ltac:(lia)) as C. unfold date_there in C.
    destruct (Z.leb_spec d (days_in_month y m)); [|lia]. cbn [negb orb] in C.
    unfold epoch2time.
    destruct (Z.ltb_spec y 1970); [lia|]. destruct (Z.ltb_spec 2099 y); [lia|].
    destruct (Z.ltb_spec m 1); [lia|]. destruct (Z.ltb_spec 12 m); [lia|].
    cbn [orb]. cbv zeta in C. set (D := epoch_days y m d) in *. clearbody D.
    unfold time2epoch. cbv zeta.
    destruct (time2epoch_loop mday (Z.rem D 1461) 0) as [day mon] eqn:EL.
    assert (D0 : 0 <= D) by lia.
    replace (D * 86400 + h * 3600 + mi * 60 + s)
      with (D * 86400 + (h * 3600 + mi * 60 + s)) by lia.
    destruct (quot_day D (h * 3600 + mi * 60 + s) D0 ltac:(lia)) as [Q1 Q2].
    rewrite Q1, Q2, EL.
    destruct (time_of_day h mi s ltac:(lia) Hmi Hs) as (T1 & T2 & T3).
    rewrite T1, T2, T3.
    repeat f_equal; lia.
  - intros t Ht.
    set (D := t / 86400). set (sod := t mod 86400).
    assert (HD : 0 <= D < 47482).
    { unfold D. split; [apply Z.div_pos; lia|apply Z.div_lt_upper_bound; lia]. }
    assert (Hs : 0 <= sod < 86400) by (apply Z.mod_pos_bound; lia).
    assert (Et : t = D * 86400 + sod).
    { unfold D, sod. pose proof (Z.div_mod t 86400 ltac:(lia)). lia. }
    pose proof (date_back_all D HD) as C. unfold date_back in C.
    unfold time2epoch. cbv zeta. rewrite Et.
    destruct (quot_day D sod ltac:(lia) Hs) as [Q1 Q2]. rewrite Q1, Q2.
    destruct (time2epoch_loop mday (Z.rem D 1461) 0) as [day mon].
    cbv zeta in C.
    destruct (second_of_day sod Hs) as (S1 & S2 & S3 & S4).
    unfold epoch2time.
    destruct (Z.ltb_spec (1970 + Z.quot D 1461 * 4 + Z.quot mon 12) 1970); [lia|].
    destruct (Z.ltb_spec 2099 (1970 + Z.quot D 1461 * 4 + Z.quot mon 12)); [lia|].
    destruct (Z.ltb_spec (Z.rem mon 12 + 1) 1); [lia|].
    destruct (Z.ltb_spec 12 (Z.rem mon 12 + 1)); [lia|].
    cbn [orb]. repeat split; lia.
Qed.

Lemma calendar_roundtrip_witness :
  time2epoch (epoch2time 2025 2 28 23 59 59) = (2025, 2, 28, 23, 59, 59).
Proof.
  destruct calendar_roundtrip as [H _].
  apply H; first [lia | vm_compute; split; intros E; discriminate E].
Defined.

Lemma s32_small (x : Z) : 0 <= x < 2 ^ 31 -> s32 x = x.
Proof.
  intros H. unfold s32, u32. rewrite Z.mod_small by lia.
  destruct (Z.ltb_spec x (2 ^ 31)); [reflexivity|lia].
Qed.

Section GpsTime.
Context `{env : rtklib_h}.

(** GPS week and seconds of the week survive the conversion to a time and
    back as long as the seconds since the GPS epoch, 604800*week+sec, fit
    the [int] in which both functions compute them: weeks 0 to 3549 with any
    second of the week, and week 3550 up to second 443647.  Week 0, second 0
    is the calendar time 1980-01-06 00:00:00.  From week 3551 on the [int]
    product has wrapped around and the round trip fails. *)
Theorem gps_time_roundtrip (week sec : Z) :
  0 <= week -> 0 <= sec < 604800 -> 604800 * week + sec < 2 ^ 31 ->
  time2gpst (gpst2time week sec) = (week, sec) /\
  gt_time (gpst2time 0 0) = epoch2time 1980 1 6 0 0 0 /\
  time2gpst (gpst2time 3551 0) <> (3551, 0).
Proof.
  intros Hw Hs Hfit. split; [|split; [reflexivity|vm_compute; discriminate]].
  unfold gpst2time, time2gpst. cbv zeta.
  destruct (Z.ltb_spec sec (-1000000000)); [lia|].
  destruct (Z.ltb_spec 1000000000 sec); [lia|]. cbn [orb gt_time].
  change (86400 * 7) with 604800.
  rewrite (s32_small (604800 * week + sec)) by lia.
  replace (315964800 + (604800 * week + sec) - 315964800)
    with (week * 604800 + sec) by lia.
  rewrite Z.quot_div_nonneg by lia.
  assert (E : (week * 604800 + sec) / 604800 = week)
    by (symmetry; apply (Z.div_unique _ _ week sec); lia).
  rewrite E, (s32_small week) by lia.
  replace (week * 86400 * 7) with (604800 * week) by lia.
  rewrite (s32_small (604800 * week)) by lia.
  f_equal. lia.
Qed.

End GpsTime.

Lemma gps_time_roundtrip_witness :
  time2gpst (@gpst2time 2100 345600) = (2100, 345600).
Proof.
  destruct (gps_time_roundtrip 2100 345600 ltac:(lia) ltac:(lia) ltac:(lia)) as [H _].
  exact H.
Defined.

(** * Observation buffer and set-up of the control record *)

Section BufferFacts.
Context `{env : rtklib_h}.
Variable MAXSAT : Z.
Variable MAXOBS : Z.

Lemma obsindex_find_None (data : list obsd_t) : forall (n : nat) (i sat : Z),
  obsindex_find data n i sat = None <-> sat ∉ map od_sat (take n data).
Proof.
  induction data as [|d data IH]; intros n i sat.
  - destruct n; cbn; split; try done; intros _; apply not_elem_of_nil.
  - destruct n as [|n]; cbn [obsindex_find take map].
    + split; [intros _; apply not_elem_of_nil|done].
    + destruct (Z.eqb_spec (od_sat d) sat) as [E|NE].
      * split; [done|]. intros H. exfalso. apply H. rewrite E. apply list_elem_of_here.
      * rewrite IH. rewrite not_elem_of_cons. split; [auto|]. by intros [_ ?].
Qed.

Lemma obsindex_find_Some (data : list obsd_t) : forall (n : nat) (i sat j : Z),
  obsindex_find data n i sat = Some j ->
  i <= j < i + Z.of_nat n /\
  map od_sat (take n data) !! Z.to_nat (j - i) = Some sat.
Proof.
  induction data as [|d data IH]; intros n i sat j; [destruct n; done|].
  destruct n as [|n]; cbn [obsindex_find take map]; [done|].
  destruct (Z.eqb_spec (od_sat d) sat) as [E|NE].
  - intros [= <-]. rewrite Z.sub_diag. split; [lia|]. cbn. by rewrite E.
  - intros H. destruct (IH n (i + 1) sat j H) as [R L]. split; [lia|].
    replace (Z.to_nat (j - i)) with (S (Z.to_nat (j - (i + 1)))) by lia. exact L.
Qed.

Lemma obsindex_find_last (data : list obsd_t) : forall (n : nat) (i sat : Z) (d : obsd_t),
  sat ∉ map od_sat (take n data) -> data !! n = Some d -> od_sat d = sat ->
  obsindex_find data (S n) i sat = Some (i + Z.of_nat n).
Proof.
  induction data as [|x data IH]; intros n i sat d Hn Hd Hs; [done|].
  destruct n as [|n].
  - cbn in Hd. injection Hd as ->. cbn [obsindex_find]. rewrite Hs, Z.eqb_refl.
    f_equal. lia.
  - cbn [take map] in Hn. rewrite not_elem_of_cons in Hn. destruct Hn as [Hx Hn].
    cbn [obsindex_find]. destruct (Z.eqb_spec (od_sat x) sat); [congruence|].
    rewrite (IH n (i + 1) sat d Hn Hd Hs). f_equal. lia.
Qed.

(** obsindex keeps one record per satellite.  A satellite already in the
    buffer gets its index back and nothing changes; a new one is appended
    with zeroed samples while there is room, and asking again returns the
    same index without a second record; a full buffer returns -1 and is left
    as it was.  The satellites in use stay free of duplicates and the index
    returned addresses a record of the satellite asked for. *)
Theorem obsindex_spec (o : obs_t) (time : gtime_t) (sat : Z) :
  0 <= obs_n o <= MAXOBS -> Z.of_nat (length (obs_data o)) = MAXOBS ->
  let o' := fst (obsindex MAXOBS o time sat) in
  let i := snd (obsindex MAXOBS o time sat) in
  (sat ∈ obs_sats o -> o' = o /\ 0 <= i < obs_n o) /\
  (sat ∉ obs_sats o -> obs_n o < MAXOBS ->
     i = obs_n o /\ obs_n o' = obs_n o + 1 /\ obs_sats o' = obs_sats o ++ [sat] /\
     obs_data o' !! Z.to_nat i = Some (obsd_new time sat)) /\
  (sat ∉ obs_sats o -> obs_n o = MAXOBS -> o' = o /\ i = -1) /\
  (i <> -1 ->
     0 <= i < obs_n o' /\ obs_n o' <= MAXOBS /\
     obs_sats o' !! Z.to_nat i = Some sat /\
     obsindex MAXOBS o' time sat = (o', i)) /\
  length (obs_data o') = length (obs_data o) /\
  (NoDup (obs_sats o) -> NoDup (obs_sats o')).
Proof.
  intros Hn Hlen. cbv zeta. unfold obsindex.
  destruct (obsindex_find (obs_data o) (Z.to_nat (obs_n o)) 0 sat) as [j|] eqn:F.
  - destruct (obsindex_find_Some _ _ _ _ _ F) as [R L].
    rewrite Z.sub_0_r in L. cbn [fst snd].
    assert (In_ : sat ∈ obs_sats o) by (unfold obs_sats; by eapply list_elem_of_lookup_2).
    repeat split; try done; try lia.
    by rewrite F.
  - pose proof (proj1 (obsindex_find_None _ _ _ _) F) as Nin. fold (obs_sats o) in Nin.
    destruct (Z.geb_spec (obs_n o) MAXOBS) as [Full|Room]; cbn [fst snd].
    + repeat split; try done; try lia.
    + set (n := Z.to_nat (obs_n o)).
      assert (Hnl : (n < length (obs_data o))%nat) by lia.
      assert (Ed : obs_data (mk_obs (obs_n o + 1)
                     (<[n := obsd_new time sat]> (obs_data o))) !! n
                   = Some (obsd_new time sat)).
      { cbn [obs_data]. by rewrite list_lookup_insert_eq. }
      assert (Es : obs_sats (mk_obs (obs_n o + 1)
                     (<[n := obsd_new time sat]> (obs_data o)))
                   = obs_sats o ++ [sat]).
      { unfold obs_sats. cbn [obs_n obs_data]. fold n.
        replace (Z.to_nat (obs_n o + 1)) with (S n) by lia.
        rewrite (take_S_r _ _ (obsd_new time sat)) by (by rewrite list_lookup_insert_eq).
        rewrite take_insert_ge by lia. rewrite map_app. reflexivity. }
      assert (Fn : obsindex_find (<[n := obsd_new time sat]> (obs_data o)) (S n) 0 sat
                   = Some (obs_n o)).
      { rewrite (obsindex_find_last _ n 0 sat (obsd_new time sat)).
        - f_equal. lia.
        - rewrite take_insert_ge by lia. exact Nin.
        - by rewrite list_lookup_insert_eq.
        - reflexivity. }
      repeat split; try done; try lia.
      * cbn [obs_n]. lia.
      * cbn [obs_n]. lia.
      * rewrite Es. fold n. apply list_lookup_middle.
        unfold obs_sats. rewrite length_map, length_take. lia.
      * cbn [obs_n obs_data]. replace (Z.to_nat (obs_n o + 1)) with (S n) by lia.
        by rewrite Fn.
      * cbn [obs_data]. apply length_insert.
      * intros ND. rewrite Es. apply NoDup_app. repeat split; [done| |apply NoDup_singleton].
        intros x Hx Hx'. apply list_elem_of_singleton in Hx'. by subst.
Qed.

(** After init_rtcm has succeeded the framer's members are consistent, a
    message of any station passes the station test, and the first type-1019
    frame that the framer delivers is never passed over as a repeat: it is
    refused with -1 (too short, or no such satellite) or stored with status
    2 in a slot of the table, since no 8-bit issue of data equals the -1 of
    an empty slot. *)
Theorem init_rtcm_first_messages (r : rtcm_t) (f : list Z) :
  prn_ranges_ok MAXSAT ->
  let r0 := fst (init_rtcm MAXSAT MAXOBS true r) in
  snd (init_rtcm MAXSAT MAXOBS true r) = 1 /\
  framer_ok r0 /\
  (forall sid, test_staid r0 sid = (set_staid r0 sid, 1)) /\
  (snd (decode_type1019 (framed r0 f)) = -1 \/
   snd (decode_type1019 (framed r0 f)) = 2 /\
   (Z.to_nat (ephsat (fst (decode_type1019 (framed r0 f))) - 1) < length (nav_eph r0))%nat).
Proof.
  intros Hok. cbv zeta. unfold init_rtcm. cbv zeta. cbn [fst snd]. split; [done|].
  set (r0 := mk_rtcm _ _ _ _ _ _ _ _ _ _ _ _).
  split; [unfold framer_ok; cbn; lia|]. split.
  - intros sid. apply test_staid_pass; [by left|by left].
  - destruct (Z.leb_spec (24 + 12 + 476) (len (framed r0 f) * 8)) as [Hl|Hl].
    2:{ left. destruct (eph1019_status (framed r0 f)) as (_ & S & _). cbv zeta in S.
        by rewrite S by lia. }
    destruct (read_type1019_fields (buff (framed r0 f))) as (week & toc & eph & Hrd & Hiode).
    change 36 with (24 + 12) in Hrd.
    rewrite (decode_type1019_eq _ _ _ _ _ _ Hl Hrd eq_refl).
    set (sat := if frame1019_prn _ >=? 40 then _ else _).
    assert (Hsat : sat = 0 \/ 1 <= sat <= MAXSAT).
    { unfold sat. destruct (frame1019_prn _ >=? 40).
      - destruct (Z.eq_dec (satno SYS_SBS (frame1019_prn (buff (framed r0 f)) + 80)) 0);
          [by left|right]. by apply (satsys_satno MAXSAT).
      - destruct (Z.eq_dec (satno SYS_GPS (frame1019_prn (buff (framed r0 f)))) 0);
          [by left|right]. by apply (satsys_satno MAXSAT). }
    clearbody sat.
    destruct (Z.eqb_spec sat 0) as [|Hnz]; [by left|]. right. cbv zeta.
    assert (Ho : has_option (framed r0 f) "-EPHALL" = false) by reflexivity.
    assert (Hi : nav_iode (framed r0 f) sat = -1).
    { unfold nav_iode. change (nav_eph (framed r0 f)) with (replicate (Z.to_nat MAXSAT) eph0).
      rewrite lookup_replicate_2 by lia. reflexivity. }
    rewrite Ho, Hi. cbn [negb andb eph1019_complete eph_iode]. rewrite Hiode.
    pose proof (getbitu_bound (buff (framed r0 f)) 72 8 ltac:(lia)) as B.
    unfold frame1019_iode.
    destruct (Z.eqb_spec (getbitu (buff (framed r0 f)) 72 8) (-1)); [lia|].
    cbn [fst snd ephsat set_ephsat]. split; [done|].
    change (nav_eph r0) with (replicate (Z.to_nat MAXSAT) eph0).
    rewrite length_replicate. lia.
Qed.

End BufferFacts.

Lemma obsindex_spec_witness :
  snd (obsindex 2 obs_sample gtime0 7) = obs_n obs_sample.
Proof.
  pose proof (obsindex_spec 2 obs_sample gtime0 7 ltac:(cbn; lia) ltac:(reflexivity)) as H.
  cbv zeta in H. destruct H as (_ & H & _).
  apply H; [|cbn; lia].
  intros Hin. unfold obs_sats in Hin. cbn in Hin.
  apply list_elem_of_singleton in Hin. discriminate Hin.
Defined.

Lemma init_rtcm_first_messages_witness :
  snd (init_rtcm 164 64 true (rtcm_with [] 0 "")) = 1.
Proof.
  pose proof (init_rtcm_first_messages 164 64 (rtcm_with [] 0 "") [] sample_prn_ranges_ok) as H.
  cbv zeta in H. destruct H as [H _]. exact H.
Defined.

(** * Antenna and receiver descriptors *)

Lemma for_range_fill (f : Z -> Z) (n : nat) : forall (pre suf : list Z),
  (n <= length suf)%nat ->
  for_range n (Z.of_nat (length pre)) (fun k d => arr_set d k (f k)) (pre ++ suf)
  = pre ++ map (fun j => f (Z.of_nat j)) (seq (length pre) n) ++ drop n suf.
Proof.
  induction n as [|n IH]; intros pre suf Hn.
  - cbn [for_range seq map]. by rewrite drop_0.
  - destruct suf as [|x suf]; [cbn [length] in Hn; lia|].
    cbn [for_range seq map]. rewrite (arr_set_nonneg (pre ++ x :: suf)) by lia.
    rewrite Nat2Z.id.
    rewrite insert_app_r_alt by lia. rewrite Nat.sub_diag. cbn [insert list_insert].
    replace (Z.of_nat (length pre) + 1) with (Z.of_nat (length (pre ++ [f (Z.of_nat (length pre))])))
      by (rewrite length_app; cbn [length]; lia).
    rewrite (cons_middle _ pre suf), app_assoc.
    rewrite IH by (cbn [length] in Hn; lia).
    rewrite length_app. cbn [length]. rewrite Nat.add_1_r.
    rewrite <- app_assoc. reflexivity.
Qed.

Lemma for_range_fill0 (f : Z -> Z) (n : nat) (dst : list Z) :
  (n <= length dst)%nat ->
  for_range n 0 (fun k d => arr_set d k (f k)) dst
  = map (fun j => f (Z.of_nat j)) (seq 0 n) ++ drop n dst.
Proof. intros H. exact (for_range_fill f n [] dst H). Qed.

Lemma cstr_nonzero (s : list Z) : Forall (fun c => c <> 0) (cstr s).
Proof.
  induction s as [|c s IH]; [constructor|]. cbn [cstr].
  destruct (Z.eqb_spec c 0); [constructor|]. by constructor.
Qed.

Lemma strlen_cstr (s : list Z) : strlen s = Z.of_nat (length (cstr s)).
Proof.
  induction s as [|c s IH]; [done|]. cbn [strlen cstr].
  destruct (c =? 0); [done|]. cbn [length]. lia.
Qed.

Lemma cstr_prefix (s : list Z) : exists rest, s = cstr s ++ rest.
Proof.
  induction s as [|c s [rest IH]]; [by exists []|]. cbn [cstr].
  destruct (c =? 0); [by exists (c :: s)|]. exists rest. cbn. by rewrite <- IH.
Qed.

Lemma cstr_zeros (l : list Z) (k : nat) (rest : list Z) :
  Forall (fun c => c <> 0) l -> cstr (l ++ replicate k 0 ++ 0 :: rest) = l.
Proof.
  induction 1 as [|c l Hc _ IH].
  - destruct k; reflexivity.
  - cbn [app cstr]. destruct (Z.eqb_spec c 0); [done|]. by rewrite IH.
Qed.

Lemma cstr_app_nul (l rest : list Z) : cstr (l ++ 0 :: rest) = cstr (l ++ [0]).
Proof.
  induction l as [|c l IH]; [done|]. cbn [app cstr]. by rewrite IH.
Qed.

Lemma length_cstr_app_nul (l : list Z) : (length (cstr (l ++ [0%Z])) <= length l)%nat.
Proof.
  induction l as [|c l IH]; [cbn; lia|]. cbn [app cstr length].
  destruct (c =? 0); cbn [length]; lia.
Qed.

(** What strncpy and the closing NUL leave in the destination, read as a C
    string: the first [n] characters of the source string. *)
Lemma strncpy0_cstr (dst src : list Z) (n : Z) :
  0 <= n < Z.of_nat (length dst) ->
  cstr (strncpy0 dst src n) = take (Z.to_nat n) (cstr src).
Proof.
  intros Hn. unfold strncpy0.
  rewrite for_range_fill0 by lia.
  set (W := map _ (seq 0 (Z.to_nat n))).
  assert (LW : length W = Z.to_nat n) by (unfold W; by rewrite length_map, length_seq).
  rewrite arr_set_nonneg by lia. rewrite insert_app_r_alt by lia.
  rewrite LW, Nat.sub_diag.
  destruct (drop (Z.to_nat n) dst) as [|x rest] eqn:D.
  { apply (f_equal length) in D. rewrite length_drop in D. cbn [length] in D. lia. }
  cbn [insert list_insert].
  assert (EW : W = take (Z.to_nat n) (cstr src)
                   ++ replicate (Z.to_nat n - length (cstr src)) 0).
  { apply list_eq. intros k. unfold W.
    destruct (Nat.lt_ge_cases k (Z.to_nat n)) as [Hk|Hk].
    - rewrite list_lookup_fmap, lookup_seq_lt by lia. cbn [fmap option_fmap option_map Nat.add].
      rewrite strlen_cstr.
      destruct (Nat.lt_ge_cases k (length (cstr src))) as [Hs|Hs].
      + destruct (Z.ltb_spec (Z.of_nat k) (Z.of_nat (length (cstr src)))); [|lia].
        rewrite lookup_app_l by (rewrite length_take; lia).
        rewrite lookup_take_lt by lia.
        destruct (cstr_prefix src) as [rest' E]. rewrite arr_get_nonneg by lia.
        rewrite Nat2Z.id.
        rewrite E at 1. rewrite lookup_app_l by lia.
        destruct (cstr src !! k) eqn:L; [done|]. apply lookup_ge_None in L. lia.
      + destruct (Z.ltb_spec (Z.of_nat k) (Z.of_nat (length (cstr src)))); [lia|].
        rewrite lookup_app_r by (rewrite length_take; lia).
        rewrite length_take, Nat.min_r by lia.
        symmetry. apply lookup_replicate_2. lia.
    - rewrite (proj2 (lookup_ge_None _ _)) by (rewrite length_map, length_seq; lia).
      symmetry. apply lookup_ge_None.
      rewrite length_app, length_take, length_replicate. lia. }
  rewrite EW, <- app_assoc.
  apply cstr_zeros. apply Forall_take, cstr_nonzero.
Qed.

Lemma read_chars_fst (b : list Z) (i n : Z) :
  0 <= n <= 31 ->
  fst (read_chars b i n) = frame_chars b i n ++ replicate (32 - Z.to_nat n) 0.
Proof.
  intros Hn. unfold read_chars, frame_chars. cbn [fst].
  rewrite Z.min_l by lia.
  rewrite (for_range_fill0 (fun j => getbitu b (i + 8 * j) 8))
    by (rewrite length_replicate; lia).
  by rewrite drop_replicate.
Qed.

Lemma read_chars_snd (b : list Z) (i n : Z) :
  0 <= n <= 31 -> snd (read_chars b i n) = i + 8 * n.
Proof. intros Hn. unfold read_chars. cbn [snd]. lia. Qed.

(** A descriptor read from the frame and copied to a member of [sta]: the
    member then holds, as a C string, the frame's characters up to the
    first NUL among them. *)
Lemma stored_descriptor (dst b : list Z) (i n : Z) :
  0 <= n <= 31 -> n < Z.of_nat (length dst) ->
  cstr (strncpy0 dst (fst (read_chars b i n)) n) = cstr (frame_chars b i n ++ [0]).
Proof.
  intros Hn Hd. rewrite strncpy0_cstr by lia. rewrite read_chars_fst by lia.
  assert (R : replicate (32 - Z.to_nat n) 0 = 0 :: replicate (31 - Z.to_nat n) 0).
  { replace (32 - Z.to_nat n)%nat with (S (31 - Z.to_nat n)) by lia. reflexivity. }
  rewrite R, cstr_app_nul.
  apply take_ge.
  pose proof (length_cstr_app_nul (frame_chars b i n)) as L.
  unfold frame_chars in L at 2. rewrite length_map, length_seq in L. lia.
Qed.

Lemma cstr_clear (a : list Z) : cstr (arr_set a 0 0) = [].
Proof. destruct a; reflexivity. Qed.

Ltac fold_bit_positions :=
  repeat match goal with
         | |- context [Z.pos ?p + Z.pos ?q] =>
             let v := eval vm_compute in (Z.pos p + Z.pos q) in
             change (Z.pos p + Z.pos q) with v
         end.

Ltac name_chars des j E :=
  match goal with
  | |- context [read_chars ?b ?i ?n] =>
      destruct (read_chars b i n) as [des j] eqn:E;
      let E1 := fresh in
      let E2 := fresh in
      pose proof (f_equal fst E) as E1; pose proof (f_equal snd E) as E2;
      cbn [fst snd] in E1, E2; clear E;
      rewrite read_chars_snd in E2 by lia; subst des j
  end.

Ltac stored_chars :=
  match goal with
  | |- cstr (strncpy0 _ (fst (read_chars _ ?p _)) _) = cstr (frame_chars _ ?q _ ++ _) =>
      replace q with p by lia; apply stored_descriptor; lia
  end.

Section Descriptors.
Context `{env : rtklib_h}.

Lemma test_staid_records (r : rtcm_t) (sid : Z) :
  snd (test_staid r sid) = 1 ->
  staid (fst (test_staid r sid)) = sid /\ sta (fst (test_staid r sid)) = sta r.
Proof.
  intros H. split; [|apply test_staid_keeps].
  revert H. unfold test_staid.
  destruct (match sta_option (opt r) with Some id => negb (sid =? id) | None => false end);
    [cbn; discriminate|].
  destruct ((staid r =? 0) || negb (obsflag r =? 0)); [done|].
  destruct (Z.eqb_spec sid (staid r)); cbn; [done|discriminate].
Qed.

(** The descriptor messages 1007, 1008 and 1033, on a frame that passes the
    station test and the decoder's length test and whose strings have at
    most 31 characters and fit their members: the status is 5, the frame's
    station id is recorded, each descriptor member holds as a C string the
    frame's characters of that field up to the first NUL among them, the
    setup id is the byte after the antenna descriptor, type 1007 empties
    the antenna serial number, 1007 and 1008 leave the receiver strings as
    they were, and the ARP members are not touched. *)
Theorem descriptors_stored (r : rtcm_t) :
  let b := buff r in
  let s := sta r in
  let n := getbitu b 48 8 in
  let m := getbitu b (64 + 8 * n) 8 in
  let n1 := getbitu b (72 + 8 * (n + m)) 8 in
  let n2 := getbitu b (80 + 8 * (n + m + n1)) 8 in
  let n3 := getbitu b (88 + 8 * (n + m + n1 + n2)) 8 in
  snd (test_staid r (frame_staid b)) = 1 ->
  n <= 31 -> n < Z.of_nat (length (sta_antdes s)) ->
  (bits1007 b <= len r * 8 ->
     let res := decode_type1007 r in
     let s' := sta (fst res) in
     snd res = 5 /\ staid (fst res) = frame_staid b /\ same_arp s s' /\
     cstr (sta_antdes s') = cstr (frame_chars b 56 n ++ [0]) /\
     sta_antsetup s' = getbitu b (56 + 8 * n) 8 /\
     cstr (sta_antsno s') = [] /\
     sta_rectype s' = sta_rectype s /\ sta_recver s' = sta_recver s /\
     sta_recsno s' = sta_recsno s) /\
  (bits1008 b <= len r * 8 ->
   m <= 31 -> m < Z.of_nat (length (sta_antsno s)) ->
     let res := decode_type1008 r in
     let s' := sta (fst res) in
     snd res = 5 /\ staid (fst res) = frame_staid b /\ same_arp s s' /\
     cstr (sta_antdes s') = cstr (frame_chars b 56 n ++ [0]) /\
     sta_antsetup s' = getbitu b (56 + 8 * n) 8 /\
     cstr (sta_antsno s') = cstr (frame_chars b (72 + 8 * n) m ++ [0]) /\
     sta_rectype s' = sta_rectype s /\ sta_recver s' = sta_recver s /\
     sta_recsno s' = sta_recsno s) /\
  (bits1033 b <= len r * 8 ->
   m <= 31 -> m < Z.of_nat (length (sta_antsno s)) ->
   n1 <= 31 -> n1 < Z.of_nat (length (sta_rectype s)) ->
   n2 <= 31 -> n2 < Z.of_nat (length (sta_recver s)) ->
   n3 <= 31 -> n3 < Z.of_nat (length (sta_recsno s)) ->
     let res := decode_type1033 r in
     let s' := sta (fst res) in
     snd res = 5 /\ staid (fst res) = frame_staid b /\ same_arp s s' /\
     cstr (sta_antdes s') = cstr (frame_chars b 56 n ++ [0]) /\
     sta_antsetup s' = getbitu b (56 + 8 * n) 8 /\
     cstr (sta_antsno s') = cstr (frame_chars b (72 + 8 * n) m ++ [0]) /\
     cstr (sta_rectype s') = cstr (frame_chars b (80 + 8 * (n + m)) n1 ++ [0]) /\
     cstr (sta_recver s') = cstr (frame_chars b (88 + 8 * (n + m + n1)) n2 ++ [0]) /\
     cstr (sta_recsno s')
     = cstr (frame_chars b (96 + 8 * (n + m + n1 + n2)) n3 ++ [0])).
Proof.
  cbv zeta. unfold frame_staid. intros Hpass Hn Ln.
  destruct (test_staid_records r _ Hpass) as [Hid Hsta].
  pose proof (getbitu_bound (buff r) 48 8 ltac:(lia)) as Bn.
  destruct (test_staid r (getbitu (buff r) 36 12)) as [r1 ok] eqn:T.
  cbn [fst snd] in Hpass, Hid, Hsta. subst ok.
  split; [|split].
  - unfold bits1007. intros Hlen.
    unfold decode_type1007. cbv zeta. fold_bit_positions.
    destruct (Z.leb_spec (64 + 8 * getbitu (buff r) 48 8) (len r * 8)); [|lia].
    name_chars des j E. rewrite T. change (1 =? 0) with false. cbv iota.
    cbn [fst snd sta set_sta sta_antdes sta_antsno sta_antsetup sta_rectype sta_recver
         sta_recsno staid]. rewrite Hsta.
    split; [reflexivity|]. split; [exact Hid|].
    split; [unfold same_arp; cbn; tauto|].
    split; [stored_chars|].
    split; [reflexivity|]. split; [apply cstr_clear|]. done.
  - unfold bits1008. cbv zeta. intros Hlen Hm Lm.
    pose proof (getbitu_bound (buff r) (64 + 8 * getbitu (buff r) 48 8) 8 ltac:(lia)) as Bm.
    unfold decode_type1008. cbv zeta. fold_bit_positions.
    match goal with
    | |- context [if ?a <=? ?c then _ else _] => destruct (Z.leb_spec a c); [|lia]
    end.
    name_chars des j E. name_chars sno j' E'.
    rewrite T. change (1 =? 0) with false. cbv iota.
    cbn [fst snd sta set_sta sta_antdes sta_antsno sta_antsetup sta_rectype sta_recver
         sta_recsno staid]. rewrite Hsta.
    split; [reflexivity|]. split; [exact Hid|].
    split; [unfold same_arp; cbn; tauto|].
    split; [stored_chars|].
    split; [reflexivity|]. split; [stored_chars|]. done.
  - unfold bits1033. cbv zeta. intros Hlen Hm Lm H1 L1 H2 L2 H3 L3.
    set (n := getbitu (buff r) 48 8) in *.
    set (m := getbitu (buff r) (64 + 8 * n) 8) in *.
    set (n1 := getbitu (buff r) (72 + 8 * (n + m)) 8) in *.
    set (n2 := getbitu (buff r) (80 + 8 * (n + m + n1)) 8) in *.
    set (n3 := getbitu (buff r) (88 + 8 * (n + m + n1 + n2)) 8) in *.
    assert (Bm : 0 <= m < 2 ^ 8) by (apply getbitu_bound; lia).
    assert (B1 : 0 <= n1 < 2 ^ 8) by (apply getbitu_bound; lia).
    assert (B2 : 0 <= n2 < 2 ^ 8) by (apply getbitu_bound; lia).
    assert (B3 : 0 <= n3 < 2 ^ 8) by (apply getbitu_bound; lia).
    unfold decode_type1033. cbv zeta. fold_bit_positions.
    fold n. fold m. fold n1. fold n2. fold n3.
    match goal with
    | |- context [if ?a <=? ?c then _ else _] => destruct (Z.leb_spec a c); [|lia]
    end.
    name_chars des j E. name_chars sno j' E'. name_chars rec j1 E1.
    name_chars ver j2 E2. name_chars rsn j3 E3.
    rewrite T. change (1 =? 0) with false. cbv iota.
    cbn [fst snd sta set_sta sta_antdes sta_antsno sta_antsetup sta_rectype sta_recver
         sta_recsno staid]. rewrite Hsta.
    split; [reflexivity|]. split; [exact Hid|].
    split; [unfold same_arp; cbn; tauto|].
    split; [stored_chars|].
    split; [reflexivity|].
    repeat split; stored_chars.
Qed.

End Descriptors.

Lemma descriptors_stored_witness :
  let res := decode_type1033 rtcm1033 in
  let s' := sta (fst res) in
  snd res = 5 /\ staid (fst res) = 123 /\
  cstr (sta_antdes s') = [65; 78; 84] /\ sta_antsetup s' = 1 /\
  cstr (sta_antsno s') = [83] /\ cstr (sta_rectype s') = [82; 88] /\
  cstr (sta_recver s') = [50] /\ cstr (sta_recsno s') = [].
Proof.
  pose proof (descriptors_stored rtcm1033) as H. cbv zeta in H.
  assert (H1 : snd (test_staid rtcm1033 (frame_staid (buff rtcm1033))) = 1)
    by (vm_compute; reflexivity).
  assert (H2 : getbitu (buff rtcm1033) 48 8 <= 31) by (vm_compute; discriminate).
  assert (H3 : getbitu (buff rtcm1033) 48 8
               < Z.of_nat (length (sta_antdes (sta rtcm1033))))
    by (vm_compute; reflexivity).
  destruct (H H1 H2 H3) as (_ & _ & P). clear H.
  match type of P with
  | ?A1 -> ?A2 -> ?A3 -> ?A4 -> ?A5 -> ?A6 -> ?A7 -> ?A8 -> ?A9 -> _ =>
      assert (G1 : A1) by (vm_compute; discriminate);
      assert (G2 : A2) by (vm_compute; discriminate);
      assert (G3 : A3) by (vm_compute; reflexivity);
      assert (G4 : A4) by (vm_compute; discriminate);
      assert (G5 : A5) by (vm_compute; reflexivity);
      assert (G6 : A6) by (vm_compute; discriminate);
      assert (G7 : A7) by (vm_compute; reflexivity);
      assert (G8 : A8) by (vm_compute; discriminate);
      assert (G9 : A9) by (vm_compute; reflexivity)
  end.
  destruct (P G1 G2 G3 G4 G5 G6 G7 G8 G9) as (P1 & P2 & _ & P3 & P4 & P5 & P6 & P7 & P8).
  clear P. cbv zeta.
  split; [exact P1|]. split; [rewrite P2; vm_compute; reflexivity|].
  split; [rewrite P3; vm_compute; reflexivity|].
  split; [rewrite P4; vm_compute; reflexivity|].
  split; [rewrite P5; vm_compute; reflexivity|].
  split; [rewrite P6; vm_compute; reflexivity|].
  split; [rewrite P7; vm_compute; reflexivity|].
  rewrite P8; vm_compute; reflexivity.
Defined.

(** * Header-only observation messages *)

Section HeaderOnly.
Context `{env : rtklib_h}.

Lemma sync_status (sync : Z) :
  0 <= sync < 2 -> (if sync =? 0 then 1 else 0) = 1 - sync.
Proof. intros H. destruct (Z.eqb_spec sync 0); lia. Qed.

Lemma decode_type1001_header_only (r : rtcm_t) :
  header_only r (decode_type1001 r) 88 78.
Proof.
  unfold header_only. cbv zeta.
  pose proof (test_staid_keeps r (getbitu (buff r) 36 12)) as K. cbv zeta in K.
  pose proof (getbitu_bound (buff r) 78 1 ltac:(lia)) as B. change (2 ^ 1) with 2 in B.
  unfold decode_type1001, decode_head1001. change (24 + 12) with 36.
  change (36 + 52) with 88. change (36 + 42) with 78.
  destruct (Z.leb_spec 88 (len r * 8)).
  - split; [intros; lia|].
    pose proof (test_staid_records r (getbitu (buff r) 36 12)) as R.
    destruct (test_staid r (getbitu (buff r) 36 12)) as [r1 ok].
    cbn [fst snd] in *. split.
    + intros _ ->. reflexivity.
    + intros _ ->. change (1 =? 0) with false. cbv iota.
      pose proof (getbitu_bound (buff r) (36 + 43) 5 ltac:(lia)) as N.
      destruct (Z.ltb_spec (getbitu (buff r) (36 + 43) 5) 0); [lia|].
      rewrite sync_status by lia. destruct (R eq_refl) as [R1 R2].
      cbn [fst snd obsflag staid obs sta nav_eph ssr set_obsflag adjweek set_rtime].
      tauto.
  - split; [reflexivity|]. split; intros; lia.
Qed.

Lemma decode_type1009_header_only (r : rtcm_t) :
  header_only r (decode_type1009 r) 85 75.
Proof.
  unfold header_only. cbv zeta.
  pose proof (test_staid_keeps r (getbitu (buff r) 36 12)) as K. cbv zeta in K.
  pose proof (getbitu_bound (buff r) 75 1 ltac:(lia)) as B. change (2 ^ 1) with 2 in B.
  unfold decode_type1009, decode_head1009. change (24 + 12) with 36.
  change (36 + 49) with 85. change (36 + 39) with 75.
  destruct (Z.leb_spec 85 (len r * 8)).
  - split; [intros; lia|].
    pose proof (test_staid_records r (getbitu (buff r) 36 12)) as R.
    destruct (test_staid r (getbitu (buff r) 36 12)) as [r1 ok].
    cbn [fst snd] in *. split.
    + intros _ ->. reflexivity.
    + intros _ ->. change (1 =? 0) with false. cbv iota.
      pose proof (getbitu_bound (buff r) (36 + 40) 5 ltac:(lia)) as N.
      destruct (Z.ltb_spec (getbitu (buff r) (36 + 40) 5) 0); [lia|].
      rewrite sync_status by lia. destruct (R eq_refl) as [R1 R2].
      cbn [fst snd obsflag staid obs sta nav_eph ssr set_obsflag adjday_glot set_rtime].
      tauto.
  - split; [reflexivity|]. split; intros; lia.
Qed.

(** The header-only observation messages of GPS (1001, 1003) and GLONASS
    (1009, 1011): -1 for a frame shorter than the header (88 and 85 bits)
    or refused by the station test; otherwise the status is 1 exactly when
    the synchronous-message flag (bit 78, bit 75) is clear, obsflag takes
    the same value, the station id is recorded and the observation buffer,
    station record and tables stay as they were. *)
Theorem header_only_status (r : rtcm_t) :
  header_only r (decode_type1001 r) 88 78 /\
  header_only r (decode_type1003 r) 88 78 /\
  header_only r (decode_type1009 r) 85 75 /\
  header_only r (decode_type1011 r) 85 75.
Proof.
  unfold decode_type1003, decode_type1011.
  pose proof (decode_type1001_header_only r).
  pose proof (decode_type1009_header_only r). tauto.
Qed.

End HeaderOnly.

(** * The station option and the tracking-mode tables *)





Lemma ssr_tables_ok (codes : list Z) (ncode : Z) :
  In (codes, ncode) ssr_tables ->
  Z.of_nat (length codes) = ncode /\ Forall (fun c => 1 <= c <= 48) codes /\ NoDup codes.
Proof.
  unfold ssr_tables. cbn [In].
  intros [H|[H|[H|[H|[H|[H|[]]]]]]]; injection H as <- <-;
    (split; [reflexivity|]);
    (split; [apply (bool_decide_unpack _); vm_compute; exact I|]);
    apply (bool_decide_unpack _); vm_compute; exact I.
Qed.

(** A code bias whose tracking mode lies inside the table of its system
    (mode < ncode) is stored in the slot of the observation code the table
    gives for that mode: the code is a valid one (1..48, so the slot is in
    the array) and no other mode of the table shares it. *)
Theorem ssr3_bias_slot (codes : list Z) (ncode : Z) (b : list Z) (len i : Z)
    (cbias : list Z) :
  In (codes, ncode) ssr_tables ->
  i + 19 <= len * 8 -> getbitu b i 5 < ncode ->
  exists c,
    codes !! Z.to_nat (getbitu b i 5) = Some c /\ 1 <= c <= 48 /\
    ssr3_biases 1 b len codes ncode i cbias
    = Some (i + 19, arr_set cbias (c - 1) (getbits b (i + 5) 14)) /\
    forall k, codes !! k = Some c -> k = Z.to_nat (getbitu b i 5).
Proof.
  intros Hin Hlen Hmode.
  destruct (ssr_tables_ok codes ncode Hin) as (L & F & N).
  pose proof (getbitu_bound b i 5 ltac:(lia)) as B.
  destruct (codes !! Z.to_nat (getbitu b i 5)) as [c|] eqn:E;
    [|apply lookup_ge_None in E; lia].
  exists c. split; [reflexivity|].
  split; [exact (proj1 (Forall_lookup _ _) F _ _ E)|].
  split.
  - cbn [ssr3_biases]. destruct (Z.leb_spec (i + 19) (len * 8)); [|lia].
    destruct (Z.leb_spec (getbitu b i 5) ncode); [|lia]. by rewrite E.
  - intros k Hk. exact (NoDup_lookup _ _ _ _ N Hk E).
Qed.

Lemma ssr3_bias_slot_witness :
  exists c,
    codes_gal !! Z.to_nat (getbitu [11 * 8] 0 5) = Some c /\ 1 <= c <= 48 /\
    ssr3_biases 1 [11 * 8] 3 codes_gal 19 0 (replicate 48 0)
    = Some (0 + 19, arr_set (replicate 48 0) (c - 1) (getbits [11 * 8] (0 + 5) 14)) /\
    forall k, codes_gal !! k = Some c -> k = Z.to_nat (getbitu [11 * 8] 0 5).
Proof.
  apply (ssr3_bias_slot codes_gal 19 [11 * 8] 3 0 (replicate 48 0)).
  - unfold ssr_tables. cbn [In]. tauto.
  - lia.
  - vm_compute. reflexivity.
Defined.
